(** * WinLamb: a shallow embedding of the message dispatch core and utilities

    The development follows the headers of the library:
    - [insert_order_map.h]: the vector-backed map that keeps insertion order;
    - [str.h]: [guess_linebreak] and [split];
    - [accel_table.h]: the accelerator table builder;
    - [internals/base_msg_handler.h], [internals/msg_proxy.h],
      [internals/ui_work.h], [internals/base_dialog.h]: handler stores,
      registration proxies, the UI-thread bridge and the dialog procedure.

    Integers of the C++ code are [Z] with the wrap-around written out.
    Part I holds the definitions, Part II the theorems. *)

From Stdlib Require Import ZArith Lia.
From stdpp Require Import base option list strings gmap.

Local Open Scope Z_scope.

(** * Part I: definitions *)

(** ** Machine integers (64-bit Windows target) *)

Module Win32.

(** [size_t], [WPARAM], [UINT_PTR] are 64 bits wide; [UINT] is 32, [WORD] 16,
    [BYTE] 8. *)
Definition wrap (bits : Z) (x : Z) : Z := x mod 2 ^ bits.

Definition size_t (x : Z) : Z := wrap 64 x.
Definition to_WORD (x : Z) : Z := wrap 16 x.
Definition to_BYTE (x : Z) : Z := wrap 8 x.

(** [static_cast<size_t>(-1)], also [std::wstring::npos]. *)
Definition SIZE_MAX : Z := size_t (-1).

End Win32.

(** ** Window message identifiers (WinUser.h, Ras.h) *)

Module WinUser.

Definition WM_CREATE : Z := 0x0001.
Definition WM_DESTROY : Z := 0x0002.
Definition WM_MOVE : Z := 0x0003.
Definition WM_SIZE : Z := 0x0005.
Definition WM_ACTIVATE : Z := 0x0006.
Definition WM_SETFOCUS : Z := 0x0007.
Definition WM_KILLFOCUS : Z := 0x0008.
Definition WM_ENABLE : Z := 0x000a.
Definition WM_SETREDRAW : Z := 0x000b.
Definition WM_SETTEXT : Z := 0x000c.
Definition WM_GETTEXT : Z := 0x000d.
Definition WM_GETTEXTLENGTH : Z := 0x000e.
Definition WM_PAINT : Z := 0x000f.
Definition WM_CLOSE : Z := 0x0010.
Definition WM_QUERYENDSESSION : Z := 0x0011.
Definition WM_QUERYOPEN : Z := 0x0013.
Definition WM_ERASEBKGND : Z := 0x0014.
Definition WM_SYSCOLORCHANGE : Z := 0x0015.
Definition WM_ENDSESSION : Z := 0x0016.
Definition WM_SHOWWINDOW : Z := 0x0018.
Definition WM_SETTINGCHANGE : Z := 0x001a.
Definition WM_DEVMODECHANGE : Z := 0x001b.
Definition WM_ACTIVATEAPP : Z := 0x001c.
Definition WM_FONTCHANGE : Z := 0x001d.
Definition WM_TIMECHANGE : Z := 0x001e.
Definition WM_CANCELMODE : Z := 0x001f.
Definition WM_SETCURSOR : Z := 0x0020.
Definition WM_MOUSEACTIVATE : Z := 0x0021.
Definition WM_CHILDACTIVATE : Z := 0x0022.
Definition WM_GETMINMAXINFO : Z := 0x0024.
Definition WM_NEXTDLGCTL : Z := 0x0028.
Definition WM_SPOOLERSTATUS : Z := 0x002a.
Definition WM_DRAWITEM : Z := 0x002b.
Definition WM_MEASUREITEM : Z := 0x002c.
Definition WM_DELETEITEM : Z := 0x002d.
Definition WM_VKEYTOITEM : Z := 0x002e.
Definition WM_CHARTOITEM : Z := 0x002f.
Definition WM_SETFONT : Z := 0x0030.
Definition WM_GETFONT : Z := 0x0031.
Definition WM_SETHOTKEY : Z := 0x0032.
Definition WM_GETHOTKEY : Z := 0x0033.
Definition WM_QUERYDRAGICON : Z := 0x0037.
Definition WM_COMPAREITEM : Z := 0x0039.
Definition WM_COMPACTING : Z := 0x0041.
Definition WM_WINDOWPOSCHANGING : Z := 0x0046.
Definition WM_WINDOWPOSCHANGED : Z := 0x0047.
Definition WM_COPYDATA : Z := 0x004a.
Definition WM_NOTIFY : Z := 0x004e.
Definition WM_INPUTLANGCHANGEREQUEST : Z := 0x0050.
Definition WM_INPUTLANGCHANGE : Z := 0x0051.
Definition WM_TCARD : Z := 0x0052.
Definition WM_HELP : Z := 0x0053.
Definition WM_NOTIFYFORMAT : Z := 0x0055.
Definition WM_CONTEXTMENU : Z := 0x007b.
Definition WM_STYLECHANGING : Z := 0x007c.
Definition WM_STYLECHANGED : Z := 0x007d.
Definition WM_DISPLAYCHANGE : Z := 0x007e.
Definition WM_GETICON : Z := 0x007f.
Definition WM_SETICON : Z := 0x0080.
Definition WM_NCCREATE : Z := 0x0081.
Definition WM_NCDESTROY : Z := 0x0082.
Definition WM_NCCALCSIZE : Z := 0x0083.
Definition WM_NCHITTEST : Z := 0x0084.
Definition WM_NCPAINT : Z := 0x0085.
Definition WM_NCACTIVATE : Z := 0x0086.
Definition WM_GETDLGCODE : Z := 0x0087.
Definition WM_SYNCPAINT : Z := 0x0088.
Definition WM_NCMOUSEMOVE : Z := 0x00a0.
Definition WM_NCLBUTTONDOWN : Z := 0x00a1.
Definition WM_NCLBUTTONUP : Z := 0x00a2.
Definition WM_NCLBUTTONDBLCLK : Z := 0x00a3.
Definition WM_NCRBUTTONDOWN : Z := 0x00a4.
Definition WM_NCRBUTTONUP : Z := 0x00a5.
Definition WM_NCRBUTTONDBLCLK : Z := 0x00a6.
Definition WM_NCMBUTTONDOWN : Z := 0x00a7.
Definition WM_NCMBUTTONUP : Z := 0x00a8.
Definition WM_NCMBUTTONDBLCLK : Z := 0x00a9.
Definition WM_NCXBUTTONDOWN : Z := 0x00ab.
Definition WM_NCXBUTTONUP : Z := 0x00ac.
Definition WM_NCXBUTTONDBLCLK : Z := 0x00ad.
Definition WM_KEYDOWN : Z := 0x0100.
Definition WM_KEYUP : Z := 0x0101.
Definition WM_CHAR : Z := 0x0102.
Definition WM_DEADCHAR : Z := 0x0103.
Definition WM_SYSKEYDOWN : Z := 0x0104.
Definition WM_SYSKEYUP : Z := 0x0105.
Definition WM_SYSCHAR : Z := 0x0106.
Definition WM_SYSDEADCHAR : Z := 0x0107.
Definition WM_INITDIALOG : Z := 0x0110.
Definition WM_COMMAND : Z := 0x0111.
Definition WM_SYSCOMMAND : Z := 0x0112.
Definition WM_TIMER : Z := 0x0113.
Definition WM_HSCROLL : Z := 0x0114.
Definition WM_VSCROLL : Z := 0x0115.
Definition WM_INITMENU : Z := 0x0116.
Definition WM_INITMENUPOPUP : Z := 0x0117.
Definition WM_MENUSELECT : Z := 0x011f.
Definition WM_MENUCHAR : Z := 0x0120.
Definition WM_ENTERIDLE : Z := 0x0121.
Definition WM_MENURBUTTONUP : Z := 0x0122.
Definition WM_MENUDRAG : Z := 0x0123.
Definition WM_MENUGETOBJECT : Z := 0x0124.
Definition WM_UNINITMENUPOPUP : Z := 0x0125.
Definition WM_CTLCOLOREDIT : Z := 0x0133.
Definition WM_CTLCOLORLISTBOX : Z := 0x0134.
Definition WM_CTLCOLORBTN : Z := 0x0135.
Definition WM_CTLCOLORDLG : Z := 0x0136.
Definition WM_CTLCOLORSCROLLBAR : Z := 0x0137.
Definition WM_CTLCOLORSTATIC : Z := 0x0138.
Definition WM_MOUSEMOVE : Z := 0x0200.
Definition WM_LBUTTONDOWN : Z := 0x0201.
Definition WM_LBUTTONUP : Z := 0x0202.
Definition WM_LBUTTONDBLCLK : Z := 0x0203.
Definition WM_RBUTTONDOWN : Z := 0x0204.
Definition WM_RBUTTONUP : Z := 0x0205.
Definition WM_RBUTTONDBLCLK : Z := 0x0206.
Definition WM_MBUTTONDOWN : Z := 0x0207.
Definition WM_MBUTTONUP : Z := 0x0208.
Definition WM_MBUTTONDBLCLK : Z := 0x0209.
Definition WM_MOUSEWHEEL : Z := 0x020a.
Definition WM_MOUSEHWHEEL : Z := 0x020e.
Definition WM_PARENTNOTIFY : Z := 0x0210.
Definition WM_ENTERMENULOOP : Z := 0x0211.
Definition WM_EXITMENULOOP : Z := 0x0212.
Definition WM_NEXTMENU : Z := 0x0213.
Definition WM_SIZING : Z := 0x0214.
Definition WM_CAPTURECHANGED : Z := 0x0215.
Definition WM_MOVING : Z := 0x0216.
Definition WM_POWERBROADCAST : Z := 0x0218.
Definition WM_DEVICECHANGE : Z := 0x0219.
Definition WM_MDIACTIVATE : Z := 0x0222.
Definition WM_ENTERSIZEMOVE : Z := 0x0231.
Definition WM_EXITSIZEMOVE : Z := 0x0232.
Definition WM_DROPFILES : Z := 0x0233.
Definition WM_NCMOUSEHOVER : Z := 0x02a0.
Definition WM_MOUSEHOVER : Z := 0x02a1.
Definition WM_NCMOUSELEAVE : Z := 0x02a2.
Definition WM_MOUSELEAVE : Z := 0x02a3.
Definition WM_RENDERFORMAT : Z := 0x0305.
Definition WM_RENDERALLFORMATS : Z := 0x0306.
Definition WM_DESTROYCLIPBOARD : Z := 0x0307.
Definition WM_DRAWCLIPBOARD : Z := 0x0308.
Definition WM_PAINTCLIPBOARD : Z := 0x0309.
Definition WM_VSCROLLCLIPBOARD : Z := 0x030a.
Definition WM_SIZECLIPBOARD : Z := 0x030b.
Definition WM_ASKCBFORMATNAME : Z := 0x030c.
Definition WM_CHANGECBCHAIN : Z := 0x030d.
Definition WM_HSCROLLCLIPBOARD : Z := 0x030e.
Definition WM_QUERYNEWPALETTE : Z := 0x030f.
Definition WM_PALETTEISCHANGING : Z := 0x0310.
Definition WM_PALETTECHANGED : Z := 0x0311.
Definition WM_HOTKEY : Z := 0x0312.
Definition WM_PRINT : Z := 0x0317.
Definition WM_PRINTCLIENT : Z := 0x0318.
Definition WM_APPCOMMAND : Z := 0x0319.
Definition WM_CLIPBOARDUPDATE : Z := 0x031d.
Definition WM_GETTITLEBARINFOEX : Z := 0x033f.
Definition WM_APP : Z := 0x8000.
Definition WM_RASDIALEVENT : Z := 0xcccd.

Definition TRUE : Z := 1.
Definition FALSE : Z := 0.

(** [LOWORD(l)]: the low 16 bits. *)
Definition LOWORD (l : Z) : Z := Z.land l 0xffff.

End WinUser.


(** ** insert_order_map.h *)

Module insert_order_map.
Import Win32.

(** [struct entry { K key; V val; }] *)
Record entry (K V : Type) := mk_entry { key : K; val : V }.
Arguments mk_entry {K V} _ _.
Arguments key {K V} _.
Arguments val {K V} _.

(** The only data member is [std::vector<entry> _entries]. *)
Definition t (K V : Type) : Type := list (entry K V).

Definition empty_map {K V} : t K V := [].

(** The loop of [_find_idx], started at index [i] on the remaining entries:
    [for (size_t i = 0; i < size(); ++i) if (_entries[i].key == key) return i;
     return -1;] *)
Fixpoint _find_idx_from `{EqDecision K} {V} (k : K) (es : list (entry K V))
    (i : Z) : Z :=
  match es with
  | [] => SIZE_MAX
  | e :: es' =>
      if decide (key e = k) then i else _find_idx_from k es' (size_t (i + 1))
  end.

Definition _find_idx `{EqDecision K} {V} (k : K) (m : t K V) : Z :=
  _find_idx_from k m 0.

(** [contains(key)]: [_find_idx(key) != -1]. *)
Definition contains `{EqDecision K} {V} (k : K) (m : t K V) : bool :=
  negb (_find_idx k m =? SIZE_MAX).

Definition size {K V} (m : t K V) : Z := Z.of_nat (length m).

(** An iterator is represented by its offset from [begin()]. *)
Definition iterator := Z.

(** [emplace(key, val)]: the new vector and the returned pair. *)
Definition emplace `{EqDecision K} {V} (k : K) (v : V) (m : t K V)
    : t K V * (iterator * bool) :=
  let idx := _find_idx k m in
  if idx =? SIZE_MAX then
    let m' := m ++ [mk_entry k v] in
    (m', (size m' - 1, true))        (* {--end(), true} *)
  else
    (m, (idx, false)).               (* {begin() + idx, false} *)

(** Default-initialisation. [explicit entry(const K& key) : key{key} { }]
    gives [val] no initialiser, so [val] is default-initialised: the default
    constructor runs for a class type, and a scalar is left with an
    indeterminate value. A scalar type [T] of the C++ code is modelled by
    [scalar T], whose [indeterminate] is that state; there is no instance
    for a bare number. *)
Inductive scalar (T : Type) : Type :=
| indeterminate
| determinate (x : T).
Arguments indeterminate {T}.
Arguments determinate {T} _.

Class DefaultInit (V : Type) : Type := default_initialized : V.

#[global] Instance scalar_default_init {T} : DefaultInit (scalar T) :=
  indeterminate.

(** [std::wstring], [std::vector]: the default constructor builds the empty
    container. *)
#[global] Instance list_default_init {A} : DefaultInit (list A) := [].

(** [emplace(key)]: the entry is built by [entry(const K&)], its value is
    default-initialised. *)
Definition emplace_key `{EqDecision K} `{DefaultInit V} (k : K) (m : t K V)
    : t K V * (iterator * bool) :=
  let idx := _find_idx k m in
  if idx =? SIZE_MAX then
    let m' := m ++ [mk_entry k default_initialized] in
    (m', (size m' - 1, true))
  else
    (m, (idx, false)).

(** [operator[](key)]: the new vector and the position of the entry whose
    [val] the returned reference designates. *)
Definition subscript `{EqDecision K} `{DefaultInit V} (k : K) (m : t K V)
    : t K V * iterator :=
  let idx := _find_idx k m in
  if idx =? SIZE_MAX then
    let '(m', (it, _)) := emplace_key k m in (m', it)
  else
    (m, idx).

(** Reading through an iterator or a reference. *)
Definition at_iterator {K V} (m : list (entry K V)) (it : iterator)
  : option (entry K V) :=
  if it <? 0 then None else m !! Z.to_nat it.

Definition keys {K V} (m : list (entry K V)) : list K := key <$> m.

(** Specification side: the maps that calls of [emplace(key, val)],
  [emplace(key)] and [operator[]] build, starting from the empty map. *)
Inductive built `{EqDecision K} `{DefaultInit V} : t K V -> Prop :=
| built_empty : built empty_map
| built_emplace k v m : built m -> built (emplace k v m).1
| built_emplace_key k m : built m -> built (emplace_key k m).1
| built_subscript k m : built m -> built (subscript k m).1.

(** A map from numbers to strings built by four calls, the third with a key
  already present. *)
Definition sample_map : t Z (list Z) :=
  (emplace 7 [70]
   (emplace 3 [31] (emplace 3 [30] (emplace 5 [50] empty_map).1).1).1).1.

(** A map from [int] to [int] with one entry. *)
Definition sample_int_map : t Z (scalar Z) :=
  (emplace 5 (determinate 50) empty_map).1.

(** [find(key)] through [_find_val]: the value of the entry found, if any.
    An index other than [-1] is the index of an entry, so [_entries[idx]]
    is inside the vector. *)
Definition find `{EqDecision K} {V} (k : K) (m : list (entry K V))
    : option V :=
  let idx := _find_idx k m in
  if idx =? SIZE_MAX then None else val <$> at_iterator m idx.

(** Specification side: the entries as key/value pairs, in vector order. *)
Definition pairs {K V} (m : list (entry K V)) : list (K * V) :=
  (fun e => (key e, val e)) <$> m.

(** [clear()] and [empty()] *)
Definition clear {K V} (m : t K V) : t K V := [].
Definition empty {K V} (m : t K V) : bool := bool_decide (m = []).

(** Client code: [emplace(key, val)] called for each pair in turn. *)
Definition emplace_all `{EqDecision K} {V} (kvs : list (K * V)) (m : t K V)
    : t K V :=
  foldl (fun m kv => (emplace kv.1 kv.2 m).1) m kvs.

(** Specification side: the value paired with the first occurrence of [k]. *)
Fixpoint first_value `{EqDecision K} {V} (k : K) (kvs : list (K * V))
    : option V :=
  match kvs with
  | [] => None
  | (k', v) :: kvs' => if decide (k' = k) then Some v else first_value k kvs'
  end.

(** Specification side: the distinct keys of [ks], each at its first
    occurrence, after the keys [seen]. *)
Fixpoint first_occurrences `{EqDecision K} (seen ks : list K) : list K :=
  match ks with
  | [] => []
  | k :: ks' =>
      if decide (k ∈ seen) then first_occurrences seen ks'
      else k :: first_occurrences (seen ++ [k]) ks'
  end.

End insert_order_map.

(** ** Outcomes of C++ calls

    A call either returns, throws, or has undefined behaviour (a read
    outside a string, a dereference of a pointer that designates no object).
    The state reached is kept in the first two cases, so that what a throwing
    call leaves behind can be stated. *)

Module Cpp.

Inductive exn : Type :=
| logic_error (what : string)
| system_error (code : Z) (what : string)
| other_exception.

Inductive res (S X : Type) : Type :=
| Ret (s : S) (x : X)
| Exc (s : S) (e : exn)
| UB.
Arguments Ret {S X} _ _.
Arguments Exc {S X} _ _.
Arguments UB {S X}.

Definition bind {S X Y} (m : res S X) (k : S -> X -> res S Y) : res S Y :=
  match m with
  | Ret s x => k s x
  | Exc s e => Exc s e
  | UB => UB
  end.

Definition returned {S X} (m : res S X) : Prop :=
  match m with Ret _ _ => True | _ => False end.

End Cpp.

Notation "'let*' ( s , x ) := m 'in' k" :=
  (Cpp.bind m (fun s x => k))
  (at level 10, s name, x name, m at level 100, k at level 200,
   only parsing).

(** ** str.h *)

Module str.
Import Win32.

(** [wchar_t] is a 16-bit code unit; a [std::wstring_view] is the sequence of
    its code units. *)
Definition wchar_t : Type := Z.
Definition wstring : Type := list wchar_t.

Definition CR : wchar_t := 13.   (* L'\r' *)
Definition LF : wchar_t := 10.   (* L'\n' *)

Definition length (s : wstring) : Z := Z.of_nat (List.length s).

(** [s[i]]: defined only for [i < s.length()]. *)
Definition at_index (s : wstring) (i : Z) : option wchar_t :=
  if (0 <=? i) && (i <? length s) then s !! Z.to_nat i else None.

(** Specification side: [i] is the index of a character of [s]. *)
Definition in_range (s : wstring) (i : Z) : Prop := 0 <= i < length s.

(** The four string literals [guess_linebreak] can return. *)
Inductive linebreak : Type := RN | R | NR | N.

Definition linebreak_chars (lb : linebreak) : wstring :=
  match lb with
  | RN => [CR; LF]
  | R => [CR]
  | NR => [LF; CR]
  | N => [LF]
  end.

(** What a run of [guess_linebreak] does: the indices it reads, in order, and
    how it ends. [Returned None] is the [nullptr] result; [BadRead i] is a
    read of [s[i]] with [i] outside the string. *)
Inductive ending : Type :=
| Returned (lb : option linebreak)
| BadRead (i : Z).

Record run : Type := mk_run { reads : list Z; result : ending }.

(** The loop [for (size_t i = 0; i < s.length() - 1; ++i)]; the bound is
    computed in [size_t]. [None] means the fuel ran out. *)
Fixpoint guess_linebreak_loop (fuel : nat) (s : wstring) (i : Z)
    (seen : list Z) : option run :=
  match fuel with
  | O => None
  | S fuel' =>
      if i <? size_t (length s - 1) then
        match at_index s i with
        | None => Some (mk_run (seen ++ [i]) (BadRead i))
        | Some c =>
            if c =? CR then
              match at_index s (size_t (i + 1)) with
              | None => Some (mk_run (seen ++ [i; size_t (i + 1)])
                                     (BadRead (size_t (i + 1))))
              | Some c' =>
                  Some (mk_run (seen ++ [i; size_t (i + 1)])
                               (Returned (Some (if c' =? LF then RN else R))))
              end
            else if c =? LF then
              match at_index s (size_t (i + 1)) with
              | None => Some (mk_run (seen ++ [i; size_t (i + 1)])
                                     (BadRead (size_t (i + 1))))
              | Some c' =>
                  Some (mk_run (seen ++ [i; size_t (i + 1)])
                               (Returned (Some (if c' =? CR then NR else N))))
              end
            else guess_linebreak_loop fuel' s (size_t (i + 1)) (seen ++ [i])
        end
      else Some (mk_run seen (Returned None))
  end.

(** Every iteration that continues has read [s[i]] inside the string, so
    [length s + 1] iterations are enough. *)
Definition guess_linebreak (s : wstring) : option run :=
  guess_linebreak_loop (S (List.length s)) s 0 [].

(** [std::wstring::npos] *)
Definition npos : Z := SIZE_MAX.

(** [is_prefix d s]: [s] starts with [d]. *)
Fixpoint is_prefix (d s : wstring) : bool :=
  match d, s with
  | [], _ => true
  | _ :: _, [] => false
  | x :: d', y :: s' => (x =? y) && is_prefix d' s'
  end.

(** Offset of the first occurrence of [d] in [s], if any. *)
Fixpoint first_occurrence (d s : wstring) : option nat :=
  if is_prefix d s then Some 0%nat
  else match s with
       | [] => None
       | _ :: s' => S <$> first_occurrence d s'
       end.

(** [s.find(d, pos)] of [std::basic_string_view]: the lowest position
    [>= pos] at which [d] occurs, or [npos]. *)
Definition find (s d : wstring) (pos : Z) : Z :=
  if length s <? pos then npos
  else match first_occurrence d (drop (Z.to_nat pos) s) with
       | Some off => pos + Z.of_nat off
       | None => npos
       end.

(** [s.substr(pos, n)] as used by [insert(0, s, pos, n)]; [pos] never exceeds
    the length in [split]. *)
Definition substr (s : wstring) (pos n : Z) : wstring :=
  take (Z.to_nat n) (drop (Z.to_nat pos) s).

(** The [for (;;)] loop of [split] and the statements after it. In the source
    [base] and [head] are equal whenever the loop body starts. *)
Fixpoint split_loop (fuel : nat) (s d : wstring) (base head : Z)
    (ret : list wstring) : option (list wstring) :=
  match fuel with
  | O => None
  | S fuel' =>
      let head := find s d head in
      if head =? npos then
        Some (ret ++ [substr s base (size_t (length s - base))])
      else
        let ret := ret ++ [substr s base (size_t (head - base))] in
        let head := size_t (head + length d) in
        split_loop fuel' s d head head ret
  end.

Definition split (s d : wstring) : option (list wstring) :=
  if bool_decide (s = []) then Some []
  else if bool_decide (d = []) then Some [s]
  else split_loop (S (List.length s)) s d 0 0 [].

(** Specification side: the pieces joined with the delimiter between them. *)
Fixpoint join (d : wstring) (pieces : list wstring) : wstring :=
  match pieces with
  | [] => []
  | [p] => p
  | p :: ps => p ++ d ++ join d ps
  end.

(** Specification side: the number of non-overlapping occurrences of [d]
    met when reading [s] from left to right; [skip] characters of an
    occurrence just counted are still to be passed. *)
Fixpoint occurrences_from (d : wstring) (skip : nat) (s : wstring) : nat :=
  match s with
  | [] => 0%nat
  | _ :: s' =>
      match skip with
      | S k => occurrences_from d k s'
      | O =>
          if is_prefix d s
          then S (occurrences_from d (List.length d - 1) s')
          else occurrences_from d 0 s'
      end
  end.

Definition occurrences (d s : wstring) : nat := occurrences_from d 0 s.

(** Specification side: [d] occurs somewhere in [s]. *)
Definition occurs_in (d s : wstring) : Prop :=
  exists l1 l2, s = l1 ++ d ++ l2.

(** *** [reverse] *)

(** [std::swap(s[i], s[j])]; both indices are inside the string wherever
    [reverse] swaps. *)
Definition swap_chars (s : wstring) (i j : Z) : wstring :=
  match at_index s i, at_index s j with
  | Some x, Some y => <[Z.to_nat j := x]> (<[Z.to_nat i := y]> s)
  | _, _ => s
  end.

(** The loop [for (size_t i = 0; i < lim; ++i)], [todo] iterations from [i]
    on. *)
Fixpoint reverse_loop (todo : nat) (i : Z) (s : wstring) : wstring :=
  match todo with
  | O => s
  | S todo' =>
      reverse_loop todo' (size_t (i + 1))
                   (swap_chars s i (size_t (length s - i - 1)))
  end.

Definition reverse (s : wstring) : wstring :=
  let lim := size_t (length s - length s mod 2) / 2 in
  reverse_loop (Z.to_nat lim) 0 s.

(** *** [replace] *)

(** The [for (;;)] loop of [replace]; [base] and [found] are equal whenever
    the body starts. *)
Fixpoint replace_loop (fuel : nat) (haystack needle replacement : wstring)
    (base found : Z) (output : wstring) : option wstring :=
  match fuel with
  | O => None
  | S fuel' =>
      let found := find haystack needle found in
      let output := output ++ substr haystack base (size_t (found - base)) in
      if negb (found =? npos) then
        let output := output ++ replacement in
        let found := size_t (found + length needle) in
        replace_loop fuel' haystack needle replacement found found output
      else Some output
  end.

(** The new value of [haystack]. *)
Definition replace (haystack needle replacement : wstring) : option wstring :=
  if bool_decide (haystack = []) || bool_decide (needle = []) then
    Some haystack
  else
    replace_loop (S (List.length haystack)) haystack needle replacement 0 0 [].

(** *** [is_uint], [is_int], [is_float], [begins_with] *)

(** The character classification functions of the C library. *)
Class CType : Type := {
  iswdigit : wchar_t -> bool;
  iswblank : wchar_t -> bool;
  iswspace : wchar_t -> bool
}.

Definition MINUS : wchar_t := 45.   (* L'-' *)
Definition DOT : wchar_t := 46.     (* L'.' *)

Definition is_uint `{CType} (s : wstring) : bool :=
  if bool_decide (s = []) then false
  else forallb (fun ch => iswdigit ch || iswblank ch) s.

Definition is_int `{CType} (s : wstring) : bool :=
  match s with
  | [] => false
  | c0 :: _ =>
      if negb (c0 =? MINUS) && negb (iswdigit c0) && negb (iswblank c0)
      then false
      else forallb (fun ch => iswdigit ch || iswblank ch) s
  end.

(** The loop of [is_float] with its [hasDot] flag. *)
Fixpoint is_float_loop `{CType} (hasDot : bool) (s : wstring) : bool :=
  match s with
  | [] => true
  | ch :: s' =>
      if ch =? DOT then
        if hasDot then false else is_float_loop true s'
      else if negb (iswdigit ch) && negb (iswblank ch) then false
      else is_float_loop hasDot s'
  end.

Definition is_float `{CType} (s : wstring) : bool :=
  match s with
  | [] => false
  | c0 :: _ =>
      if negb (c0 =? MINUS) && negb (c0 =? DOT) && negb (iswdigit c0)
         && negb (iswblank c0)
      then false
      else is_float_loop false s
  end.

(** [wcsncmp(a, b, n) == 0]: the first [n] code units agree, where a NUL met
    in both strings ends the comparison. Both strings have [n] code units
    where [begins_with] calls it. *)
Fixpoint wcsncmp_is_zero (a b : wstring) (n : nat) : bool :=
  match n with
  | O => true
  | S n' =>
      match a, b with
      | x :: a', y :: b' =>
          if x =? y then (if x =? 0 then true else wcsncmp_is_zero a' b' n')
          else false
      | _, _ => false
      end
  end.

Definition begins_with (s what : wstring) : bool :=
  if bool_decide (s = []) || bool_decide (what = [])
     || (length s <? length what)
  then false
  else wcsncmp_is_zero s what (Z.to_nat (length what)).

(** The classification of the "C" locale, for examples. *)
Definition c_locale : CType :=
  {| iswdigit := fun c => (48 <=? c) && (c <=? 57);
     iswblank := fun c => (c =? 32) || (c =? 9);
     iswspace := fun c => (c =? 32) || ((9 <=? c) && (c <=? 13)) |}.

(** *** [remove_diacritics] *)

(** The two string literals of [remove_diacritics], as code units. *)
Definition diacritics : wstring :=
  [0xc1; 0xe1; 0xc0; 0xe0; 0xc3; 0xe3; 0xc2; 0xe2; 0xc4; 0xe4; 0xc9; 0xe9;
   0xc8; 0xe8; 0xca; 0xea; 0xcb; 0xeb; 0xcd; 0xed; 0xcc; 0xec; 0xce; 0xee;
   0xcf; 0xef; 0xd3; 0xf3; 0xd2; 0xf2; 0xd5; 0xf5; 0xd4; 0xf4; 0xd6; 0xf6;
   0xda; 0xfa; 0xd9; 0xf9; 0xdb; 0xfb; 0xdc; 0xfc; 0xc7; 0xe7; 0xc5; 0xe5;
   0xd0; 0xf0; 0xd1; 0xf1; 0xd8; 0xf8; 0xdd; 0xfd].

Definition replacements : wstring :=
  [65; 97; 65; 97; 65; 97; 65; 97; 65; 97; 69; 101; 69; 101; 69; 101; 69;
   101; 73; 105; 73; 105; 73; 105; 73; 105; 79; 111; 79; 111; 79; 111; 79;
   111; 79; 111; 85; 117; 85; 117; 85; 117; 85; 117; 67; 99; 65; 97; 68;
   100; 78; 110; 79; 111; 89; 121].

(** The inner [while] loop for one character: the two pointers walk
    the literals together and the character is replaced whenever it equals
    the diacritic under the pointer. *)
Fixpoint replace_diacritic (pDiac pRepl : wstring) (ch : wchar_t) : wchar_t :=
  match pDiac, pRepl with
  | d :: pDiac', r :: pRepl' =>
      replace_diacritic pDiac' pRepl' (if ch =? d then r else ch)
  | _, _ => ch
  end.

Definition remove_diacritics (s : wstring) : wstring :=
  replace_diacritic diacritics replacements <$> s.

(** *** [split_lines] *)

(** Specification side: a character that is neither CR nor LF. *)
Definition plain (c : wchar_t) : Prop := c <> CR /\ c <> LF.

(** [split(s, guess_linebreak(s))]. The pointer [guess_linebreak] returns is
    made into a [std::wstring_view]; this is defined only for a pointer to a
    string, so there is no result ([None]) when [guess_linebreak] returns
    [nullptr] or reads outside the string. *)
Definition split_lines (s : wstring) : option (list wstring) :=
  match guess_linebreak s with
  | Some (mk_run _ (Returned (Some lb))) => split s (linebreak_chars lb)
  | _ => None
  end.

(** Specification side: the character at index [j] is neither CR nor LF. *)
Definition plain_at (s : wstring) (j : Z) : Prop :=
  exists c, at_index s j = Some c /\ plain c.

(** *** [trim_nulls], [trim] *)

(** [static_cast<int>]: the value of a 32-bit [int]. *)
Definition to_int (x : Z) : Z := (x + 2 ^ 31) mod 2 ^ 32 - 2 ^ 31.

(** The code units before the first NUL; [c_str()] ends with a NUL, so the
    count stops at the end of the content at the latest. *)
Fixpoint before_nul (s : wstring) : wstring :=
  match s with
  | [] => []
  | c :: s' => if c =? 0 then [] else c :: before_nul s'
  end.

(** [lstrlenW(s.c_str())], an [int]. *)
Definition lstrlenW (s : wstring) : Z := to_int (length (before_nul s)).

(** [s.resize(n)]: cut, or filled up with NULs. *)
Definition resize (s : wstring) (n : Z) : wstring :=
  take (Z.to_nat n) s ++ replicate (Z.to_nat n - List.length s) 0.

Definition trim_nulls (s : wstring) : wstring :=
  if bool_decide (s = []) then s else resize s (size_t (lstrlenW s)).

(** First loop of [trim]: the index of the first character that is not a
    space, counted from [i]. *)
Fixpoint first_non_space `{CType} (s : wstring) (i : Z) : option Z :=
  match s with
  | [] => None
  | c :: s' =>
      if negb (iswspace c) then Some i else first_non_space s' (size_t (i + 1))
  end.

(** Second loop of [trim], [for (size_t i = len; i-- > 0; )]: the index of
    the last character that is not a space, below [i]. *)
Fixpoint last_non_space `{CType} (s : wstring) (i : nat) : option Z :=
  match i with
  | O => None
  | S i' =>
      match s !! i' with
      | Some c =>
          if negb (iswspace c) then Some (Z.of_nat i')
          else last_non_space s i'
      | None => None
      end
  end.

(** The new value of the string. *)
Definition trim `{CType} (s : wstring) : wstring :=
  if bool_decide (s = []) then s
  else
    let s := trim_nulls s in
    let len := length s in
    match first_non_space s 0 with
    | None => []                                (* onlySpaces *)
    | Some iFirst =>
        let iLast := default (size_t (len - 1))
                             (last_non_space s (Z.to_nat len)) in
        substr s iFirst (size_t (iLast - iFirst + 1))
    end.

(** Specification side: a space for the C library. *)
Definition is_space `{CType} (c : wchar_t) : Prop := iswspace c = true.

(** [split_multi_zero] takes a pointer. The pointer is modelled by the
    memory from it to the end of its buffer; reading past the buffer has no
    defined result, [None]. *)

(** [*pRun]. *)
Definition at_pointer (p : wstring) : option wchar_t := head p.

(** A terminator is found before the end of the buffer. *)
Definition terminated (p : wstring) : bool := bool_decide (0 ∈ (p : list Z)).

(** [pRun += static_cast<size_t>(lstrlenW(pRun)) + 1]. *)
Definition next_string (p : wstring) : wstring :=
  drop (Z.to_nat (size_t (size_t (lstrlenW p) + 1))) p.

(** First loop of [split_multi_zero], which runs while [*pRun] is not NUL:
    the number of strings. *)
Fixpoint count_strings (fuel : nat) (p : wstring) (numStrings : Z)
  : option Z :=
  match fuel with
  | O => None
  | S fuel' =>
      match at_pointer p with
      | None => None
      | Some c =>
          if c =? 0 then Some numStrings
          else if terminated p
               then count_strings fuel' (next_string p)
                                  (size_t (numStrings + 1))
               else None
      end
  end.

(** Second loop, [for (size_t i = 0; i < numStrings; ++i)]:
    [ret.emplace_back(pRun)] copies the characters before the terminator. *)
Fixpoint copy_strings (n : nat) (p : wstring) : option (list wstring) :=
  match n with
  | O => Some []
  | S n' =>
      if terminated p
      then (fun ret => before_nul p :: ret) <$> copy_strings n' (next_string p)
      else None
  end.

(** The first loop moves the pointer at every turn, so it makes no more
    turns than the buffer has characters. *)
Definition split_multi_zero (p : wstring) : option (list wstring) :=
  match count_strings (S (List.length p)) p 0 with
  | None => None
  | Some numStrings => copy_strings (Z.to_nat numStrings) p
  end.

(** Specification side: the strings of [ss], each followed by a NUL, and a
    last NUL. *)
Definition multi_zero (ss : list wstring) : wstring :=
  concat ((fun x => x ++ [0]) <$> ss) ++ [0].

End str.

(** ** accel_table.h *)

Module accel_table.
Import Win32 Cpp.

(** Flags of [ACCEL::fVirt] (WinUser.h). *)
Definition FVIRTKEY : Z := 0x01.
Definition FSHIFT : Z := 0x04.
Definition FCONTROL : Z := 0x08.
Definition FALT : Z := 0x10.

(** [enum class modif : BYTE]: the underlying type is fixed, so a value of
    the enumeration is any [BYTE], named by an enumerator or not. *)
Definition modif : Type := Z.

Definition NONE : modif := FVIRTKEY.
Definition CTRL : modif := Z.lor FVIRTKEY FCONTROL.
Definition SHIFT : modif := Z.lor FVIRTKEY FSHIFT.
Definition ALT : modif := Z.lor FVIRTKEY FALT.

(** [operator|] on [modif], from [DEFINE_ENUM_FLAG_OPERATORS]: the two
    values are combined in the underlying type. *)
Definition modif_or (a b : modif) : modif := to_BYTE (Z.lor a b).

(** Specification side: the values a [BYTE] holds. *)
Definition is_BYTE (x : Z) : Prop := 0 <= x < 2 ^ 8.

(** [struct ACCEL { BYTE fVirt; WORD key; WORD cmd; }] (WinUser.h). *)
Record ACCEL : Type := mk_ACCEL { fVirt : Z; key : Z; cmd : Z }.

(** [HACCEL] is a handle; [0] is [nullptr]. *)
Definition HACCEL : Type := Z.

(** The Win32 calls the class makes. [CreateAcceleratorTableW] may fail, in
    which case it returns [0] and [GetLastError] tells why. *)
Class OS : Type := {
  CharUpperBuffW : Z -> Z;
  CreateAcceleratorTableW : list ACCEL -> HACCEL;
  GetLastError : Z
}.

Record t : Type := mk { _accels : list ACCEL; _hAccel : HACCEL }.

(** [accel_table() = default] *)
Definition create : t := mk [] 0.

Definition add_char `{OS} (ch : Z) (modifiers : modif) (cmdId : Z) (a : t)
    : res t unit :=
  if negb (_hAccel a =? 0) then
    Exc a (logic_error
             "Cannot add character after accelerator table was built.")
  else
    let ch := CharUpperBuffW ch in
    Ret (mk (_accels a ++
               [mk_ACCEL (to_BYTE modifiers) ch (to_WORD cmdId)])
            (_hAccel a)) tt.

Definition add_key `{OS} (vKey : Z) (modifiers : modif) (cmdId : Z) (a : t)
    : res t unit :=
  if negb (_hAccel a =? 0) then
    Exc a (logic_error
             "Cannot add virtual key after accelerator table was built.")
  else
    Ret (mk (_accels a ++
               [mk_ACCEL (to_BYTE modifiers) vKey (to_WORD cmdId)])
            (_hAccel a)) tt.

Definition _build `{OS} (a : t) : res t unit :=
  if (_hAccel a =? 0) && negb (Z.of_nat (length (_accels a)) =? 0) then
    let h := CreateAcceleratorTableW (_accels a) in
    if h =? 0 then
      Exc (mk (_accels a) h)
          (system_error GetLastError "CreateAcceleratorTable failed.")
    else
      Ret (mk [] h) tt
  else Ret a tt.

Definition haccel `{OS} (a : t) : res t HACCEL :=
  let* (a', _u) := _build a in Ret a' (_hAccel a').

(** [destroy()] *)
Definition destroy (a : t) : t :=
  if negb (_hAccel a =? 0) then mk [] 0 else a.

(** An operating system for examples: upper-casing of the ASCII letters, and
    table creation that succeeds with handle [0x5000]. *)
Definition ascii_upper (c : Z) : Z :=
  if (97 <=? c) && (c <=? 122) then c - 32 else c.

Definition sample_os : OS :=
  {| CharUpperBuffW := ascii_upper;
     CreateAcceleratorTableW := fun _ => 0x5000;
     GetLastError := 0 |}.

(** [operator=(accel_table&& other)]: [this] is destroyed, then the two
    members are swapped; the result is the new [this] and the new [other]. *)
Definition move_assign (this other : t) : t * t :=
  let this := destroy this in
  (mk (_accels other) (_hAccel other), mk (_accels this) (_hAccel this)).

(** [operator==]: the handles are compared. *)
Definition equal (a b : t) : bool := _hAccel a =? _hAccel b.

(** An operating system whose table creation fails with error 8. *)
Definition failing_os : OS :=
  {| CharUpperBuffW := ascii_upper;
     CreateAcceleratorTableW := fun _ => 0;
     GetLastError := 8 |}.

End accel_table.

(** ** internals/param_wm.h, internals/store.h *)

Module msg.

(** [struct wm { WPARAM wparam; LPARAM lparam; }] *)
Record wm : Type := mk_wm { wparam : Z; lparam : Z }.

End msg.

Module store.

(** Modelled from the spec: [internals/store.h] is not part of the sources.
    The spec calls it a linear/keyed table of registered callbacks, looked up
    and called. [add] appends a registration; [find] searches the table
    linearly, the most recent registration for a key being the one found
    (defaults are installed by the constructors and users register later). *)
Definition t (K H : Type) : Type := list (K * H).

Definition empty {K H} : t K H := [].

Definition add {K H} (id : K) (func : H) (s : t K H) : t K H :=
  s ++ [(id, func)].

(** The [std::initializer_list] overload. *)
Definition add_many {K H} (ids : list K) (func : H) (s : t K H) : t K H :=
  foldl (fun s id => add id func s) s ids.

Fixpoint find `{EqDecision K} {H} (id : K) (s : t K H) : option H :=
  match s with
  | [] => None
  | (id', func) :: s' =>
      match find id s' with
      | Some later => Some later
      | None => if decide (id' = id) then Some func else None
      end
  end.

End store.

(** ** State of the user interface thread *)

Module ui.
Import Cpp.

(** [struct NMHDR { HWND hwndFrom; UINT_PTR idFrom; UINT code; }] *)
Record NMHDR : Type := mk_NMHDR { hwndFrom : Z; idFrom : Z; code : Z }.

(** A [std::function<void()>]: it acts on the application's own data [A]. *)
Definition thunk (A : Type) : Type := A -> res A unit.

(** What handlers can see and change: the application's data, the
    [std::function<void()>] objects living on the heap (by address), the
    [NMHDR] structures that [WM_NOTIFY] messages point to, and whether
    [PostQuitMessage] was called. *)
Record state (A : Type) : Type := mk_state {
  app : A;
  fun_heap : gmap Z (thunk A);
  nmhdr_mem : gmap Z NMHDR;
  quit_posted : bool
}.
Arguments mk_state {A} _ _ _ _.
Arguments app {A} _.
Arguments fun_heap {A} _.
Arguments nmhdr_mem {A} _.
Arguments quit_posted {A} _.

Definition set_app {A} (a : A) (st : state A) : state A :=
  mk_state a (fun_heap st) (nmhdr_mem st) (quit_posted st).

Definition set_fun_heap {A} (h : gmap Z (thunk A)) (st : state A) : state A :=
  mk_state (app st) h (nmhdr_mem st) (quit_posted st).

Definition post_quit {A} (st : state A) : state A :=
  mk_state (app st) (fun_heap st) (nmhdr_mem st) true.

(** A [std::function<LRESULT(wl::msg::wm)>]. *)
Definition handler (A : Type) : Type := msg.wm -> state A -> res (state A) Z.

(** Running a [thunk] inside the user interface state. *)
Definition call_thunk {A} (f : thunk A) (st : state A) : res (state A) unit :=
  match f (app st) with
  | Ret a u => Ret (set_app a st) u
  | Exc a e => Exc (set_app a st) e
  | UB => UB
  end.

Inductive post_quit_on_catch : Type := NO | YES.

(** Modelled from the spec: [internals/catch_all_excps.h] is not part of the
    sources. It runs [func] and catches every exception [func] throws, so
    none leaves the call; with [post_quit_on_catch::YES] a caught exception
    also ends the message loop. [Some r]: [func] completed with [r];
    [None]: an exception was caught. *)
Definition catch_all_excps {A R} (func : state A -> res (state A) R)
    (pq : post_quit_on_catch) (st : state A) : res (state A) (option R) :=
  match func st with
  | Ret st' r => Ret st' (Some r)
  | Exc st' _ =>
      Ret (match pq with YES => post_quit st' | NO => st' end) None
  | UB => UB
  end.

End ui.

(** ** internals/ui_work.h *)

Module ui_work.
Import Win32 WinUser Cpp ui.

Definition WM_UI_WORK_THREAD : Z := wrap 32 (WM_APP + 0x3fff).

(** The [wparam] that marks the message. *)
Definition magic : Z := 0xc0def00d.

(** [new std::function<void()>]: an address not in use, never [nullptr]. *)
Definition new_address {A} (st : state A) : Z :=
  fresh ({[0]} ∪ dom (fun_heap st)).

(** The state right after the [new] expression of [work]. *)
Definition allocated {A} (func : thunk A) (st : state A) : state A :=
  set_fun_heap (<[new_address st := func]> (fun_heap st)) st.

(** [ui_work{hWnd}.work(func)]. [SendMessageW] is the operating system: it
    runs the window procedure of the target window and returns its result,
    which [work] discards. *)
Definition work {A}
    (SendMessageW : Z -> Z -> Z -> Z -> state A -> res (state A) Z)
    (_hWnd : Z) (func : thunk A) (st : state A) : res (state A) unit :=
  let pFunc := new_address st in
  let st := allocated func st in
  let* (st, _r) := SendMessageW _hWnd WM_UI_WORK_THREAD magic pFunc st in
  Ret st tt.

End ui_work.

(** ** internals/msg_proxy.h, internals/msg_proxy_all.h *)

Module msg_proxy.
Import Win32 WinUser Cpp ui.

(** The stores a proxy refers to. They are data members of the
    [base_msg_handler] that owns the proxy; the proxy itself only adds
    [_isDialog]. *)
Record stores (A : Type) : Type := mk_stores {
  _msgs : store.t Z (handler A);
  _cmds : store.t Z (handler A);
  _nfys : store.t (Z * Z) (handler A)
}.
Arguments mk_stores {A} _ _ _.
Arguments _msgs {A} _.
Arguments _cmds {A} _.
Arguments _nfys {A} _.

Record msg_proxy_all : Type := mk_proxy { _isDialog : bool }.

(** [wm(message, func)] *)
Definition wm {A} (message : Z) (func : handler A) (s : stores A) : stores A :=
  mk_stores (store.add message func (_msgs s)) (_cmds s) (_nfys s).

(** [wm({messages...}, func)] *)
Definition wm_many {A} (messages : list Z) (func : handler A) (s : stores A)
    : stores A :=
  mk_stores (store.add_many messages func (_msgs s)) (_cmds s) (_nfys s).

(** Return types that occur as third argument of [WINLAMB_MSG_RET_TYPE]. *)
Inductive ctype : Type :=
| c_bool | c_int | c_BYTE | c_WORD | c_DWORD | c_UINT
| c_HBRUSH | c_HFONT | c_HICON.

(** Which macro declares a method: [WINLAMB_MSG_RET_ZERO],
    [WINLAMB_MSG_RET_VAL] with its number, [WINLAMB_MSG_RET_TYPE] with its
    type. *)
Inductive ret_kind : Type :=
| RET_ZERO
| RET_VAL (n : Z)
| RET_TYPE (ty : ctype).

(** The lambda each macro wraps around the user's [func]. A callback is
    given here as a [handler]; the number it returns is the value of a
    [RET_TYPE] callback converted to [LRESULT], and is discarded for the
    [void] callbacks of the other two macros. *)
Definition wrapper {A} (rk : ret_kind) (isDialog : bool) (func : handler A)
    : handler A :=
  fun p st =>
    let* (st', v) := func p st in
    Ret st' (match rk with
             | RET_ZERO => if isDialog then TRUE else 0
             | RET_VAL n => n
             | RET_TYPE _ => v
             end).

(** The registration methods declared through the [WINLAMB_MSG_RET_*] macros,
    in the order of the header. *)
Inductive method : Type :=
| wm_activate | wm_activate_app | wm_app_command | wm_ask_cb_format_name
| wm_cancel_mode | wm_capture_changed | wm_change_cb_chain | wm_char
| wm_char_to_item | wm_child_activate | wm_clipboard_update | wm_close
| wm_compacting | wm_compare_item | wm_context_menu | wm_copy_data
| wm_create | wm_ctl_color_btn | wm_ctl_color_dlg | wm_ctl_color_edit
| wm_ctl_color_list_box | wm_ctl_color_scroll_bar | wm_ctl_color_static
| wm_dead_char | wm_delete_item | wm_destroy | wm_destroy_clipboard
| wm_dev_mode_change | wm_device_change | wm_display_change
| wm_draw_clipboard | wm_draw_item | wm_drop_files | wm_enable
| wm_end_session | wm_enter_idle | wm_enter_menu_loop | wm_enter_size_move
| wm_erase_bkgnd | wm_exit_menu_loop | wm_exit_size_move | wm_font_change
| wm_get_dlg_code | wm_get_font | wm_get_hot_key | wm_get_icon
| wm_get_min_max_info | wm_get_text | wm_get_text_length
| wm_get_title_bar_info_ex | wm_help | wm_hot_key | wm_h_scroll
| wm_h_scroll_clipboard | wm_init_dialog | wm_init_menu
| wm_init_menu_popup | wm_input_lang_change | wm_input_lang_change_request
| wm_key_down | wm_key_up | wm_kill_focus | wm_l_button_dbl_clk
| wm_l_button_down | wm_l_button_up | wm_m_button_dbl_clk
| wm_m_button_down | wm_m_button_up | wm_mdi_activate | wm_measure_item
| wm_menu_char | wm_menu_drag | wm_menu_get_object | wm_menu_r_button_up
| wm_menu_select | wm_mouse_activate | wm_mouse_hover | wm_mouse_h_wheel
| wm_mouse_leave | wm_mouse_move | wm_mouse_wheel | wm_move | wm_moving
| wm_nc_activate | wm_nc_calc_size | wm_nc_create | wm_nc_destroy
| wm_nc_hit_test | wm_nc_l_button_dbl_clk | wm_nc_l_button_down
| wm_nc_l_button_up | wm_nc_m_button_dbl_clk | wm_nc_m_button_down
| wm_nc_m_button_up | wm_nc_mouse_hover | wm_nc_mouse_leave
| wm_nc_mouse_move | wm_nc_paint | wm_nc_r_button_dbl_clk
| wm_nc_r_button_down | wm_nc_r_button_up | wm_nc_x_button_dbl_clk
| wm_nc_x_button_down | wm_nc_x_button_up | wm_next_dlg_ctl | wm_next_menu
| wm_notify_format | wm_paint | wm_paint_clipboard | wm_palette_changed
| wm_palette_is_changing | wm_parent_notify | wm_power_broadcast | wm_print
| wm_print_client | wm_query_drag_icon | wm_query_end_session
| wm_query_new_palette | wm_query_open | wm_r_button_dbl_clk
| wm_r_button_down | wm_r_button_up | wm_ras_dial_event
| wm_render_all_formats | wm_render_format | wm_set_cursor | wm_set_focus
| wm_set_font | wm_set_hot_key | wm_set_icon | wm_set_redraw | wm_set_text
| wm_setting_change | wm_show_window | wm_size | wm_size_clipboard
| wm_sizing | wm_spooler_status | wm_style_changed | wm_style_changing
| wm_sync_paint | wm_sys_char | wm_sys_color_change | wm_sys_command
| wm_sys_dead_char | wm_sys_key_down | wm_sys_key_up | wm_t_card
| wm_time_change | wm_timer | wm_un_init_menu_popup | wm_vkey_to_item
| wm_v_scroll | wm_v_scroll_clipboard | wm_window_pos_changed
| wm_window_pos_changing.

(** The second and third macro arguments of each declaration: the message the
    wrapper is stored under and how the wrapper computes its [LRESULT]. *)
Definition declared (m : method) : Z * ret_kind :=
  match m with
  | wm_activate => (WM_ACTIVATE, RET_ZERO)
  | wm_activate_app => (WM_ACTIVATEAPP, RET_ZERO)
  | wm_app_command => (WM_APPCOMMAND, RET_VAL TRUE)
  | wm_ask_cb_format_name => (WM_ASKCBFORMATNAME, RET_ZERO)
  | wm_cancel_mode => (WM_CANCELMODE, RET_ZERO)
  | wm_capture_changed => (WM_CAPTURECHANGED, RET_ZERO)
  | wm_change_cb_chain => (WM_CHANGECBCHAIN, RET_ZERO)
  | wm_char => (WM_CHAR, RET_ZERO)
  | wm_char_to_item => (WM_CHARTOITEM, RET_TYPE c_int)
  | wm_child_activate => (WM_CHILDACTIVATE, RET_ZERO)
  | wm_clipboard_update => (WM_CLIPBOARDUPDATE, RET_ZERO)
  | wm_close => (WM_CLOSE, RET_ZERO)
  | wm_compacting => (WM_COMPACTING, RET_ZERO)
  | wm_compare_item => (WM_COMPAREITEM, RET_TYPE c_int)
  | wm_context_menu => (WM_CONTEXTMENU, RET_ZERO)
  | wm_copy_data => (WM_CREATE, RET_TYPE c_bool)
  | wm_create => (WM_CREATE, RET_TYPE c_int)
  | wm_ctl_color_btn => (WM_CTLCOLORBTN, RET_TYPE c_HBRUSH)
  | wm_ctl_color_dlg => (WM_CTLCOLORDLG, RET_TYPE c_HBRUSH)
  | wm_ctl_color_edit => (WM_CTLCOLOREDIT, RET_TYPE c_HBRUSH)
  | wm_ctl_color_list_box => (WM_CTLCOLORLISTBOX, RET_TYPE c_HBRUSH)
  | wm_ctl_color_scroll_bar => (WM_CTLCOLORSCROLLBAR, RET_TYPE c_HBRUSH)
  | wm_ctl_color_static => (WM_CTLCOLORSTATIC, RET_TYPE c_HBRUSH)
  | wm_dead_char => (WM_DEADCHAR, RET_ZERO)
  | wm_delete_item => (WM_DELETEITEM, RET_VAL TRUE)
  | wm_destroy => (WM_DESTROY, RET_ZERO)
  | wm_destroy_clipboard => (WM_DESTROYCLIPBOARD, RET_ZERO)
  | wm_dev_mode_change => (WM_DEVMODECHANGE, RET_ZERO)
  | wm_device_change => (WM_DEVICECHANGE, RET_TYPE c_WORD)
  | wm_display_change => (WM_DISPLAYCHANGE, RET_ZERO)
  | wm_draw_clipboard => (WM_DRAWCLIPBOARD, RET_ZERO)
  | wm_draw_item => (WM_DRAWITEM, RET_VAL TRUE)
  | wm_drop_files => (WM_DROPFILES, RET_ZERO)
  | wm_enable => (WM_ENABLE, RET_ZERO)
  | wm_end_session => (WM_ENDSESSION, RET_ZERO)
  | wm_enter_idle => (WM_ENTERIDLE, RET_ZERO)
  | wm_enter_menu_loop => (WM_ENTERMENULOOP, RET_ZERO)
  | wm_enter_size_move => (WM_ENTERSIZEMOVE, RET_ZERO)
  | wm_erase_bkgnd => (WM_ERASEBKGND, RET_TYPE c_int)
  | wm_exit_menu_loop => (WM_EXITMENULOOP, RET_ZERO)
  | wm_exit_size_move => (WM_EXITSIZEMOVE, RET_ZERO)
  | wm_font_change => (WM_FONTCHANGE, RET_ZERO)
  | wm_get_dlg_code => (WM_GETDLGCODE, RET_TYPE c_WORD)
  | wm_get_font => (WM_GETFONT, RET_TYPE c_HFONT)
  | wm_get_hot_key => (WM_GETFONT, RET_TYPE c_WORD)
  | wm_get_icon => (WM_GETICON, RET_TYPE c_HICON)
  | wm_get_min_max_info => (WM_GETMINMAXINFO, RET_ZERO)
  | wm_get_text => (WM_GETTEXT, RET_TYPE c_UINT)
  | wm_get_text_length => (WM_GETTEXTLENGTH, RET_TYPE c_UINT)
  | wm_get_title_bar_info_ex => (WM_GETTITLEBARINFOEX, RET_ZERO)
  | wm_help => (WM_HELP, RET_VAL TRUE)
  | wm_hot_key => (WM_HOTKEY, RET_ZERO)
  | wm_h_scroll => (WM_HSCROLL, RET_ZERO)
  | wm_h_scroll_clipboard => (WM_HSCROLLCLIPBOARD, RET_ZERO)
  | wm_init_dialog => (WM_INITDIALOG, RET_TYPE c_bool)
  | wm_init_menu => (WM_INITMENU, RET_ZERO)
  | wm_init_menu_popup => (WM_INITMENUPOPUP, RET_ZERO)
  | wm_input_lang_change => (WM_HELP, RET_VAL 1)
  | wm_input_lang_change_request => (WM_INPUTLANGCHANGEREQUEST, RET_ZERO)
  | wm_key_down => (WM_KEYDOWN, RET_ZERO)
  | wm_key_up => (WM_KEYUP, RET_ZERO)
  | wm_kill_focus => (WM_KILLFOCUS, RET_ZERO)
  | wm_l_button_dbl_clk => (WM_LBUTTONDBLCLK, RET_ZERO)
  | wm_l_button_down => (WM_LBUTTONDOWN, RET_ZERO)
  | wm_l_button_up => (WM_LBUTTONUP, RET_ZERO)
  | wm_m_button_dbl_clk => (WM_MBUTTONDBLCLK, RET_ZERO)
  | wm_m_button_down => (WM_MBUTTONDOWN, RET_ZERO)
  | wm_m_button_up => (WM_MBUTTONUP, RET_ZERO)
  | wm_mdi_activate => (WM_MDIACTIVATE, RET_ZERO)
  | wm_measure_item => (WM_MEASUREITEM, RET_VAL TRUE)
  | wm_menu_char => (WM_MENUCHAR, RET_TYPE c_DWORD)
  | wm_menu_drag => (WM_MENUDRAG, RET_TYPE c_BYTE)
  | wm_menu_get_object => (WM_MENUGETOBJECT, RET_TYPE c_DWORD)
  | wm_menu_r_button_up => (WM_MENURBUTTONUP, RET_ZERO)
  | wm_menu_select => (WM_MENUSELECT, RET_ZERO)
  | wm_mouse_activate => (WM_MOUSEACTIVATE, RET_TYPE c_BYTE)
  | wm_mouse_hover => (WM_MOUSEHOVER, RET_ZERO)
  | wm_mouse_h_wheel => (WM_MOUSEHWHEEL, RET_ZERO)
  | wm_mouse_leave => (WM_MOUSELEAVE, RET_ZERO)
  | wm_mouse_move => (WM_MOUSEMOVE, RET_ZERO)
  | wm_mouse_wheel => (WM_MOUSEWHEEL, RET_ZERO)
  | wm_move => (WM_MOVE, RET_ZERO)
  | wm_moving => (WM_MOVING, RET_VAL TRUE)
  | wm_nc_activate => (WM_NCACTIVATE, RET_TYPE c_bool)
  | wm_nc_calc_size => (WM_NCCALCSIZE, RET_TYPE c_WORD)
  | wm_nc_create => (WM_NCCREATE, RET_TYPE c_bool)
  | wm_nc_destroy => (WM_NCDESTROY, RET_ZERO)
  | wm_nc_hit_test => (WM_NCHITTEST, RET_TYPE c_int)
  | wm_nc_l_button_dbl_clk => (WM_NCLBUTTONDBLCLK, RET_ZERO)
  | wm_nc_l_button_down => (WM_NCLBUTTONDOWN, RET_ZERO)
  | wm_nc_l_button_up => (WM_NCLBUTTONUP, RET_ZERO)
  | wm_nc_m_button_dbl_clk => (WM_NCMBUTTONDBLCLK, RET_ZERO)
  | wm_nc_m_button_down => (WM_NCMBUTTONDOWN, RET_ZERO)
  | wm_nc_m_button_up => (WM_NCMBUTTONUP, RET_ZERO)
  | wm_nc_mouse_hover => (WM_NCMOUSEHOVER, RET_ZERO)
  | wm_nc_mouse_leave => (WM_NCMOUSELEAVE, RET_ZERO)
  | wm_nc_mouse_move => (WM_NCMOUSEMOVE, RET_ZERO)
  | wm_nc_paint => (WM_NCPAINT, RET_ZERO)
  | wm_nc_r_button_dbl_clk => (WM_NCRBUTTONDBLCLK, RET_ZERO)
  | wm_nc_r_button_down => (WM_NCRBUTTONDOWN, RET_ZERO)
  | wm_nc_r_button_up => (WM_NCRBUTTONUP, RET_ZERO)
  | wm_nc_x_button_dbl_clk => (WM_NCXBUTTONDBLCLK, RET_VAL TRUE)
  | wm_nc_x_button_down => (WM_NCXBUTTONDOWN, RET_VAL TRUE)
  | wm_nc_x_button_up => (WM_NCXBUTTONUP, RET_VAL TRUE)
  | wm_next_dlg_ctl => (WM_NEXTDLGCTL, RET_ZERO)
  | wm_next_menu => (WM_NEXTMENU, RET_ZERO)
  | wm_notify_format => (WM_NOTIFYFORMAT, RET_TYPE c_BYTE)
  | wm_paint => (WM_PAINT, RET_ZERO)
  | wm_paint_clipboard => (WM_PAINTCLIPBOARD, RET_ZERO)
  | wm_palette_changed => (WM_PALETTECHANGED, RET_ZERO)
  | wm_palette_is_changing => (WM_PALETTEISCHANGING, RET_ZERO)
  | wm_parent_notify => (WM_PARENTNOTIFY, RET_ZERO)
  | wm_power_broadcast => (WM_POWERBROADCAST, RET_VAL TRUE)
  | wm_print => (WM_PRINT, RET_ZERO)
  | wm_print_client => (WM_PRINTCLIENT, RET_ZERO)
  | wm_query_drag_icon => (WM_QUERYNEWPALETTE, RET_TYPE c_HICON)
  | wm_query_end_session => (WM_QUERYENDSESSION, RET_TYPE c_bool)
  | wm_query_new_palette => (WM_QUERYNEWPALETTE, RET_TYPE c_bool)
  | wm_query_open => (WM_QUERYOPEN, RET_TYPE c_bool)
  | wm_r_button_dbl_clk => (WM_RBUTTONDBLCLK, RET_ZERO)
  | wm_r_button_down => (WM_RBUTTONDOWN, RET_ZERO)
  | wm_r_button_up => (WM_RBUTTONUP, RET_ZERO)
  | wm_ras_dial_event => (WM_RASDIALEVENT, RET_VAL TRUE)
  | wm_render_all_formats => (WM_RENDERALLFORMATS, RET_ZERO)
  | wm_render_format => (WM_RENDERFORMAT, RET_ZERO)
  | wm_set_cursor => (WM_SETCURSOR, RET_TYPE c_bool)
  | wm_set_focus => (WM_SETFOCUS, RET_ZERO)
  | wm_set_font => (WM_SETFONT, RET_ZERO)
  | wm_set_hot_key => (WM_SETHOTKEY, RET_TYPE c_int)
  | wm_set_icon => (WM_SETICON, RET_TYPE c_HICON)
  | wm_set_redraw => (WM_SETREDRAW, RET_ZERO)
  | wm_set_text => (WM_SETTEXT, RET_TYPE c_int)
  | wm_setting_change => (WM_SETTINGCHANGE, RET_ZERO)
  | wm_show_window => (WM_SHOWWINDOW, RET_ZERO)
  | wm_size => (WM_SIZE, RET_ZERO)
  | wm_size_clipboard => (WM_SIZECLIPBOARD, RET_ZERO)
  | wm_sizing => (WM_SIZING, RET_VAL TRUE)
  | wm_spooler_status => (WM_SPOOLERSTATUS, RET_ZERO)
  | wm_style_changed => (WM_STYLECHANGED, RET_ZERO)
  | wm_style_changing => (WM_STYLECHANGING, RET_ZERO)
  | wm_sync_paint => (WM_SYNCPAINT, RET_ZERO)
  | wm_sys_char => (WM_SYSCHAR, RET_ZERO)
  | wm_sys_color_change => (WM_SYSCOLORCHANGE, RET_ZERO)
  | wm_sys_command => (WM_SYSCOMMAND, RET_ZERO)
  | wm_sys_dead_char => (WM_SYSDEADCHAR, RET_ZERO)
  | wm_sys_key_down => (WM_SYSKEYDOWN, RET_ZERO)
  | wm_sys_key_up => (WM_SYSKEYUP, RET_ZERO)
  | wm_t_card => (WM_TCARD, RET_ZERO)
  | wm_time_change => (WM_TIMECHANGE, RET_ZERO)
  | wm_timer => (WM_TIMER, RET_ZERO)
  | wm_un_init_menu_popup => (WM_UNINITMENUPOPUP, RET_ZERO)
  | wm_vkey_to_item => (WM_VKEYTOITEM, RET_TYPE c_int)
  | wm_v_scroll => (WM_VSCROLL, RET_ZERO)
  | wm_v_scroll_clipboard => (WM_VSCROLLCLIPBOARD, RET_ZERO)
  | wm_window_pos_changed => (WM_WINDOWPOSCHANGED, RET_ZERO)
  | wm_window_pos_changing => (WM_WINDOWPOSCHANGING, RET_ZERO)
  end.

(** Specification side: the window message each method is named after
    ([wm_copy_data] is named after [WM_COPYDATA], and so on). *)
Definition named_after (m : method) : Z :=
  match m with
  | wm_activate => WM_ACTIVATE
  | wm_activate_app => WM_ACTIVATEAPP
  | wm_app_command => WM_APPCOMMAND
  | wm_ask_cb_format_name => WM_ASKCBFORMATNAME
  | wm_cancel_mode => WM_CANCELMODE
  | wm_capture_changed => WM_CAPTURECHANGED
  | wm_change_cb_chain => WM_CHANGECBCHAIN
  | wm_char => WM_CHAR
  | wm_char_to_item => WM_CHARTOITEM
  | wm_child_activate => WM_CHILDACTIVATE
  | wm_clipboard_update => WM_CLIPBOARDUPDATE
  | wm_close => WM_CLOSE
  | wm_compacting => WM_COMPACTING
  | wm_compare_item => WM_COMPAREITEM
  | wm_context_menu => WM_CONTEXTMENU
  | wm_copy_data => WM_COPYDATA
  | wm_create => WM_CREATE
  | wm_ctl_color_btn => WM_CTLCOLORBTN
  | wm_ctl_color_dlg => WM_CTLCOLORDLG
  | wm_ctl_color_edit => WM_CTLCOLOREDIT
  | wm_ctl_color_list_box => WM_CTLCOLORLISTBOX
  | wm_ctl_color_scroll_bar => WM_CTLCOLORSCROLLBAR
  | wm_ctl_color_static => WM_CTLCOLORSTATIC
  | wm_dead_char => WM_DEADCHAR
  | wm_delete_item => WM_DELETEITEM
  | wm_destroy => WM_DESTROY
  | wm_destroy_clipboard => WM_DESTROYCLIPBOARD
  | wm_dev_mode_change => WM_DEVMODECHANGE
  | wm_device_change => WM_DEVICECHANGE
  | wm_display_change => WM_DISPLAYCHANGE
  | wm_draw_clipboard => WM_DRAWCLIPBOARD
  | wm_draw_item => WM_DRAWITEM
  | wm_drop_files => WM_DROPFILES
  | wm_enable => WM_ENABLE
  | wm_end_session => WM_ENDSESSION
  | wm_enter_idle => WM_ENTERIDLE
  | wm_enter_menu_loop => WM_ENTERMENULOOP
  | wm_enter_size_move => WM_ENTERSIZEMOVE
  | wm_erase_bkgnd => WM_ERASEBKGND
  | wm_exit_menu_loop => WM_EXITMENULOOP
  | wm_exit_size_move => WM_EXITSIZEMOVE
  | wm_font_change => WM_FONTCHANGE
  | wm_get_dlg_code => WM_GETDLGCODE
  | wm_get_font => WM_GETFONT
  | wm_get_hot_key => WM_GETHOTKEY
  | wm_get_icon => WM_GETICON
  | wm_get_min_max_info => WM_GETMINMAXINFO
  | wm_get_text => WM_GETTEXT
  | wm_get_text_length => WM_GETTEXTLENGTH
  | wm_get_title_bar_info_ex => WM_GETTITLEBARINFOEX
  | wm_help => WM_HELP
  | wm_hot_key => WM_HOTKEY
  | wm_h_scroll => WM_HSCROLL
  | wm_h_scroll_clipboard => WM_HSCROLLCLIPBOARD
  | wm_init_dialog => WM_INITDIALOG
  | wm_init_menu => WM_INITMENU
  | wm_init_menu_popup => WM_INITMENUPOPUP
  | wm_input_lang_change => WM_INPUTLANGCHANGE
  | wm_input_lang_change_request => WM_INPUTLANGCHANGEREQUEST
  | wm_key_down => WM_KEYDOWN
  | wm_key_up => WM_KEYUP
  | wm_kill_focus => WM_KILLFOCUS
  | wm_l_button_dbl_clk => WM_LBUTTONDBLCLK
  | wm_l_button_down => WM_LBUTTONDOWN
  | wm_l_button_up => WM_LBUTTONUP
  | wm_m_button_dbl_clk => WM_MBUTTONDBLCLK
  | wm_m_button_down => WM_MBUTTONDOWN
  | wm_m_button_up => WM_MBUTTONUP
  | wm_mdi_activate => WM_MDIACTIVATE
  | wm_measure_item => WM_MEASUREITEM
  | wm_menu_char => WM_MENUCHAR
  | wm_menu_drag => WM_MENUDRAG
  | wm_menu_get_object => WM_MENUGETOBJECT
  | wm_menu_r_button_up => WM_MENURBUTTONUP
  | wm_menu_select => WM_MENUSELECT
  | wm_mouse_activate => WM_MOUSEACTIVATE
  | wm_mouse_hover => WM_MOUSEHOVER
  | wm_mouse_h_wheel => WM_MOUSEHWHEEL
  | wm_mouse_leave => WM_MOUSELEAVE
  | wm_mouse_move => WM_MOUSEMOVE
  | wm_mouse_wheel => WM_MOUSEWHEEL
  | wm_move => WM_MOVE
  | wm_moving => WM_MOVING
  | wm_nc_activate => WM_NCACTIVATE
  | wm_nc_calc_size => WM_NCCALCSIZE
  | wm_nc_create => WM_NCCREATE
  | wm_nc_destroy => WM_NCDESTROY
  | wm_nc_hit_test => WM_NCHITTEST
  | wm_nc_l_button_dbl_clk => WM_NCLBUTTONDBLCLK
  | wm_nc_l_button_down => WM_NCLBUTTONDOWN
  | wm_nc_l_button_up => WM_NCLBUTTONUP
  | wm_nc_m_button_dbl_clk => WM_NCMBUTTONDBLCLK
  | wm_nc_m_button_down => WM_NCMBUTTONDOWN
  | wm_nc_m_button_up => WM_NCMBUTTONUP
  | wm_nc_mouse_hover => WM_NCMOUSEHOVER
  | wm_nc_mouse_leave => WM_NCMOUSELEAVE
  | wm_nc_mouse_move => WM_NCMOUSEMOVE
  | wm_nc_paint => WM_NCPAINT
  | wm_nc_r_button_dbl_clk => WM_NCRBUTTONDBLCLK
  | wm_nc_r_button_down => WM_NCRBUTTONDOWN
  | wm_nc_r_button_up => WM_NCRBUTTONUP
  | wm_nc_x_button_dbl_clk => WM_NCXBUTTONDBLCLK
  | wm_nc_x_button_down => WM_NCXBUTTONDOWN
  | wm_nc_x_button_up => WM_NCXBUTTONUP
  | wm_next_dlg_ctl => WM_NEXTDLGCTL
  | wm_next_menu => WM_NEXTMENU
  | wm_notify_format => WM_NOTIFYFORMAT
  | wm_paint => WM_PAINT
  | wm_paint_clipboard => WM_PAINTCLIPBOARD
  | wm_palette_changed => WM_PALETTECHANGED
  | wm_palette_is_changing => WM_PALETTEISCHANGING
  | wm_parent_notify => WM_PARENTNOTIFY
  | wm_power_broadcast => WM_POWERBROADCAST
  | wm_print => WM_PRINT
  | wm_print_client => WM_PRINTCLIENT
  | wm_query_drag_icon => WM_QUERYDRAGICON
  | wm_query_end_session => WM_QUERYENDSESSION
  | wm_query_new_palette => WM_QUERYNEWPALETTE
  | wm_query_open => WM_QUERYOPEN
  | wm_r_button_dbl_clk => WM_RBUTTONDBLCLK
  | wm_r_button_down => WM_RBUTTONDOWN
  | wm_r_button_up => WM_RBUTTONUP
  | wm_ras_dial_event => WM_RASDIALEVENT
  | wm_render_all_formats => WM_RENDERALLFORMATS
  | wm_render_format => WM_RENDERFORMAT
  | wm_set_cursor => WM_SETCURSOR
  | wm_set_focus => WM_SETFOCUS
  | wm_set_font => WM_SETFONT
  | wm_set_hot_key => WM_SETHOTKEY
  | wm_set_icon => WM_SETICON
  | wm_set_redraw => WM_SETREDRAW
  | wm_set_text => WM_SETTEXT
  | wm_setting_change => WM_SETTINGCHANGE
  | wm_show_window => WM_SHOWWINDOW
  | wm_size => WM_SIZE
  | wm_size_clipboard => WM_SIZECLIPBOARD
  | wm_sizing => WM_SIZING
  | wm_spooler_status => WM_SPOOLERSTATUS
  | wm_style_changed => WM_STYLECHANGED
  | wm_style_changing => WM_STYLECHANGING
  | wm_sync_paint => WM_SYNCPAINT
  | wm_sys_char => WM_SYSCHAR
  | wm_sys_color_change => WM_SYSCOLORCHANGE
  | wm_sys_command => WM_SYSCOMMAND
  | wm_sys_dead_char => WM_SYSDEADCHAR
  | wm_sys_key_down => WM_SYSKEYDOWN
  | wm_sys_key_up => WM_SYSKEYUP
  | wm_t_card => WM_TCARD
  | wm_time_change => WM_TIMECHANGE
  | wm_timer => WM_TIMER
  | wm_un_init_menu_popup => WM_UNINITMENUPOPUP
  | wm_vkey_to_item => WM_VKEYTOITEM
  | wm_v_scroll => WM_VSCROLL
  | wm_v_scroll_clipboard => WM_VSCROLLCLIPBOARD
  | wm_window_pos_changed => WM_WINDOWPOSCHANGED
  | wm_window_pos_changing => WM_WINDOWPOSCHANGING
  end.

Definition all_methods : list method :=
  [
   wm_activate; wm_activate_app; wm_app_command; wm_ask_cb_format_name;
   wm_cancel_mode; wm_capture_changed; wm_change_cb_chain; wm_char;
   wm_char_to_item; wm_child_activate; wm_clipboard_update; wm_close;
   wm_compacting; wm_compare_item; wm_context_menu; wm_copy_data;
   wm_create; wm_ctl_color_btn; wm_ctl_color_dlg; wm_ctl_color_edit;
   wm_ctl_color_list_box; wm_ctl_color_scroll_bar; wm_ctl_color_static;
   wm_dead_char; wm_delete_item; wm_destroy; wm_destroy_clipboard;
   wm_dev_mode_change; wm_device_change; wm_display_change;
   wm_draw_clipboard; wm_draw_item; wm_drop_files; wm_enable;
   wm_end_session; wm_enter_idle; wm_enter_menu_loop; wm_enter_size_move;
   wm_erase_bkgnd; wm_exit_menu_loop; wm_exit_size_move; wm_font_change;
   wm_get_dlg_code; wm_get_font; wm_get_hot_key; wm_get_icon;
   wm_get_min_max_info; wm_get_text; wm_get_text_length;
   wm_get_title_bar_info_ex; wm_help; wm_hot_key; wm_h_scroll;
   wm_h_scroll_clipboard; wm_init_dialog; wm_init_menu; wm_init_menu_popup;
   wm_input_lang_change; wm_input_lang_change_request; wm_key_down;
   wm_key_up; wm_kill_focus; wm_l_button_dbl_clk; wm_l_button_down;
   wm_l_button_up; wm_m_button_dbl_clk; wm_m_button_down; wm_m_button_up;
   wm_mdi_activate; wm_measure_item; wm_menu_char; wm_menu_drag;
   wm_menu_get_object; wm_menu_r_button_up; wm_menu_select;
   wm_mouse_activate; wm_mouse_hover; wm_mouse_h_wheel; wm_mouse_leave;
   wm_mouse_move; wm_mouse_wheel; wm_move; wm_moving; wm_nc_activate;
   wm_nc_calc_size; wm_nc_create; wm_nc_destroy; wm_nc_hit_test;
   wm_nc_l_button_dbl_clk; wm_nc_l_button_down; wm_nc_l_button_up;
   wm_nc_m_button_dbl_clk; wm_nc_m_button_down; wm_nc_m_button_up;
   wm_nc_mouse_hover; wm_nc_mouse_leave; wm_nc_mouse_move; wm_nc_paint;
   wm_nc_r_button_dbl_clk; wm_nc_r_button_down; wm_nc_r_button_up;
   wm_nc_x_button_dbl_clk; wm_nc_x_button_down; wm_nc_x_button_up;
   wm_next_dlg_ctl; wm_next_menu; wm_notify_format; wm_paint;
   wm_paint_clipboard; wm_palette_changed; wm_palette_is_changing;
   wm_parent_notify; wm_power_broadcast; wm_print; wm_print_client;
   wm_query_drag_icon; wm_query_end_session; wm_query_new_palette;
   wm_query_open; wm_r_button_dbl_clk; wm_r_button_down; wm_r_button_up;
   wm_ras_dial_event; wm_render_all_formats; wm_render_format;
   wm_set_cursor; wm_set_focus; wm_set_font; wm_set_hot_key; wm_set_icon;
   wm_set_redraw; wm_set_text; wm_setting_change; wm_show_window; wm_size;
   wm_size_clipboard; wm_sizing; wm_spooler_status; wm_style_changed;
   wm_style_changing; wm_sync_paint; wm_sys_char; wm_sys_color_change;
   wm_sys_command; wm_sys_dead_char; wm_sys_key_down; wm_sys_key_up;
   wm_t_card; wm_time_change; wm_timer; wm_un_init_menu_popup;
   wm_vkey_to_item; wm_v_scroll; wm_v_scroll_clipboard;
   wm_window_pos_changed; wm_window_pos_changing].

(** A call [proxy.m(func)] of one of the generated methods: it forwards to
    [wm] with the message of the declaration. *)
Definition call {A} (proxy : msg_proxy_all) (m : method) (func : handler A)
    (s : stores A) : stores A :=
  let '(dwmsg, rk) := declared m in
  wm dwmsg (wrapper rk (_isDialog proxy) func) s.

(** [wm_command(commandId, func)] of [msg_proxy_all]. *)
Definition wm_command {A} (proxy : msg_proxy_all) (commandId : Z)
    (func : handler A) (s : stores A) : stores A :=
  mk_stores (_msgs s)
            (store.add (to_WORD commandId)
                       (wrapper RET_ZERO (_isDialog proxy) func) (_cmds s))
            (_nfys s).

(** [wm_notify(ctrlId, notifCode, func)] of [msg_proxy_all]. *)
Definition wm_notify {A} (ctrlId notifCode : Z) (func : handler A)
    (s : stores A) : stores A :=
  mk_stores (_msgs s) (_cmds s)
            (store.add (to_WORD ctrlId, notifCode) func (_nfys s)).

End msg_proxy.

(** ** internals/base_msg_handler.h *)

Module base_msg_handler.
Import Win32 WinUser Cpp ui msg_proxy.

Record t (A : Type) : Type := mk {
  _stores : stores A;          (* _msgs, _cmds, _nfys *)
  _msgProxy : msg_proxy_all
}.
Arguments mk {A} _ _.
Arguments _stores {A} _.
Arguments _msgProxy {A} _.

(** The handler [_default_msg_handlers] installs for [WM_UI_WORK_THREAD]. *)
Definition ui_work_thread_handler {A} : handler A :=
  fun p st =>
    if (msg.wparam p =? ui_work.magic) && negb (msg.lparam p =? 0) then
      match fun_heap st !! msg.lparam p with
      | None => UB                                   (* no object there *)
      | Some pFunc =>
          let* (st, _r) := catch_all_excps (call_thunk pFunc) YES st in
          Ret (set_fun_heap (delete (msg.lparam p) (fun_heap st)) st) 0
      end
    else Ret st 0.

Definition _default_msg_handlers {A} (h : t A) : t A :=
  mk (wm ui_work.WM_UI_WORK_THREAD ui_work_thread_handler (_stores h))
     (_msgProxy h).

(** [base_msg_handler(bool isDialog)] *)
Definition create {A} (isDialog : bool) : t A :=
  _default_msg_handlers
    (mk (mk_stores store.empty store.empty store.empty) (mk_proxy isDialog)).

Definition on_msg {A} (h : t A) : msg_proxy_all := _msgProxy h.

(** [static_cast<int>(nmhdr->code)] *)
Definition to_int (x : Z) : Z := (x + 2 ^ 31) mod 2 ^ 32 - 2 ^ 31.

(** First half of [exec]: the search for a stored user handler. The
    [WM_NOTIFY] case reads the [NMHDR] that [lp] points to. *)
Definition search_user_handler {A} (h : t A) (msg wp lp : Z) (st : state A)
    : option (option (handler A)) :=
  if msg =? WM_COMMAND then
    Some (store.find (LOWORD wp) (_cmds (_stores h)))
  else if msg =? WM_NOTIFY then
    match nmhdr_mem st !! lp with
    | None => None
    | Some nmhdr =>
        Some (store.find (idFrom nmhdr, to_int (code nmhdr))
                         (_nfys (_stores h)))
    end
  else
    Some (store.find msg (_msgs (_stores h))).

(** [exec(msg, wp, lp)]; the result is the [std::optional<LRESULT>]. *)
Definition exec {A} (h : t A) (msg wp lp : Z) (st : state A)
    : res (state A) (option Z) :=
  match search_user_handler h msg wp lp st with
  | None => UB
  | Some None => Ret st None                     (* handler not found *)
  | Some (Some userFunc) =>
      let retVal := 0 in
      let* (st, r) :=
        catch_all_excps (userFunc (msg.mk_wm wp lp)) YES st in
      Ret st (Some (match r with Some v => v | None => retVal end))
  end.

(** Specification side: how [exec] ends once the handler to run is known:
    the handler's value, or [0] with the quit message posted when the
    handler throws. *)
Definition ran {A} (userFunc : handler A) (wp lp : Z) (st : state A)
    : res (state A) (option Z) :=
  match userFunc (msg.mk_wm wp lp) st with
  | Ret st' v => Ret st' (Some v)
  | Exc st' _ => Ret (post_quit st') (Some 0)
  | UB => UB
  end.

End base_msg_handler.

(** ** internals/base_dialog.h *)

Module base_dialog.
Import Win32 WinUser Cpp ui msg_proxy.

Record t (A : Type) : Type := mk {
  _hWnd : Z;                                     (* 0 is nullptr *)
  _msgHandler : base_msg_handler.t A
}.
Arguments mk {A} _ _.
Arguments _hWnd {A} _.
Arguments _msgHandler {A} _.

(** A default-initialised [base_dialog]. *)
Definition create {A} : t A := mk 0 (base_msg_handler.create true).

(** [on_msg()] *)
Definition on_msg {A} (d : t A) : res (t A) msg_proxy_all :=
  if negb (_hWnd d =? 0) then
    Exc d (logic_error
             "Cannot add a message handler after the dialog was created.")
  else Ret d (base_msg_handler.on_msg (_msgHandler d)).


(** The part of the world [_dialog_proc] works on: the user interface state,
    the [base_dialog] objects by address, and the [DWLP_USER] slot of each
    window. *)
Record system (A : Type) : Type := mk_system {
  ui_st : state A;
  objects : gmap Z (t A);
  dwlp_user : gmap Z Z
}.
Arguments mk_system {A} _ _ _.
Arguments ui_st {A} _.
Arguments objects {A} _.
Arguments dwlp_user {A} _.

(** [GetWindowLongPtrW(hWnd, DWLP_USER)]: [0] unless a value was stored. *)
Definition GetWindowLongPtrW {A} (hWnd : Z) (sys : system A) : Z :=
  default 0 (dwlp_user sys !! hWnd).

Definition SetWindowLongPtrW {A} (hWnd v : Z) (sys : system A) : system A :=
  mk_system (ui_st sys) (objects sys) (<[hWnd := v]> (dwlp_user sys)).

(** [*p] for a [base_dialog* p]. *)
Definition deref {A} (sys : system A) (p : Z) : option (t A) :=
  if p =? 0 then None else objects sys !! p.

Definition set_hWnd {A} (p hWnd : Z) (sys : system A) : system A :=
  mk_system (ui_st sys)
            (alter (fun d => mk hWnd (_msgHandler d)) p (objects sys))
            (dwlp_user sys).

(** Running [exec] of a dialog's handler inside the system. *)
Definition run_exec {A} (d : t A) (msg wp lp : Z) (sys : system A)
    : res (system A) (option Z) :=
  match base_msg_handler.exec (_msgHandler d) msg wp lp (ui_st sys) with
  | Ret st r => Ret (mk_system st (objects sys) (dwlp_user sys)) r
  | Exc st e => Exc (mk_system st (objects sys) (dwlp_user sys)) e
  | UB => UB
  end.

(** The global user interface font comes from [gdi_obj.h]. *)
Class Gdi : Type := { globalUiFont_hfont : Z }.

(** [_set_ui_font_on_children(hDlg)]: [SendMessageW(hDlg, WM_SETFONT, ...)]
    comes back to the dialog procedure of [hDlg], whose [DWLP_USER] slot is
    already set, so the dialog's own [WM_SETFONT] handler runs, if any. The
    child controls have window procedures of their own, outside this state. *)
Definition _set_ui_font_on_children `{Gdi} {A} (hDlg : Z) (sys : system A)
    : res (system A) unit :=
  match deref sys (GetWindowLongPtrW hDlg sys) with
  | None => Ret sys tt
  | Some d =>
      let* (sys, _r) := run_exec d WM_SETFONT globalUiFont_hfont 0 sys in
      Ret sys tt
  end.

(** First block of [_dialog_proc]: the pointer to the [base_dialog]. On
    [WM_INITDIALOG] it is [lp], which is stored in the window before the
    fonts are set and the object records its window; on any other message it
    is read back from the window. *)
Definition _dialog_proc_self `{Gdi} {A} (hWnd msg lp : Z) (sys : system A)
    : res (system A) Z :=
  if msg =? WM_INITDIALOG then
    let pSelf := lp in
    let sys := SetWindowLongPtrW hWnd pSelf sys in
    let* (sys, _u) := _set_ui_font_on_children hWnd sys in
    match deref sys pSelf with
    | None => UB                                 (* pSelf->_hWnd = hWnd *)
    | Some _ => Ret (set_hWnd pSelf hWnd sys) pSelf
    end
  else Ret sys (GetWindowLongPtrW hWnd sys).

(** [_dialog_proc(hWnd, msg, wp, lp)] *)
Definition _dialog_proc `{Gdi} {A} (hWnd msg wp lp : Z) (sys : system A)
    : res (system A) Z :=
  let* (sys, pSelf) := _dialog_proc_self hWnd msg lp sys in
  if pSelf =? 0 then Ret sys FALSE
  else
    match deref sys pSelf with
    | None => UB
    | Some self =>
        let* (sys, ret) := run_exec self msg wp lp sys in
        let sys :=
          if msg =? WM_NCDESTROY
          then set_hWnd pSelf 0 (SetWindowLongPtrW hWnd 0 sys)
          else sys in
        Ret sys (default FALSE ret)
    end.

(** Specification side: the procedure answers [msg] with what the handlers
    of [self] give when they are looked up and run in the user interface
    state [st]: [FALSE] when no handler is stored under the key of the
    message, [v] when the handler stored under it returns [v]. *)
Definition returns_handler_value `{Gdi} {A} (self : t A) (st : state A)
    (hWnd msg wp lp : Z) (sys : system A) : Prop :=
  (base_msg_handler.search_user_handler (_msgHandler self) msg wp lp st
     = Some None ->
   exists sys', _dialog_proc hWnd msg wp lp sys = Ret sys' FALSE) /\
  (forall userFunc st' v,
     base_msg_handler.search_user_handler (_msgHandler self) msg wp lp st
       = Some (Some userFunc) ->
     userFunc (msg.mk_wm wp lp) st = Ret st' v ->
     exists sys', _dialog_proc hWnd msg wp lp sys = Ret sys' v /\
                  ui_st sys' = st').



(** [_creation_checks(dialogId)] *)
Definition _creation_checks {A} (dialogId : Z) (d : t A) : res (t A) unit :=
  if negb (_hWnd d =? 0) then
    Exc d (logic_error "Cannot create a dialog twice.")
  else if dialogId =? 0 then
    Exc d (logic_error "No dialog resource ID given on dialog setup.")
  else Ret d tt.

(** [create_dialog_param(hInst, parent, dialogId)] called on the object at
    address [pThis]. [CreateDialogParamW] is the operating system: it is
    given the resource identifier, the parent window and the pointer to
    pass with [WM_INITDIALOG]; it returns the window or [0]. *)
Definition create_dialog_param {A}
    (CreateDialogParamW : Z -> Z -> Z -> system A -> res (system A) Z)
    (GetLastError : Z) (pThis parent dialogId : Z) (sys : system A)
    : res (system A) Z :=
  match deref sys pThis with
  | None => UB
  | Some this =>
      match _creation_checks dialogId this with
      | Ret _ _ =>
          let* (sys, h) := CreateDialogParamW dialogId parent pThis sys in
          if h =? 0 then
            Exc sys (system_error GetLastError "CreateDialogParam failed.")
          else Ret sys h
      | Exc _ e => Exc sys e
      | UB => UB
      end
  end.

(** An operating system for examples: it creates window [hWnd] and delivers
    [WM_INITDIALOG] to the dialog procedure before it returns. *)
Definition creates_window `{Gdi} {A} (hWnd : Z)
    : Z -> Z -> Z -> system A -> res (system A) Z :=
  fun _dialogId _parent lParam sys =>
    let* (sys, _r) := _dialog_proc hWnd WM_INITDIALOG 0 lParam sys in
    Ret sys hWnd.

End base_dialog.

(** ** Sample programs

    Small client programs on which the theorems of Part II are run. The
    application data is a log of numbers, the most recent first. *)

Module samples.
Import Win32 WinUser Cpp ui msg_proxy.

Definition log_then_return (n : Z) : handler (list Z) :=
  fun _ st => Ret (set_app (n :: app st) st) n.

Definition log_then_throw (n : Z) : handler (list Z) :=
  fun _ st => Exc (set_app (n :: app st) st) other_exception.

Definition log_thunk (n : Z) : thunk (list Z) :=
  fun a => Ret (n :: a) tt.

(** [NM_CLICK] is [(UINT)-2]. *)
Definition NM_CLICK : Z := wrap 32 (-2).

(** One [NMHDR] at address [0x1000], sent by control 7. *)
Definition st0 : state (list Z) :=
  mk_state [] ∅ {[ 0x1000 := mk_NMHDR 0x200 7 NM_CLICK ]} false.

(** A window's handler object with four registrations made through its
    proxy. *)
Definition sample_handler : base_msg_handler.t (list Z) :=
  let h := base_msg_handler.create false in
  let proxy := base_msg_handler.on_msg h in
  base_msg_handler.mk
    (wm WM_PAINT (log_then_throw 4)
       (wm_notify 7 (-2) (log_then_return 3)
          (wm_command proxy 1001 (log_then_return 2)
             (wm WM_CLOSE (log_then_return 1)
                (base_msg_handler._stores h)))))
    proxy.

(** A dialog object at address [0x2000] with one registration, and a window
    [0x300] that has not seen [WM_INITDIALOG] yet. *)
Definition sample_dialog : base_dialog.t (list Z) :=
  base_dialog.mk 0
    (base_msg_handler.mk
       (wm WM_CLOSE (log_then_return 1)
          (base_msg_handler._stores (base_msg_handler.create true)))
       (mk_proxy true)).

Definition sys0 : base_dialog.system (list Z) :=
  base_dialog.mk_system st0 {[ 0x2000 := sample_dialog ]} ∅.

(** The same after [WM_INITDIALOG] was delivered to window [0x300] with the
    address of the dialog object. *)
Definition created_dialog : base_dialog.t (list Z) :=
  base_dialog.mk 0x300 (base_dialog._msgHandler sample_dialog).

Definition sys_created : base_dialog.system (list Z) :=
  base_dialog.mk_system st0 {[ 0x2000 := created_dialog ]}
                        {[ 0x300 := 0x2000 ]}.

Definition sample_gdi : base_dialog.Gdi :=
  {| base_dialog.globalUiFont_hfont := 0x77 |}.

(** The handler object after [h.on_msg().m(func)] on a fresh object. *)
Definition registered {A} (isDialog : bool) (m : method) (func : handler A)
    : base_msg_handler.t A :=
  let h := base_msg_handler.create isDialog in
  base_msg_handler.mk
    (call (base_msg_handler.on_msg h) m func (base_msg_handler._stores h))
    (base_msg_handler.on_msg h).

(** The four methods whose declaration names another message. *)
Definition misfiled : list method :=
  [wm_copy_data; wm_get_hot_key; wm_input_lang_change; wm_query_drag_icon].

End samples.

(** * Part II: theorems *)

(** Closed decidable statements are settled by evaluation. *)
Ltac decide_closed := apply (bool_decide_unpack _); vm_compute; exact I.

Module insert_order_map_facts.
Import Win32 insert_order_map.

Lemma SIZE_MAX_eq : SIZE_MAX = 2 ^ 64 - 1.
Proof. reflexivity. Qed.

Section with_types.
Context `{EqDecision K} {V : Type}.
Implicit Types (m es : list (entry K V)) (k : K).

(** A hit of the search loop is the position of the first entry with the
    key, counted from the start index. *)
Lemma _find_idx_from_hit k es i :
  0 <= i -> i + Z.of_nat (length es) < 2 ^ 64 ->
  k ∈ keys es ->
  exists n e, _find_idx_from k es i = i + Z.of_nat n /\
              es !! n = Some e /\ key e = k /\
              k ∉ keys (take n es).
Proof.
  revert i. induction es as [|e es IH]; intros i Hi Hlen Hin.
  - inversion Hin.
  - cbn [_find_idx_from]. destruct (decide (key e = k)) as [He|He].
    + exists 0%nat, e. repeat split; [lia|done| ]. cbn. apply not_elem_of_nil.
    + cbn [length] in Hlen.
      assert (Hw : size_t (i + 1) = i + 1).
      { unfold size_t, wrap. apply Z.mod_small. lia. }
      rewrite Hw.
      assert (Hin' : k ∈ keys es).
      { unfold keys in *. cbn in Hin. apply elem_of_cons in Hin as [->|]; done. }
      destruct (IH (i + 1)) as (n & e' & Hn & Hl & Hk & Hpre); [lia|lia|done|].
      exists (S n), e'. repeat split; [lia|done|done|].
      cbn. unfold keys in *. cbn. intros [?|?]%elem_of_cons; [congruence|done].
Qed.

Lemma _find_idx_from_miss k es i :
  k ∉ keys es -> _find_idx_from k es i = SIZE_MAX.
Proof.
  revert i. induction es as [|e es IH]; intros i Hnin; [done|].
  cbn [_find_idx_from]. unfold keys in *. cbn in Hnin.
  apply not_elem_of_cons in Hnin as [Hne Hnin].
  destruct (decide (key e = k)); [congruence|]. by apply IH.
Qed.

Lemma _find_idx_present k m :
  size m <= SIZE_MAX -> k ∈ keys m ->
  exists n e, _find_idx k m = Z.of_nat n /\ m !! n = Some e /\ key e = k /\
          (_find_idx k m =? SIZE_MAX) = false.
Proof.
  intros Hsz Hin. rewrite SIZE_MAX_eq in Hsz. unfold size in Hsz.
  destruct (_find_idx_from_hit k m 0) as (n & e & Hn & Hl & Hk & _);
  [lia|lia|done|].
  exists n, e. unfold _find_idx. rewrite Hn. repeat split; [done..|].
  apply lookup_lt_Some in Hl. rewrite SIZE_MAX_eq. apply Z.eqb_neq. lia.
Qed.

Lemma _find_idx_absent k m :
  k ∉ keys m -> (_find_idx k m =? SIZE_MAX) = true.
Proof.
  intros Hnin. unfold _find_idx. rewrite _find_idx_from_miss by done.
  apply Z.eqb_refl.
Qed.

Lemma keys_snoc m k v : keys (m ++ [mk_entry k v]) = keys m ++ [k].
Proof. unfold keys. by rewrite fmap_app. Qed.

Lemma NoDup_keys_snoc m k v :
  NoDup (keys m) -> k ∉ keys m -> NoDup (keys (m ++ [mk_entry k v])).
Proof.
  intros Hnd Hnin. rewrite keys_snoc. apply NoDup_app. split; [done|].
  split; [|apply NoDup_singleton].
  intros x Hx ->%list_elem_of_singleton. done.
Qed.

Lemma at_iterator_back m e : at_iterator (m ++ [e]) (size m) = Some e.
Proof.
  unfold at_iterator, size.
  destruct (Z.ltb_spec (Z.of_nat (length m)) 0) as [?|_]; [lia|].
  rewrite Nat2Z.id. by rewrite lookup_app_r, Nat.sub_diag.
Qed.

Lemma size_snoc m e : size (m ++ [e]) - 1 = size m.
Proof. unfold size. rewrite length_app. cbn. lia. Qed.

End with_types.

Section with_default.
Context `{EqDecision K} `{DefaultInit V}.
Implicit Types (m : list (entry K V)) (k : K).

Lemma emplace_fst k v m :
  (emplace k v m).1 = if _find_idx k m =? SIZE_MAX
                      then m ++ [mk_entry k v] else m.
Proof. unfold emplace. by destruct (_ =? _). Qed.

Lemma emplace_key_fst k m :
  (emplace_key k m).1 = (emplace k default_initialized m).1.
Proof. unfold emplace_key, emplace. by destruct (_ =? _). Qed.

Lemma subscript_fst k m :
  (subscript k m).1 = (emplace k default_initialized m).1.
Proof. unfold subscript, emplace_key, emplace. by destruct (_ =? _). Qed.

(** One call keeps the keys unique, provided the result fits [size_t]. *)
Lemma emplace_keeps_keys_unique k v m :
  size (emplace k v m).1 <= SIZE_MAX ->
  (size m <= SIZE_MAX -> NoDup (keys m)) ->
  NoDup (keys (emplace k v m).1).
Proof.
  rewrite emplace_fst. intros Hsz Hnd.
  assert (Hm : size m <= SIZE_MAX).
  { destruct (_ =? _); [|done]. unfold size in *. rewrite length_app in Hsz.
    lia. }
  specialize (Hnd Hm). destruct (decide (k ∈ keys m)) as [Hin|Hnin].
  - by destruct (_find_idx_present k m Hm Hin) as (_ & _ & _ & _ & _ & ->).
  - rewrite (_find_idx_absent k m Hnin). by apply NoDup_keys_snoc.
Qed.

Lemma built_keys_unique (m : t K V) :
  built m -> size m <= SIZE_MAX -> NoDup (keys m).
Proof.
  induction 1 as [|k v m _ IH|k m _ IH|k m _ IH].
  - intros _. apply NoDup_nil_2.
  - intros Hsz. by apply emplace_keeps_keys_unique.
  - rewrite emplace_key_fst. intros Hsz. by apply emplace_keeps_keys_unique.
  - rewrite subscript_fst. intros Hsz. by apply emplace_keeps_keys_unique.
Qed.

End with_default.

(** C5. Every map built by the operations (and whose size fits [size_t]) has
    unique keys. In such a map [contains] is true exactly for the keys held
    by some entry; [emplace] of an absent key appends the entry at the back,
    returns an iterator to it and [true], and the keys stay unique;
    [emplace] of a present key returns an iterator to the existing entry and
    [false] and changes no entry; [operator[]] of an absent key appends an
    entry whose value is default-initialised (built by the default
    constructor for a class type, indeterminate for a scalar) and refers to
    it, and of a present key refers to the existing entry. In each case the
    old entries keep their places, so the iteration order is the insertion
    order. *)
Theorem insert_order_map_emplace_keeps_order
    `{EqDecision K} `{DefaultInit V} (m : t K V) :
  built m -> size m <= SIZE_MAX ->
  NoDup (keys m) /\
  (forall k, contains k m = true <-> k ∈ keys m) /\
  (forall k v, k ∉ keys m ->
     emplace k v m = (m ++ [mk_entry k v], (size m, true)) /\
     at_iterator (m ++ [mk_entry k v]) (size m) = Some (mk_entry k v) /\
     NoDup (keys (m ++ [mk_entry k v]))) /\
  (forall k v, k ∈ keys m ->
     exists it e, emplace k v m = (m, (it, false)) /\
                  at_iterator m it = Some e /\ key e = k) /\
  (forall k, k ∉ keys m ->
     subscript k m = (m ++ [mk_entry k default_initialized], size m) /\
     at_iterator (m ++ [mk_entry k default_initialized]) (size m)
       = Some (mk_entry k default_initialized) /\
     NoDup (keys (m ++ [mk_entry k default_initialized]))) /\
  (forall k, k ∈ keys m ->
     exists it e, subscript k m = (m, it) /\
                  at_iterator m it = Some e /\ key e = k).
Proof.
  intros Hbuilt Hsz. pose proof (built_keys_unique m Hbuilt Hsz) as Hnd.
  split; [done|]. repeat apply conj.
  - intros k. unfold contains. split.
    + intros Hc. destruct (decide (k ∈ keys m)) as [|Hnin]; [done|].
      rewrite (_find_idx_absent k m Hnin) in Hc. discriminate.
    + intros Hin.
      destruct (_find_idx_present k m Hsz Hin) as (_ & _ & _ & _ & _ & ->).
      done.
  - intros k v Hnin. unfold emplace.
    rewrite (_find_idx_absent k m Hnin), size_snoc.
    auto using at_iterator_back, NoDup_keys_snoc.
  - intros k v Hin. unfold emplace.
    destruct (_find_idx_present k m Hsz Hin) as (n & e & Hn & Hl & Hk & ->).
    exists (Z.of_nat n), e. rewrite Hn. repeat split; [|done].
    unfold at_iterator. destruct (Z.ltb_spec (Z.of_nat n) 0); [lia|].
    by rewrite Nat2Z.id.
  - intros k Hnin. unfold subscript, emplace_key.
    rewrite (_find_idx_absent k m Hnin), size_snoc.
    auto using at_iterator_back, NoDup_keys_snoc.
  - intros k Hin. unfold subscript.
    destruct (_find_idx_present k m Hsz Hin) as (n & e & Hn & Hl & Hk & ->).
    exists (Z.of_nat n), e. rewrite Hn. repeat split; [|done].
    unfold at_iterator. destruct (Z.ltb_spec (Z.of_nat n) 0); [lia|].
    by rewrite Nat2Z.id.
Qed.

Lemma insert_order_map_emplace_keeps_order_witness :
  sample_map = [mk_entry 5 [50]; mk_entry 3 [30]; mk_entry 7 [70]] /\
  NoDup (keys sample_map) /\
  contains 3 sample_map = true /\
  emplace 9 [90] sample_map
    = (sample_map ++ [mk_entry 9 [90]], (3, true)) /\
  subscript 4 sample_map = (sample_map ++ [mk_entry 4 []], 3) /\
  subscript 4 sample_int_map
    = (sample_int_map ++ [mk_entry 4 indeterminate], 1).
Proof.
  assert (Hb : built sample_map) by (repeat constructor).
  assert (Hsz : size sample_map <= SIZE_MAX) by (vm_compute; discriminate).
  destruct (insert_order_map_emplace_keeps_order sample_map Hb Hsz)
    as (Hnd & Hc & He & _ & Hs & _).
  assert (H9 : 9 ∉ keys sample_map) by decide_closed.
  assert (H4 : 4 ∉ keys sample_map) by decide_closed.
  assert (Hbi : built sample_int_map) by (repeat constructor).
  assert (Hszi : size sample_int_map <= SIZE_MAX)
    by (vm_compute; discriminate).
  assert (H4i : 4 ∉ keys sample_int_map) by decide_closed.
  split; [reflexivity|]. split; [exact Hnd|].
  split; [apply Hc; decide_closed|].
  split; [exact (proj1 (He 9 [90] H9))|].
  split; [exact (proj1 (Hs 4 H4))|].
  exact (proj1 (proj1 (proj2 (proj2 (proj2 (proj2
    (insert_order_map_emplace_keeps_order sample_int_map Hbi Hszi)))))
    4 H4i)).
Defined.

(** C5, scalar values. With [int] values [operator[]] of an absent key does
    not insert the default-constructed [int()], which is [0]: the value the
    returned reference designates is indeterminate. *)
Lemma subscript_scalar_value_is_indeterminate :
  val <$> at_iterator (subscript 4 sample_int_map).1
                      (subscript 4 sample_int_map).2
    = Some indeterminate /\
  val <$> at_iterator (subscript 4 sample_int_map).1
                      (subscript 4 sample_int_map).2
    <> Some (determinate 0).
Proof. split; [reflexivity|discriminate]. Qed.

End insert_order_map_facts.

Module str_facts.
Import Win32 str.

Lemma size_t_small x : 0 <= x < 2 ^ 64 -> size_t x = x.
Proof. intros. unfold size_t, wrap. by apply Z.mod_small. Qed.

Lemma at_index_inside (s : wstring) i :
  0 <= i < length s -> exists c, at_index s i = Some c.
Proof.
  intros [Hlo Hhi]. unfold at_index, length in *.
  destruct (Z.leb_spec 0 i); [|lia]. destruct (Z.ltb_spec i (Z.of_nat (List.length s))); [|lia].
  cbn. apply lookup_lt_is_Some_2. lia.
Qed.

(** On a string that is not empty the loop bound is [length s - 1]; every
    read is inside the string and the loop ends within [length s]
    iterations. *)
Lemma guess_linebreak_loop_safe (s : wstring) fuel i seen :
  0 < length s < 2 ^ 64 -> 0 <= i <= length s - 1 ->
  length s - 1 - i < Z.of_nat fuel ->
  Forall (in_range s) seen ->
  exists r lb, guess_linebreak_loop fuel s i seen = Some r /\
               result r = Returned lb /\ Forall (in_range s) (reads r).
Proof.
  intros Hlen. revert i seen.
  induction fuel as [|fuel IH]; intros i seen Hi Hfuel Hseen; [lia|].
  cbn [guess_linebreak_loop]. rewrite (size_t_small (length s - 1)) by lia.
  destruct (Z.ltb_spec i (length s - 1)) as [Hlt|Hge];
    [|eexists _, _; split; [reflexivity|split; [reflexivity|done]]].
  destruct (at_index_inside s i) as [c ->]; [lia|].
  rewrite (size_t_small (i + 1)) by lia.
  destruct (at_index_inside s (i + 1)) as [c' ->]; [lia|].
  assert (Hseen2 : Forall (in_range s) (seen ++ [i; i + 1])).
  { apply Forall_app. split; [done|].
    repeat constructor; unfold in_range; lia. }
  destruct (c =? CR);
    [eexists _, _; split; [reflexivity|split; [reflexivity|done]]|].
  destruct (c =? LF);
    [eexists _, _; split; [reflexivity|split; [reflexivity|done]]|].
  apply IH; [lia|lia|].
  apply Forall_app. split; [done|]. repeat constructor; unfold in_range; lia.
Qed.

Lemma guess_linebreak_nonempty_safe (s : wstring) :
  0 < length s < 2 ^ 64 ->
  exists r lb, guess_linebreak s = Some r /\
               result r = Returned lb /\ Forall (in_range s) (reads r).
Proof.
  intros Hlen. apply guess_linebreak_loop_safe; [done|lia| |constructor].
  unfold length. lia.
Qed.

(** C8, on the empty string. The bound [s.length() - 1] wraps around to
    [SIZE_MAX], the loop is entered, and [s[0]] is read although the string
    has no character: the run ends in a read outside the string instead of
    returning [nullptr] without reading. *)
Theorem guess_linebreak_empty_reads_outside :
  size_t (length [] - 1) = SIZE_MAX /\
  guess_linebreak [] = Some (mk_run [0] (BadRead 0)) /\
  at_index [] 0 = None.
Proof. repeat split. Qed.

(** A line break in the last position is not looked at. *)
Lemma guess_linebreak_last_char_ignored :
  guess_linebreak [97; LF] = Some (mk_run [0] (Returned None)).
Proof. reflexivity. Qed.

(** *** [split] *)

Lemma is_prefix_true (d s : wstring) :
  is_prefix d s = true <-> s = d ++ drop (List.length d) s.
Proof.
  revert s. induction d as [|x d IH]; intros [|y s]; cbn; try done.
  rewrite andb_true_iff, Z.eqb_eq, IH. split.
  - by intros [-> <-].
  - intros [= -> Hs]. done.
Qed.

Lemma is_prefix_app (d t : wstring) : is_prefix d (d ++ t) = true.
Proof.
  apply is_prefix_true. by rewrite drop_app_length.
Qed.

Lemma first_occurrence_eq (d s : wstring) :
  first_occurrence d s =
    if is_prefix d s then Some 0%nat
    else match s with
         | [] => None
         | _ :: s' => S <$> first_occurrence d s'
         end.
Proof. by destruct s. Qed.

(** The position found is an occurrence. *)
Lemma first_occurrence_Some (d s : wstring) off :
  first_occurrence d s = Some off ->
  s = take off s ++ d ++ drop (off + List.length d) s.
Proof.
  revert off. induction s as [|c s IH]; intros off; rewrite first_occurrence_eq.
  - destruct (is_prefix d []) eqn:Hp; [|done].
    intros [= <-]. by apply is_prefix_true in Hp.
  - destruct (is_prefix d (c :: s)) eqn:Hp.
    + intros [= <-]. by apply is_prefix_true in Hp.
    + destruct (first_occurrence d s) as [off'|] eqn:Hf; [|done].
      intros [= <-]. cbn. f_equal. by apply IH.
Qed.

(** No occurrence starts before the position found, and one is found
    whenever there is an occurrence. *)
Lemma first_occurrence_least (d l1 t : wstring) :
  exists off, first_occurrence d (l1 ++ d ++ t) = Some off /\
              (off <= List.length l1)%nat.
Proof.
  induction l1 as [|c l1 (off & Hoff & Hle)]; rewrite first_occurrence_eq.
  - cbn [app]. rewrite is_prefix_app. exists 0%nat. by split.
  - destruct (is_prefix d ((c :: l1) ++ d ++ t)).
    + exists 0%nat. split; [done|cbn; lia].
    + cbn [app]. rewrite Hoff. exists (S off). split; [done|cbn; lia].
Qed.

Lemma first_occurrence_None (d s : wstring) :
  first_occurrence d s = None -> ~ occurs_in d s.
Proof.
  intros Hn (l1 & t & ->).
  destruct (first_occurrence_least d l1 t) as (off & Hoff & _). congruence.
Qed.

Lemma first_occurrence_before (d s : wstring) off :
  d <> [] -> first_occurrence d s = Some off -> ~ occurs_in d (take off s).
Proof.
  intros Hd Hoff (l1 & t & Ht).
  assert (Hs : s = l1 ++ d ++ (t ++ drop off s)).
  { rewrite <- (take_drop off s) at 1. rewrite Ht. by rewrite <- !app_assoc. }
  destruct (first_occurrence_least d l1 (t ++ drop off s)) as (o & Ho & Hle).
  rewrite <- Hs, Hoff in Ho. injection Ho as <-.
  apply (f_equal List.length) in Ht.
  rewrite length_take, !length_app in Ht.
  destruct d; [done|]. cbn in Ht. lia.
Qed.

Lemma occurrences_from_skip (d s : wstring) k :
  occurrences_from d k s = occurrences_from d 0 (drop k s).
Proof.
  revert k. induction s as [|c s IH]; intros [|k]; try done.
  cbn [occurrences_from drop]. apply IH.
Qed.

Lemma occurrences_first (d s : wstring) :
  d <> [] ->
  occurrences d s =
    match first_occurrence d s with
    | None => 0%nat
    | Some off => S (occurrences d (drop (off + List.length d) s))
    end.
Proof.
  intros Hd. unfold occurrences.
  induction s as [|c s IH]; rewrite first_occurrence_eq.
  - destruct d; [done|]. done.
  - cbn [occurrences_from]. destruct (is_prefix d (c :: s)).
    + rewrite occurrences_from_skip. destruct d as [|x d]; [done|].
      cbn. by rewrite Nat.sub_0_r.
    + rewrite IH. by destruct (first_occurrence d s).
Qed.

Lemma join_cons (d p : wstring) (ps : list wstring) :
  ps <> [] -> join d (p :: ps) = p ++ d ++ join d ps.
Proof. by destruct ps. Qed.

(** The loop, started at [base = head], cuts the rest of the string into its
    pieces. *)
Lemma split_loop_spec (s d : wstring) fuel base ret :
  d <> [] -> length s <= SIZE_MAX -> 0 <= base <= length s ->
  (List.length (drop (Z.to_nat base) s) < fuel)%nat ->
  exists pieces,
    split_loop fuel s d base base ret = Some (ret ++ pieces) /\
    join d pieces = drop (Z.to_nat base) s /\
    List.length pieces = S (occurrences d (drop (Z.to_nat base) s)) /\
    Forall (fun p => ~ occurs_in d p) pieces.
Proof.
  intros Hd Hmax. change SIZE_MAX with (2 ^ 64 - 1) in Hmax.
  revert base ret.
  induction fuel as [|fuel IH]; intros base ret Hbase Hfuel; [lia|].
  cbn [split_loop]. unfold find.
  destruct (Z.ltb_spec (length s) base) as [?|_]; [lia|].
  set (rest := drop (Z.to_nat base) s) in *.
  assert (Hrest : Z.of_nat (List.length rest) = length s - base).
  { unfold rest, length. rewrite length_drop. unfold length in Hbase. lia. }
  rewrite (occurrences_first d rest Hd).
  destruct (first_occurrence d rest) as [off|] eqn:Hoff.
  - (* an occurrence at [base + off] *)
    pose proof (first_occurrence_Some d rest off Hoff) as Hsplit.
    assert (Hdpos : (0 < List.length d)%nat) by (destruct d; [done|cbn; lia]).
    assert (Hlen : (off + List.length d <= List.length rest)%nat).
    { apply (f_equal List.length) in Hsplit.
      rewrite !length_app, length_take in Hsplit. lia. }
    destruct (Z.eqb_spec (base + Z.of_nat off) npos) as [Hn|_].
    { change npos with (2 ^ 64 - 1) in Hn. lia. }
    change (length d) with (Z.of_nat (List.length d)).
    rewrite (size_t_small (base + Z.of_nat off + Z.of_nat (List.length d)))
      by lia.
    rewrite (size_t_small (base + Z.of_nat off - base)) by lia.
    set (base' := base + Z.of_nat off + Z.of_nat (List.length d)).
    assert (Hdrop : drop (Z.to_nat base') s = drop (off + List.length d) rest).
    { unfold rest, base'. rewrite drop_drop. f_equal. lia. }
    destruct (IH base' (ret ++ [substr s base (base + Z.of_nat off - base)]))
      as (pieces & Hrun & Hjoin & Hcount & Hnone).
    { unfold base'. lia. }
    { rewrite Hdrop, length_drop. lia. }
    assert (Hpiece : substr s base (base + Z.of_nat off - base) = take off rest).
    { unfold substr. fold rest. f_equal. lia. }
    exists (take off rest :: pieces). rewrite Hrun, Hpiece, <- app_assoc.
    split; [done|]. split; [|split].
    + rewrite join_cons by (by destruct pieces). rewrite Hjoin, Hdrop. done.
    + cbn. by rewrite Hcount, Hdrop.
    + constructor; [|done]. by apply first_occurrence_before.
  - (* no further occurrence: the rest is the last piece *)
    rewrite Z.eqb_refl. exists [rest]. rewrite (size_t_small (length s - base)) by lia.
    assert (Hpiece : substr s base (length s - base) = rest).
    { unfold substr. fold rest. apply take_ge. lia. }
    rewrite Hpiece. split; [done|]. split; [done|]. split; [done|].
    constructor; [|done]. by apply first_occurrence_None.
Qed.

(** C7. For a string that fits [size_t]: an empty string gives the
    empty vector; a non-empty string with an empty delimiter gives the
    vector holding the string alone; a non-empty string with a non-empty
    delimiter gives pieces which, joined with the delimiter between them,
    make up the string again, one more than there are non-overlapping
    occurrences of the delimiter, none of them containing the delimiter. *)
Theorem split_pieces_rebuild_string (s d : wstring) :
  length s <= SIZE_MAX ->
  (s = [] -> split s d = Some []) /\
  (s <> [] -> d = [] -> split s d = Some [s]) /\
  (s <> [] -> d <> [] ->
     exists pieces,
       split s d = Some pieces /\
       join d pieces = s /\
       List.length pieces = S (occurrences d s) /\
       Forall (fun p => ~ occurs_in d p) pieces).
Proof.
  intros Hmax. unfold split. repeat split.
  - intros ->. done.
  - intros Hs ->. by rewrite bool_decide_eq_false_2.
  - intros Hs Hd. rewrite !bool_decide_eq_false_2 by done.
    destruct (split_loop_spec s d (S (List.length s)) 0 []) as (ps & Hps);
      [done|done|unfold length; lia|rewrite length_drop; lia|].
    exists ps. exact Hps.
Qed.

Lemma split_pieces_rebuild_string_witness :
  split [97; 44; 98; 44; 44; 99] [44] = Some [[97]; [98]; []; [99]] /\
  exists pieces,
    split [97; 44; 98; 44; 44; 99] [44] = Some pieces /\
    join [44] pieces = [97; 44; 98; 44; 44; 99] /\
    List.length pieces = S (occurrences [44] [97; 44; 98; 44; 44; 99]) /\
    Forall (fun p => ~ occurs_in [44] p) pieces.
Proof.
  split; [reflexivity|].
  apply (split_pieces_rebuild_string [97; 44; 98; 44; 44; 99] [44]).
  - vm_compute. discriminate.
  - discriminate.
  - discriminate.
Defined.

(** C7, both arguments empty. With both the string and the delimiter empty
    the result is the empty vector, not the one-element vector holding the
    string: the test for the empty string comes first. *)
Lemma split_empty_string_empty_delimiter :
  split [] [] = Some [] /\ split [] [] <> Some [[]].
Proof. split; [reflexivity|discriminate]. Qed.

End str_facts.

Module accel_table_facts.
Import Win32 Cpp accel_table.

Lemma to_BYTE_of_BYTE (x : Z) : is_BYTE x -> to_BYTE x = x.
Proof. intros Hx. unfold to_BYTE, wrap. by apply Z.mod_small. Qed.

Lemma to_BYTE_is_BYTE (x : Z) : is_BYTE (to_BYTE x).
Proof. unfold is_BYTE, to_BYTE, wrap. apply Z.mod_pos_bound. lia. Qed.

(** [static_cast<WORD>(cmdId)] is [cmdId] exactly for the identifiers that
    are [WORD]s. *)
Lemma to_WORD_fixes (x : Z) : to_WORD x = x <-> 0 <= x < 2 ^ 16.
Proof.
  unfold to_WORD, wrap. split.
  - intros <-. apply Z.mod_pos_bound. lia.
  - apply Z.mod_small.
Qed.

Lemma haccel_built `{OS} (a a' : t) (h : HACCEL) :
  haccel a = Ret a' h -> h <> 0 -> _hAccel a' = h.
Proof.
  unfold haccel, _build, bind. intros Hrun _.
  destruct ((_hAccel a =? 0) && _).
  - destruct (CreateAcceleratorTableW (_accels a) =? 0); [done|].
    by injection Hrun as <- <-.
  - by injection Hrun as <- <-.
Qed.

(** C9. While no table has been built, [add_char] appends exactly one entry,
    made of the given modifiers (any value of the enumeration, combinations
    by [|] included), the upper-cased character and the command identifier
    converted to a [WORD]; the entry holds the given identifier exactly when
    that identifier lies in [0 .. 65535], and its low 16 bits otherwise.
    Once [haccel()] has returned a table, [add_char] and [add_key] throw
    [std::logic_error] and leave the object as it was. *)
Theorem accel_table_add_char_appends_until_built `{OS} (a : t)
    (ch vKey cmdId : Z) (m : modif) :
  (_hAccel a = 0 ->
     add_char ch m cmdId a =
       Ret (mk (_accels a ++
                  [mk_ACCEL (to_BYTE m) (CharUpperBuffW ch) (to_WORD cmdId)])
               0) tt) /\
  (is_BYTE m -> to_BYTE m = m) /\
  (forall m1 m2, is_BYTE (modif_or m1 m2) /\
     (is_BYTE m1 -> is_BYTE m2 -> modif_or m1 m2 = Z.lor m1 m2)) /\
  (to_WORD cmdId = cmdId <-> 0 <= cmdId < 2 ^ 16) /\
  (forall a' h, haccel a = Ret a' h -> h <> 0 ->
     add_char ch m cmdId a' =
       Exc a' (logic_error
                 "Cannot add character after accelerator table was built.") /\
     add_key vKey m cmdId a' =
       Exc a' (logic_error
                 "Cannot add virtual key after accelerator table was built.")).
Proof.
  split; [|split; [|split; [|split]]].
  - intros Hnull. unfold add_char. by rewrite Hnull.
  - apply to_BYTE_of_BYTE.
  - intros m1 m2. split; [apply to_BYTE_is_BYTE|].
    intros H1 H2. apply to_BYTE_of_BYTE. unfold is_BYTE in *.
    split; [apply Z.lor_nonneg; lia|].
    destruct (Z.eq_dec (Z.lor m1 m2) 0) as [->|Hne]; [lia|].
    apply Z.log2_lt_pow2; [pose proof (Z.lor_nonneg m1 m2); lia|].
    rewrite Z.log2_lor by lia.
    apply Z.max_lub_lt.
    + destruct (Z.eq_dec m1 0) as [->|?]; [cbn; lia|].
      apply Z.log2_lt_pow2; lia.
    + destruct (Z.eq_dec m2 0) as [->|?]; [cbn; lia|].
      apply Z.log2_lt_pow2; lia.
  - apply to_WORD_fixes.
  - intros a' h Hrun Hh. pose proof (haccel_built a a' h Hrun Hh) as Hbuilt.
    unfold add_char, add_key. rewrite Hbuilt.
    destruct (Z.eqb_spec h 0) as [?|_]; [done|]. done.
Qed.

(** Ctrl+Shift+s bound to command 1001, then the table is built. *)
Lemma accel_table_add_char_appends_until_built_witness :
  let a := mk [mk_ACCEL 13 83 1001] 0 in
  let a' := mk [] 0x5000 in
  @add_char sample_os 115 (modif_or CTRL SHIFT) 1001 create = Ret a tt /\
  to_WORD 1001 = 1001 /\
  @haccel sample_os a = Ret a' 0x5000 /\
  @add_char sample_os 97 ALT 1002 a' =
    Exc a' (logic_error
              "Cannot add character after accelerator table was built.").
Proof.
  intros a a'.
  pose proof (@accel_table_add_char_appends_until_built sample_os create
                115 0 1001 (modif_or CTRL SHIFT))
    as (Hadd & _ & _ & Hword & _).
  pose proof (@accel_table_add_char_appends_until_built sample_os a
                97 0 1002 ALT) as (_ & _ & _ & _ & Hlocked).
  split; [exact (Hadd eq_refl)|].
  split; [apply Hword; lia|].
  split; [reflexivity|].
  apply (Hlocked a' 0x5000 eq_refl). discriminate.
Defined.

(** C9, an identifier that is no [WORD]. [add_char(L'a', modif::NONE, 70000)]
    does not map the key to the given identifier: the entry holds [4464],
    the low 16 bits of [70000]. *)
Lemma add_char_truncates_command_id :
  @add_char sample_os 97 NONE 70000 create
    = Ret (mk [mk_ACCEL 1 65 4464] 0) tt /\
  @add_char sample_os 97 NONE 70000 create
    <> Ret (mk [mk_ACCEL 1 65 70000] 0) tt.
Proof. split; [reflexivity|discriminate]. Qed.

End accel_table_facts.

Module store_facts.
Import store.

Section with_key.
Context `{EqDecision K} {H : Type}.
Implicit Types (s : list (K * H)) (id : K) (func : H).

Lemma find_empty id : find id (@empty K H) = None.
Proof. done. Qed.

Lemma find_add_eq id func s : find id (add id func s) = Some func.
Proof.
  unfold add. induction s as [|[id' func'] s IH]; cbn.
  - by rewrite decide_True.
  - by rewrite IH.
Qed.

Lemma find_add_ne id id' func s :
  id' <> id -> find id (add id' func s) = find id s.
Proof.
  intros Hne. unfold add. induction s as [|[id'' func'] s IH]; cbn.
  - by rewrite decide_False.
  - by rewrite IH.
Qed.

End with_key.
End store_facts.

Module base_msg_handler_facts.
Import Win32 WinUser Cpp ui msg_proxy base_msg_handler.

(** What [exec] does once the search has given [found]. *)
Lemma exec_after_search {A} (h : t A) (msg wp lp : Z) (st : state A) found :
  search_user_handler h msg wp lp st = Some found ->
  exec h msg wp lp st =
    match found with
    | None => Ret st None
    | Some userFunc =>
        match userFunc (msg.mk_wm wp lp) st with
        | Ret st' v => Ret st' (Some v)
        | Exc st' _ => Ret (post_quit st') (Some 0)
        | UB => UB
        end
    end.
Proof.
  intros Hs. unfold exec. rewrite Hs. destruct found as [f|]; [|done].
  unfold catch_all_excps, bind. by destruct (f _ st).
Qed.

(** C1. [exec] looks the handler up by [LOWORD(wparam)] in the command store
    for [WM_COMMAND], by the pair [(idFrom, code)] of the [NMHDR] that
    [lparam] points to in the notification store for [WM_NOTIFY], and by the
    message itself in the message store otherwise. When nothing is found it
    returns the empty optional and changes nothing; when a handler is found
    and returns [v], it returns the optional holding [v]. *)
Theorem exec_lookup_key {A} (h : t A) (msg wp lp : Z) (st : state A) :
  let outcome_for (found : option (handler A)) : Prop :=
    match found with
    | None => exec h msg wp lp st = Ret st None
    | Some userFunc =>
        forall st' v, userFunc (msg.mk_wm wp lp) st = Ret st' v ->
                      exec h msg wp lp st = Ret st' (Some v)
    end in
  (msg = WM_COMMAND ->
     outcome_for (store.find (LOWORD wp) (_cmds (_stores h)))) /\
  (msg = WM_NOTIFY ->
     forall nmhdr, nmhdr_mem st !! lp = Some nmhdr ->
       outcome_for (store.find (idFrom nmhdr, to_int (code nmhdr))
                               (_nfys (_stores h)))) /\
  (msg <> WM_COMMAND -> msg <> WM_NOTIFY ->
     outcome_for (store.find msg (_msgs (_stores h)))).
Proof.
  intros outcome_for.
  assert (Hout : forall found,
             search_user_handler h msg wp lp st = Some found ->
             outcome_for found).
  { intros found Hs. pose proof (exec_after_search h msg wp lp st found Hs) as He.
    unfold outcome_for. destruct found as [f|]; [|done].
    intros st' v Hf. by rewrite He, Hf. }
  split; [|split].
  - intros ->. apply Hout. done.
  - intros -> nmhdr Hmem. apply Hout. unfold search_user_handler.
    cbn. by rewrite Hmem.
  - intros Hc Hn. apply Hout. unfold search_user_handler.
    destruct (Z.eqb_spec msg WM_COMMAND); [done|].
    destruct (Z.eqb_spec msg WM_NOTIFY); [done|]. done.
Qed.

(** C6. When the handler found by [exec] throws, [exec] does not throw: it
    returns the optional holding [0], the initial value of [retVal]. No run
    of [exec] ends in an exception. *)
Theorem exec_swallows_handler_exception {A} (h : t A) (msg wp lp : Z)
    (st : state A) :
  (forall userFunc st' e,
     search_user_handler h msg wp lp st = Some (Some userFunc) ->
     userFunc (msg.mk_wm wp lp) st = Exc st' e ->
     exec h msg wp lp st = Ret (post_quit st') (Some 0)) /\
  (forall st' e, exec h msg wp lp st <> Exc st' e).
Proof.
  split.
  - intros f st' e Hs Hf. by rewrite (exec_after_search _ _ _ _ _ _ Hs), Hf.
  - intros st' e. unfold exec.
    destruct (search_user_handler h msg wp lp st) as [[f|]|]; [|done..].
    unfold catch_all_excps, bind. by destruct (f _ st).
Qed.

(** A [WM_COMMAND] for identifier 1001 (with a notification code in the high
    word), the [WM_NOTIFY] of control 7, a [WM_CLOSE] and an unhandled
    [WM_SIZE]. *)
Lemma exec_lookup_key_witness :
  exec samples.sample_handler WM_COMMAND (Z.lor (Z.shiftl 3 16) 1001) 0
       samples.st0 = Ret (set_app [2] samples.st0) (Some 0) /\
  exec samples.sample_handler WM_NOTIFY 0 0x1000 samples.st0
    = Ret (set_app [3] samples.st0) (Some 3) /\
  exec samples.sample_handler WM_CLOSE 0 0 samples.st0
    = Ret (set_app [1] samples.st0) (Some 1) /\
  exec samples.sample_handler WM_SIZE 0 0 samples.st0 = Ret samples.st0 None.
Proof.
  pose proof (exec_lookup_key samples.sample_handler WM_COMMAND
                (Z.lor (Z.shiftl 3 16) 1001) 0 samples.st0) as (Hcmd & _ & _).
  pose proof (exec_lookup_key samples.sample_handler WM_NOTIFY
                0 0x1000 samples.st0) as (_ & Hnfy & _).
  pose proof (exec_lookup_key samples.sample_handler WM_CLOSE
                0 0 samples.st0) as (_ & _ & Hclose).
  pose proof (exec_lookup_key samples.sample_handler WM_SIZE
                0 0 samples.st0) as (_ & _ & Hsize).
  split; [exact (Hcmd eq_refl _ _ eq_refl)|].
  split; [exact (Hnfy eq_refl _ eq_refl _ _ eq_refl)|].
  split; [apply (Hclose ltac:(discriminate) ltac:(discriminate)); reflexivity|].
  exact (Hsize ltac:(discriminate) ltac:(discriminate)).
Defined.

(** The [WM_PAINT] handler of the sample throws after logging 4. *)
Lemma exec_swallows_handler_exception_witness :
  exec samples.sample_handler WM_PAINT 0 0 samples.st0
    = Ret (post_quit (set_app [4] samples.st0)) (Some 0).
Proof.
  exact (proj1 (exec_swallows_handler_exception samples.sample_handler
                  WM_PAINT 0 0 samples.st0)
               (samples.log_then_throw 4) _ other_exception eq_refl eq_refl).
Defined.

End base_msg_handler_facts.

Module ui_work_facts.
Import Win32 WinUser Cpp ui msg_proxy base_msg_handler ui_work.
Import base_msg_handler_facts.

Lemma new_address_fresh {A} (st : state A) :
  new_address st <> 0 /\ fun_heap st !! new_address st = None.
Proof.
  pose proof (is_fresh ({[0]} ∪ dom (fun_heap st))) as Hfresh.
  fold (new_address st) in Hfresh.
  apply not_elem_of_union in Hfresh as [Hz Hdom].
  split.
  - intros Heq. apply Hz. rewrite Heq. by apply elem_of_singleton.
  - by apply not_elem_of_dom.
Qed.

Lemma search_finds_default {A} (isDialog : bool) (wp lp : Z) (st : state A) :
  search_user_handler (create isDialog) WM_UI_WORK_THREAD wp lp st
    = Some (Some ui_work_thread_handler).
Proof. reflexivity. Qed.

(** C3. [work] puts the function on the heap at a fresh address that is not
    null and sends [WM_UI_WORK_THREAD = WM_APP + 0x3fff] with [wparam]
    [0xc0def00d] and the address as [lparam]. The handler that every
    [base_msg_handler] installs for this message calls the function, frees
    the address and returns 0, also when the function throws; with any other
    [wparam], or a null [lparam], it calls nothing and returns 0. *)
Theorem ui_work_message_round_trip {A} (isDialog : bool) (hWnd : Z)
    (func : thunk A) (st : state A) :
  let pFunc := new_address st in
  let st1 := allocated func st in
  let h : t A := create isDialog in
  WM_UI_WORK_THREAD = WM_APP + 0x3fff /\
  pFunc <> 0 /\
  fun_heap st !! pFunc = None /\
  fun_heap st1 !! pFunc = Some func /\
  (forall SendMessageW,
     work SendMessageW hWnd func st =
       Cpp.bind (SendMessageW hWnd WM_UI_WORK_THREAD 0xc0def00d pFunc st1)
                (fun st' _ => Ret st' tt)) /\
  store.find WM_UI_WORK_THREAD (_msgs (_stores h))
    = Some ui_work_thread_handler /\
  exec h WM_UI_WORK_THREAD 0xc0def00d pFunc st1 =
    match func (app st) with
    | Ret a _ => Ret (set_app a st) (Some 0)
    | Exc a _ => Ret (post_quit (set_app a st)) (Some 0)
    | UB => UB
    end /\
  (forall wp lp, wp <> 0xc0def00d \/ lp = 0 ->
     exec h WM_UI_WORK_THREAD wp lp st = Ret st (Some 0)).
Proof.
  intros pFunc st1 h.
  destruct (new_address_fresh st) as [Hnz Hfree]. fold pFunc in Hnz, Hfree.
  assert (Hin : fun_heap st1 !! pFunc = Some func).
  { unfold st1, allocated. cbn. fold pFunc. apply lookup_insert_eq. }
  split; [reflexivity|]. split; [done|]. split; [done|]. split; [done|].
  split; [done|]. split; [reflexivity|]. split.
  - rewrite (exec_after_search h _ _ _ _ _
               (search_finds_default isDialog _ _ st1)).
    unfold ui_work_thread_handler. cbn [msg.wparam msg.lparam].
    change (0xc0def00d =? magic) with true.
    destruct (Z.eqb_spec pFunc 0) as [?|_]; [done|]. cbn [andb negb].
    rewrite Hin. unfold catch_all_excps, call_thunk, bind.
    assert (Hheap : delete pFunc (<[new_address st:=func]> (fun_heap st))
                    = fun_heap st) by (by apply delete_insert_id).
    change (app st1) with (app st).
    destruct (func (app st)) as [a u|a e|]; [| |done].
    + unfold set_fun_heap, set_app. cbn. rewrite Hheap. done.
    + unfold set_fun_heap, set_app, post_quit. cbn. rewrite Hheap. done.
  - intros wp lp Hskip.
    rewrite (exec_after_search h _ _ _ _ _
               (search_finds_default isDialog _ _ st)).
    unfold ui_work_thread_handler. cbn [msg.wparam msg.lparam].
    destruct Hskip as [Hwp| ->].
    + destruct (Z.eqb_spec wp magic) as [?|_]; [done|]. done.
    + rewrite Z.eqb_refl, andb_false_r. done.
Qed.

(** [work] on the sample state, the message being delivered to the [exec] of
    a fresh handler object. *)
Lemma ui_work_message_round_trip_witness :
  work (fun _ msg wp lp st =>
          Cpp.bind (exec (create false) msg wp lp st)
                   (fun st' r => Ret st' (default 0 r)))
       0x300 (samples.log_thunk 5) samples.st0
    = Ret (set_app [5] samples.st0) tt /\
  exec (create false) WM_UI_WORK_THREAD 0xbad 0x4000 samples.st0
    = Ret samples.st0 (Some 0) /\
  exec (create false) WM_UI_WORK_THREAD 0xc0def00d 0 samples.st0
    = Ret samples.st0 (Some 0).
Proof.
  pose proof (ui_work_message_round_trip false 0x300 (samples.log_thunk 5)
                samples.st0) as (_ & _ & _ & _ & Hwork & _ & Hexec & Hskip).
  split; [|split].
  - rewrite Hwork. cbn beta. rewrite Hexec. reflexivity.
  - apply Hskip. left. discriminate.
  - apply Hskip. right. reflexivity.
Defined.

End ui_work_facts.

Module msg_proxy_facts.
Import Win32 WinUser Cpp ui msg_proxy base_msg_handler samples.
Import base_msg_handler_facts.

(** C2, the four declarations that differ. [wm_copy_data] is declared with
    [WM_CREATE], [wm_get_hot_key] with [WM_GETFONT], [wm_input_lang_change]
    with [WM_HELP] and [wm_query_drag_icon] with [WM_QUERYNEWPALETTE]. For
    each of them a callback registered on a fresh handler object is not found
    when the message the method is named after arrives, and is found for the
    other message instead. Every other method is declared with the message
    it is named after. *)
Theorem named_methods_store_under_declared_message {A} (isDialog : bool)
    (func : handler A) (wp lp : Z) (st : state A) :
  declared wm_copy_data = (WM_CREATE, RET_TYPE c_bool) /\
  declared wm_get_hot_key = (WM_GETFONT, RET_TYPE c_WORD) /\
  declared wm_input_lang_change = (WM_HELP, RET_VAL 1) /\
  declared wm_query_drag_icon = (WM_QUERYNEWPALETTE, RET_TYPE c_HICON) /\
  Forall (fun m =>
            (declared m).1 <> named_after m /\
            exec (registered isDialog m func) (named_after m) wp lp st
              = Ret st None /\
            search_user_handler (registered isDialog m func)
                                (declared m).1 wp lp st
              = Some (Some (wrapper (declared m).2 isDialog func)))
         misfiled /\
  (forall m, (declared m).1 = named_after m \/ m ∈ misfiled).
Proof.
  do 4 (split; [reflexivity|]). split.
  - repeat constructor; try discriminate;
      try (rewrite (exec_after_search _ _ _ _ _ None); reflexivity).
  - intros m. unfold misfiled.
    destruct m; first [left; reflexivity | right; set_solver].
Qed.

End msg_proxy_facts.

Module base_dialog_facts.
Import Win32 WinUser Cpp ui msg_proxy base_dialog.
Import base_msg_handler_facts.




Section dialog_proc.
Context `{Gdi} {A : Type}.
Implicit Types (sys : system A) (d self : t A).

(** [exec] inside the system touches the user interface state only. *)
Lemma run_exec_frame d msg wp lp sys sys' r :
  run_exec d msg wp lp sys = Ret sys' r ->
  objects sys' = objects sys /\ dwlp_user sys' = dwlp_user sys.
Proof.
  unfold run_exec.
  destruct (base_msg_handler.exec _ msg wp lp (ui_st sys)); [|done..].
  by intros [= <- _].
Qed.

Lemma exec_no_exception (h : base_msg_handler.t A) msg wp lp
    (st st' : state A) e :
  base_msg_handler.exec h msg wp lp st <> Exc st' e.
Proof.
  unfold base_msg_handler.exec.
  destruct (base_msg_handler.search_user_handler h msg wp lp st)
    as [[f|]|]; [|done..].
  unfold catch_all_excps, bind. by destruct (f _ st).
Qed.

Lemma run_exec_cases d msg wp lp sys :
  (exists st r, base_msg_handler.exec (_msgHandler d) msg wp lp (ui_st sys)
                  = Ret st r /\
                run_exec d msg wp lp sys
                  = Ret (mk_system st (objects sys) (dwlp_user sys)) r) \/
  run_exec d msg wp lp sys = UB.
Proof.
  unfold run_exec.
  destruct (base_msg_handler.exec _ msg wp lp (ui_st sys)) as [st r|st e|] eqn:He.
  - left. by exists st, r.
  - by apply exec_no_exception in He.
  - by right.
Qed.

Lemma deref_frame sys sys' p :
  objects sys' = objects sys -> deref sys' p = deref sys p.
Proof. unfold deref. by intros ->. Qed.

(** What a run of the dialog procedure that returns has done to the objects
    and to the [DWLP_USER] slots. [p] is the pointer the procedure works
    with. *)
Lemma _dialog_proc_shape hWnd msg wp lp sys sys' r :
  _dialog_proc hWnd msg wp lp sys = Ret sys' r ->
  let p := if msg =? WM_INITDIALOG then lp else GetWindowLongPtrW hWnd sys in
  (p = 0 /\ msg <> WM_INITDIALOG /\ sys' = sys /\ r = FALSE) \/
  (p <> 0 /\ exists d, deref sys p = Some d /\
     objects sys' =
       (if msg =? WM_NCDESTROY
        then alter (fun d => mk 0 (_msgHandler d)) p
        else id)
         ((if msg =? WM_INITDIALOG
           then alter (fun d => mk hWnd (_msgHandler d)) p
           else id) (objects sys)) /\
     dwlp_user sys' =
       (if msg =? WM_NCDESTROY then <[hWnd := 0]> else id)
         ((if msg =? WM_INITDIALOG then <[hWnd := lp]> else id)
            (dwlp_user sys))).
Proof.
  unfold _dialog_proc, _dialog_proc_self.
  destruct (Z.eqb_spec msg WM_INITDIALOG) as [->|Hmsg]; cbn zeta.
  - (* WM_INITDIALOG *)
    change (WM_INITDIALOG =? WM_NCDESTROY) with false.
    set (sys1 := SetWindowLongPtrW hWnd lp sys).
    assert (Hslot : GetWindowLongPtrW hWnd sys1 = lp).
    { unfold GetWindowLongPtrW, sys1. cbn. by rewrite lookup_insert_eq. }
    assert (Hd1 : deref sys1 lp = deref sys lp) by done.
    unfold _set_ui_font_on_children. rewrite Hslot, Hd1.
    destruct (deref sys lp) as [d|] eqn:Hd.
    2:{ cbn [bind]. by rewrite Hd1. }
    destruct (run_exec_cases d WM_SETFONT globalUiFont_hfont 0 sys1)
      as [(st & r0 & _ & ->)| ->]; [|done].
    cbn [bind]. set (sys2 := mk_system st _ _).
    assert (Hd2 : deref sys2 lp = Some d) by exact Hd1.
    rewrite Hd2. cbn [bind]. unfold deref in Hd.
    destruct (Z.eqb_spec lp 0) as [?|Hlp]; [done|].
    set (sys3 := set_hWnd lp hWnd sys2).
    assert (Hd3 : deref sys3 lp = Some (mk hWnd (_msgHandler d))).
    { unfold deref, sys3, set_hWnd. cbn.
      destruct (Z.eqb_spec lp 0); [done|]. by rewrite lookup_alter_eq, Hd. }
    rewrite Hd3.
    destruct (run_exec_cases (mk hWnd (_msgHandler d)) WM_INITDIALOG wp lp sys3)
      as [(st' & r' & _ & ->)| ->]; [|done].
    cbn [bind]. intros [= <- _]. right. split; [done|].
    exists d. split; [by unfold deref; destruct (Z.eqb_spec lp 0)|]. done.
  - (* any other message *)
    cbn [bind]. set (p := GetWindowLongPtrW hWnd sys).
    destruct (Z.eqb_spec p 0) as [Hp|Hp].
    { intros [= <- <-]. by left. }
    destruct (deref sys p) as [d|] eqn:Hd; [|done].
    destruct (run_exec_cases d msg wp lp sys) as [(st & r0 & _ & ->)| ->];
      [|done].
    cbn [bind]. intros [= <- _]. right. split; [done|]. exists d.
    split; [done|]. by destruct (msg =? WM_NCDESTROY).
Qed.

Lemma init_dialog_effect hWnd wp lp sys sys' r :
  _dialog_proc hWnd WM_INITDIALOG wp lp sys = Ret sys' r ->
  exists d, deref sys lp = Some d /\
            deref sys' lp = Some (mk hWnd (_msgHandler d)) /\
            GetWindowLongPtrW hWnd sys' = lp.
Proof.
  intros Hrun. apply _dialog_proc_shape in Hrun. cbn zeta in Hrun.
  change (WM_INITDIALOG =? WM_INITDIALOG) with true in Hrun.
  change (WM_INITDIALOG =? WM_NCDESTROY) with false in Hrun.
  destruct Hrun as [(_ & ? & _)|(Hlp & d & Hd & Hobj & Hslot)]; [done|].
  exists d. split; [done|]. unfold deref, GetWindowLongPtrW in *.
  rewrite Hobj, Hslot. cbn [id].
  destruct (Z.eqb_spec lp 0); [done|].
  by rewrite lookup_alter_eq, Hd, lookup_insert_eq.
Qed.

Lemma nc_destroy_effect hWnd wp lp sys sys' r :
  GetWindowLongPtrW hWnd sys <> 0 ->
  _dialog_proc hWnd WM_NCDESTROY wp lp sys = Ret sys' r ->
  exists d, deref sys (GetWindowLongPtrW hWnd sys) = Some d /\
            deref sys' (GetWindowLongPtrW hWnd sys)
              = Some (mk 0 (_msgHandler d)) /\
            dwlp_user sys' !! hWnd = Some 0.
Proof.
  intros Hp Hrun. apply _dialog_proc_shape in Hrun. cbn zeta in Hrun.
  change (WM_NCDESTROY =? WM_INITDIALOG) with false in Hrun.
  change (WM_NCDESTROY =? WM_NCDESTROY) with true in Hrun.
  destruct Hrun as [(? & _)|(_ & d & Hd & Hobj & Hslot)]; [done|].
  exists d. split; [done|]. unfold deref in *. rewrite Hobj, Hslot. cbn [id].
  destruct (Z.eqb_spec (GetWindowLongPtrW hWnd sys) 0); [done|].
  by rewrite lookup_alter_eq, Hd, lookup_insert_eq.
Qed.

(** Before [WM_INITDIALOG] nothing was stored in the window, and after
    [WM_NCDESTROY] zero is stored: in both cases the pointer read back is
    null. *)
Lemma _dialog_proc_self_none hWnd msg lp sys :
  msg <> WM_INITDIALOG ->
  dwlp_user sys !! hWnd = None \/ dwlp_user sys !! hWnd = Some 0 ->
  _dialog_proc_self hWnd msg lp sys = Ret sys 0.
Proof.
  intros Hmsg Hslot. unfold _dialog_proc_self, GetWindowLongPtrW.
  destruct (Z.eqb_spec msg WM_INITDIALOG); [done|].
  by destruct Hslot as [-> | ->].
Qed.

(** What the procedure does once it works with the object [self] in the
    system [sys1]. *)
Lemma run_exec_returns_handler_value self msg wp lp sys1 :
  (base_msg_handler.search_user_handler (_msgHandler self) msg wp lp
     (ui_st sys1) = Some None ->
   run_exec self msg wp lp sys1 = Ret sys1 None) /\
  (forall userFunc st' v,
     base_msg_handler.search_user_handler (_msgHandler self) msg wp lp
       (ui_st sys1) = Some (Some userFunc) ->
     userFunc (msg.mk_wm wp lp) (ui_st sys1) = Ret st' v ->
     run_exec self msg wp lp sys1
       = Ret (mk_system st' (objects sys1) (dwlp_user sys1)) (Some v)).
Proof.
  unfold run_exec. split.
  - intros Hs. rewrite (exec_after_search _ _ _ _ _ _ Hs). by destruct sys1.
  - intros f st' v Hs Hf. by rewrite (exec_after_search _ _ _ _ _ _ Hs), Hf.
Qed.

(** A message other than [WM_INITDIALOG], for a window that holds the
    address of a dialog object. *)
Lemma _dialog_proc_with_object hWnd msg wp lp sys self :
  msg <> WM_INITDIALOG ->
  deref sys (GetWindowLongPtrW hWnd sys) = Some self ->
  returns_handler_value self (ui_st sys) hWnd msg wp lp sys.
Proof.
  intros Hmsg Hd.
  assert (Hrun : _dialog_proc hWnd msg wp lp sys =
            let* (sys2, ret) := run_exec self msg wp lp sys in
            Ret (if msg =? WM_NCDESTROY
                 then set_hWnd (GetWindowLongPtrW hWnd sys) 0
                        (SetWindowLongPtrW hWnd 0 sys2)
                 else sys2)
                (default FALSE ret)).
  { unfold _dialog_proc, _dialog_proc_self.
    destruct (Z.eqb_spec msg WM_INITDIALOG); [done|]. cbn [bind].
    rewrite Hd. unfold deref in Hd.
    by destruct (GetWindowLongPtrW hWnd sys =? 0). }
  destruct (run_exec_returns_handler_value self msg wp lp sys) as [Hn Hf].
  split.
  - intros Hs. rewrite Hrun, (Hn Hs). cbn [bind]. by eexists.
  - intros f st' v Hs Hv. rewrite Hrun, (Hf f st' v Hs Hv). cbn [bind default].
    eexists. split; [reflexivity|]. by destruct (msg =? WM_NCDESTROY).
Qed.

(** [WM_INITDIALOG] for the object at [lp]: the handler is looked up and
    run once the pointer is stored and the fonts are set. *)
Lemma _dialog_proc_init_dialog hWnd wp lp sys self sysf :
  deref sys lp = Some self ->
  _set_ui_font_on_children hWnd (SetWindowLongPtrW hWnd lp sys)
    = Ret sysf tt ->
  returns_handler_value self (ui_st sysf) hWnd WM_INITDIALOG wp lp sys.
Proof.
  intros Hd Hfont.
  assert (Hobj : objects sysf = objects sys).
  { unfold _set_ui_font_on_children in Hfont.
    destruct (deref _ _) as [d|] in Hfont; [|by injection Hfont as <-].
    destruct (run_exec d _ _ _ _) as [s1 r1| |] eqn:Hr in Hfont; [|done..].
    cbn [bind] in Hfont. injection Hfont as <-.
    by apply run_exec_frame in Hr as [-> _]. }
  assert (Hlp : (lp =? 0) = false).
  { unfold deref in Hd. by destruct (lp =? 0). }
  assert (Hdf : deref sysf lp = Some self).
  { rewrite <- Hd. by apply deref_frame. }
  set (self' := mk hWnd (_msgHandler self)).
  assert (Hd' : deref (set_hWnd lp hWnd sysf) lp = Some self').
  { unfold deref in *. rewrite Hlp in *. cbn.
    by rewrite lookup_alter_eq, Hdf. }
  assert (Hrun : _dialog_proc hWnd WM_INITDIALOG wp lp sys =
            let* (sys2, ret) :=
              run_exec self' WM_INITDIALOG wp lp (set_hWnd lp hWnd sysf) in
            Ret sys2 (default FALSE ret)).
  { unfold _dialog_proc, _dialog_proc_self.
    change (WM_INITDIALOG =? WM_INITDIALOG) with true. cbn zeta.
    rewrite Hfont. cbn [bind]. rewrite Hdf. cbn [bind].
    rewrite Hlp, Hd'. done. }
  destruct (run_exec_returns_handler_value self' WM_INITDIALOG wp lp
              (set_hWnd lp hWnd sysf)) as [Hn Hf].
  split.
  - intros Hs. rewrite Hrun, (Hn Hs). cbn [bind]. by eexists.
  - intros f st' v Hs Hv. rewrite Hrun, (Hf f st' v Hs Hv).
    cbn [bind default]. by eexists.
Qed.

(** C4. When the window holds no pointer to the dialog object (nothing
    stored yet, before [WM_INITDIALOG], or zero stored, after
    [WM_NCDESTROY]) the procedure returns [FALSE] and changes nothing. When
    the window holds the address of a dialog object, and on [WM_INITDIALOG]
    itself, which brings that address in [lp]: if the object has no handler
    for the key of the message the procedure returns [FALSE]; if it has one
    and the handler returns [v], the procedure returns [v]. The two are
    tied by the procedure itself: after it has processed [WM_INITDIALOG]
    every later message is answered by the handlers of the object that
    [lp] designated, and after it has processed [WM_NCDESTROY] every later
    message is answered [FALSE]. *)
Theorem dialog_proc_returns_handler_value hWnd msg wp lp sys :
  (msg <> WM_INITDIALOG ->
   dwlp_user sys !! hWnd = None \/ dwlp_user sys !! hWnd = Some 0 ->
   _dialog_proc hWnd msg wp lp sys = Ret sys FALSE) /\
  (forall self,
     msg <> WM_INITDIALOG ->
     deref sys (GetWindowLongPtrW hWnd sys) = Some self ->
     returns_handler_value self (ui_st sys) hWnd msg wp lp sys) /\
  (forall self sysf,
     msg = WM_INITDIALOG ->
     deref sys lp = Some self ->
     _set_ui_font_on_children hWnd (SetWindowLongPtrW hWnd lp sys)
       = Ret sysf tt ->
     returns_handler_value self (ui_st sysf) hWnd msg wp lp sys) /\
  (forall sys1 r1,
     msg = WM_INITDIALOG ->
     _dialog_proc hWnd msg wp lp sys = Ret sys1 r1 ->
     exists self,
       deref sys lp = Some self /\
       forall msg' wp' lp',
         msg' <> WM_INITDIALOG ->
         returns_handler_value self (ui_st sys1) hWnd msg' wp' lp' sys1) /\
  (forall sys1 r1,
     msg = WM_NCDESTROY ->
     _dialog_proc hWnd msg wp lp sys = Ret sys1 r1 ->
     forall msg' wp' lp',
       msg' <> WM_INITDIALOG ->
       _dialog_proc hWnd msg' wp' lp' sys1 = Ret sys1 FALSE).
Proof.
  split; [|split; [|split; [|split]]].
  - intros Hmsg Hslot. unfold _dialog_proc.
    by rewrite (_dialog_proc_self_none hWnd msg lp sys Hmsg Hslot).
  - intros self. apply _dialog_proc_with_object.
  - intros self sysf ->. apply _dialog_proc_init_dialog.
  - intros sys1 r1 -> Hrun.
    destruct (init_dialog_effect _ _ _ _ _ _ Hrun) as (d & Hd & Hd1 & Hslot).
    exists d. split; [done|]. intros msg' wp' lp' Hmsg'.
    rewrite <- Hslot in Hd1.
    exact (_dialog_proc_with_object hWnd msg' wp' lp' sys1 _ Hmsg' Hd1).
  - intros sys1 r1 -> Hrun msg' wp' lp' Hmsg'.
    assert (Hslot : dwlp_user sys1 !! hWnd = None \/
                    dwlp_user sys1 !! hWnd = Some 0).
    { apply _dialog_proc_shape in Hrun. cbn zeta in Hrun.
      change (WM_NCDESTROY =? WM_INITDIALOG) with false in Hrun.
      change (WM_NCDESTROY =? WM_NCDESTROY) with true in Hrun.
      destruct Hrun as [(Hp & _ & -> & _)|(_ & _ & _ & _ & ->)].
      - unfold GetWindowLongPtrW in Hp.
        destruct (dwlp_user sys !! hWnd) as [x|]; [right|by left].
        cbn in Hp. by subst.
      - right. cbn [id]. by rewrite lookup_insert_eq. }
    unfold _dialog_proc.
    by rewrite (_dialog_proc_self_none hWnd msg' lp' sys1 Hmsg' Hslot).
Qed.

End dialog_proc.

(** The sample window: before [WM_INITDIALOG]; once the procedure has
    processed [WM_INITDIALOG] for the dialog object at [0x2000], on a
    message without handler and on [WM_CLOSE], whose handler returns [1];
    and once it has processed [WM_NCDESTROY]. *)
Lemma dialog_proc_returns_handler_value_witness :
  @_dialog_proc samples.sample_gdi _ 0x300 WM_CLOSE 0 0 samples.sys0
    = Ret samples.sys0 FALSE /\
  exists sys1,
    @_dialog_proc samples.sample_gdi _ 0x300 WM_INITDIALOG 0 0x2000
      samples.sys0 = Ret sys1 FALSE /\
    (exists sys', @_dialog_proc samples.sample_gdi _ 0x300 WM_SIZE 0 0 sys1
                    = Ret sys' FALSE) /\
    (exists sys', @_dialog_proc samples.sample_gdi _ 0x300 WM_CLOSE 0 0 sys1
                    = Ret sys' 1 /\
                  ui_st sys' = set_app [1] samples.st0) /\
    exists sys2,
      @_dialog_proc samples.sample_gdi _ 0x300 WM_NCDESTROY 0 0 sys1
        = Ret sys2 FALSE /\
      @_dialog_proc samples.sample_gdi _ 0x300 WM_CLOSE 0 0 sys2
        = Ret sys2 FALSE.
Proof.
  pose proof (@dialog_proc_returns_handler_value samples.sample_gdi _
                0x300 WM_CLOSE 0 0 samples.sys0) as (Hnone & _).
  pose proof (@dialog_proc_returns_handler_value samples.sample_gdi _
                0x300 WM_INITDIALOG 0 0x2000 samples.sys0)
    as (_ & _ & _ & Hinit & _).
  split; [apply Hnone; [discriminate|by left]|].
  destruct (@_dialog_proc samples.sample_gdi _ 0x300 WM_INITDIALOG 0 0x2000
              samples.sys0) as [sys1 r1| |] eqn:Hrun; [|discriminate..].
  assert (Hr1 : r1 = FALSE) by (by injection Hrun as _ <-).
  assert (Hsys1 : sys1 = samples.sys_created) by (by injection Hrun as <- _).
  destruct (Hinit sys1 r1 eq_refl eq_refl) as (self & Hself & Hlater).
  assert (Hself' : self = samples.sample_dialog)
    by (injection Hself as <-; reflexivity).
  exists sys1. rewrite Hr1. split; [reflexivity|].
  subst sys1 self. split; [|split].
  - exact (proj1 (Hlater WM_SIZE 0 0 ltac:(discriminate)) eq_refl).
  - exact (proj2 (Hlater WM_CLOSE 0 0 ltac:(discriminate))
                 (samples.log_then_return 1) _ 1 eq_refl eq_refl).
  - pose proof (@dialog_proc_returns_handler_value samples.sample_gdi _
                  0x300 WM_NCDESTROY 0 0 samples.sys_created)
      as (_ & _ & _ & _ & Hgone).
    eexists. split; [reflexivity|].
    exact (Hgone _ FALSE eq_refl eq_refl WM_CLOSE 0 0 ltac:(discriminate)).
Defined.

End base_dialog_facts.

(** ** More on insert_order_map.h: [find], and runs of [emplace] *)

Module insert_order_map_lookup.
Import Win32 insert_order_map insert_order_map_facts.

Section with_types.
Context `{EqDecision K} {V : Type}.
Implicit Types (m es : list (entry K V)) (k : K) (v : V).

Lemma first_value_app k (l1 l2 : list (K * V)) :
  first_value k (l1 ++ l2) =
    match first_value k l1 with
    | Some v => Some v
    | None => first_value k l2
    end.
Proof.
  induction l1 as [|[k' v'] l1 IH]; [done|]. cbn.
  by destruct (decide (k' = k)).
Qed.

Lemma first_value_None k (l : list (K * V)) :
  first_value k l = None <-> k ∉ l.*1.
Proof.
  induction l as [|[k' v'] l IH]; cbn.
  - split; [intros _ Hin; inversion Hin|done].
  - rewrite not_elem_of_cons. destruct (decide (k' = k)) as [->|Hne].
    + split; [done|]. by intros [? _].
    + rewrite IH. split; [intros ?; split; [congruence|done]|by intros [_ ?]].
Qed.

Lemma pairs_keys m : (pairs m).*1 = keys m.
Proof.
  unfold pairs, keys. rewrite <- list_fmap_compose. done.
Qed.

Lemma _find_idx_from_value k es i :
  0 <= i -> i + Z.of_nat (length es) < 2 ^ 64 ->
  match first_value k (pairs es) with
  | Some v => exists n, _find_idx_from k es i = i + Z.of_nat n /\
                        val <$> es !! n = Some v
  | None => _find_idx_from k es i = SIZE_MAX
  end.
Proof.
  revert i. induction es as [|e es IH]; intros i Hi Hlen; [done|].
  cbn [_find_idx_from pairs fmap list_fmap first_value].
  destruct (decide (key e = k)) as [He|He].
  - exists 0%nat. split; [lia|done].
  - cbn [length] in Hlen. rewrite (str_facts.size_t_small (i + 1)) by lia.
    specialize (IH (i + 1) ltac:(lia) ltac:(lia)). fold (pairs es).
    destruct (first_value k (pairs es)) as [v|]; [|done].
    destruct IH as (n & Hn & Hv). exists (S n). split; [lia|done].
Qed.

(** [find] is the value of the first entry that has the key. *)
Lemma find_first_value k m :
  size m <= SIZE_MAX -> find k m = first_value k (pairs m).
Proof.
  intros Hsz. rewrite SIZE_MAX_eq in Hsz. unfold size in Hsz.
  pose proof (_find_idx_from_value k m 0 ltac:(lia) ltac:(lia)) as Hv.
  unfold find, _find_idx.
  destruct (first_value k (pairs m)) as [v|].
  - destruct Hv as (n & -> & Hn).
    assert (Hlt : (n < length m)%nat).
    { destruct (m !! n) eqn:Hl; [|done]. by apply lookup_lt_Some in Hl. }
    destruct (Z.eqb_spec (0 + Z.of_nat n) SIZE_MAX) as [Heq|_].
    { rewrite SIZE_MAX_eq in Heq. lia. }
    unfold at_iterator. destruct (Z.ltb_spec (0 + Z.of_nat n) 0); [lia|].
    replace (Z.to_nat (0 + Z.of_nat n)) with n by lia. done.
  - rewrite Hv. by rewrite Z.eqb_refl.
Qed.

Lemma pairs_snoc m k v : pairs (m ++ [mk_entry k v]) = pairs m ++ [(k, v)].
Proof. unfold pairs. by rewrite fmap_app. Qed.

Lemma emplace_size k v m : size m <= size (emplace k v m).1.
Proof.
  rewrite emplace_fst. destruct (_ =? _); [|done].
  unfold size. rewrite length_app. lia.
Qed.

(** The vector after [emplace], by membership of the key. *)
Lemma emplace_fst_cases k v m :
  size m <= SIZE_MAX ->
  (emplace k v m).1 = if decide (k ∈ keys m) then m else m ++ [mk_entry k v].
Proof.
  intros Hsz. rewrite emplace_fst. destruct (decide (k ∈ keys m)) as [Hin|Hnin].
  - by destruct (_find_idx_present k m Hsz Hin) as (_ & _ & _ & _ & _ & ->).
  - by rewrite (_find_idx_absent k m Hnin).
Qed.

End with_types.

Lemma find_emplace_fst `{EqDecision K} {V} (m : t K V) (k : K) (v : V) :
  size (emplace k v m).1 <= SIZE_MAX ->
  find k (emplace k v m).1 = Some (default v (find k m)) /\
  (forall k', k' <> k -> find k' (emplace k v m).1 = find k' m).
Proof.
  intros Hsz. pose proof (emplace_size k v m) as Hle.
  assert (Hm : size m <= SIZE_MAX) by lia.
  rewrite !find_first_value by done. rewrite emplace_fst_cases by done.
  destruct (decide (k ∈ keys m)) as [Hin|Hnin].
  - split; [|intros k' _; by rewrite !find_first_value].
    destruct (first_value k (pairs m)) as [v'|] eqn:Hf; [done|].
    apply first_value_None in Hf. by rewrite pairs_keys in Hf.
  - rewrite emplace_fst_cases in Hsz by done.
    rewrite decide_False in Hsz by done.
    assert (Hnone : first_value k (pairs m) = None).
    { apply first_value_None. by rewrite pairs_keys. }
    split.
    + rewrite pairs_snoc, first_value_app, Hnone. cbn. by rewrite decide_True.
    + intros k' Hne. rewrite !find_first_value by done.
      rewrite pairs_snoc, first_value_app. cbn. rewrite decide_False by done.
      by destruct (first_value k' (pairs m)).
Qed.

(** X1. Looking up after inserting: after [emplace(k, v)] the key [k] is found
    with the value it already had, if it had one, and with [v] otherwise (an
    existing value is never overwritten); every other key is found as
    before. *)
Theorem find_after_emplace `{EqDecision K} {V} (m : t K V) (k : K) (v : V) :
  size (emplace k v m).1 <= SIZE_MAX ->
  find k (emplace k v m).1 = Some (default v (find k m)) /\
  (forall k', k' <> k -> find k' (emplace k v m).1 = find k' m).
Proof. apply find_emplace_fst. Qed.

Lemma find_after_emplace_witness :
  find 3 (emplace 3 [99] sample_map).1 = Some [30] /\
  find 9 (emplace 9 [90] sample_map).1 = Some [90] /\
  find 5 (emplace 9 [90] sample_map).1 = find 5 sample_map.
Proof.
  assert (H3 : size (emplace 3 [99] sample_map).1 <= SIZE_MAX)
    by (vm_compute; discriminate).
  assert (H9 : size (emplace 9 [90] sample_map).1 <= SIZE_MAX)
    by (vm_compute; discriminate).
  split; [exact (proj1 (find_after_emplace sample_map 3 [99] H3))|].
  split; [exact (proj1 (find_after_emplace sample_map 9 [90] H9))|].
  apply (proj2 (find_after_emplace sample_map 9 [90] H9)). discriminate.
Defined.

(** X2. [operator[]] and [find] agree: the reference [operator[]] returns
    designates the value [find] gives afterwards, which is the value the key
    had before, or the default-initialised value when the key was absent
    (built by the default constructor for a class type, indeterminate for a
    scalar); the other keys are found as before. *)
Theorem subscript_then_find `{EqDecision K} `{DefaultInit V} (m : t K V)
    (k : K) :
  size (subscript k m).1 <= SIZE_MAX ->
  val <$> at_iterator (subscript k m).1 (subscript k m).2
    = Some (default default_initialized (find k m)) /\
  find k (subscript k m).1 = Some (default default_initialized (find k m)) /\
  (forall k', k' <> k -> find k' (subscript k m).1 = find k' m).
Proof.
  intros Hsz.
  assert (Hfind : find k (subscript k m).1 = Some (default default_initialized (find k m))
                  /\ (forall k', k' <> k ->
                        find k' (subscript k m).1 = find k' m)).
  { rewrite subscript_fst in *. by apply find_emplace_fst. }
  split; [|done]. destruct Hfind as [Hk _].
  unfold subscript, emplace_key, find in *.
  destruct (_find_idx k m =? SIZE_MAX) eqn:Hidx; cbn [fst snd] in *.
  - rewrite size_snoc, at_iterator_back. done.
  - rewrite Hidx in Hk. exact Hk.
Qed.

Lemma subscript_then_find_witness :
  find 4 (subscript 4 sample_map).1 = Some [] /\
  find 3 (subscript 3 sample_map).1 = Some [30] /\
  find 4 (subscript 4 sample_int_map).1 = Some indeterminate /\
  find 5 (subscript 5 sample_int_map).1 = Some (determinate 50).
Proof.
  assert (H4 : size (subscript 4 sample_map).1 <= SIZE_MAX)
    by (vm_compute; discriminate).
  assert (H3 : size (subscript 3 sample_map).1 <= SIZE_MAX)
    by (vm_compute; discriminate).
  assert (H4i : size (subscript 4 sample_int_map).1 <= SIZE_MAX)
    by (vm_compute; discriminate).
  assert (H5i : size (subscript 5 sample_int_map).1 <= SIZE_MAX)
    by (vm_compute; discriminate).
  split; [exact (proj1 (proj2 (subscript_then_find sample_map 4 H4)))|].
  split; [exact (proj1 (proj2 (subscript_then_find sample_map 3 H3)))|].
  split; [exact (proj1 (proj2 (subscript_then_find sample_int_map 4 H4i)))|].
  exact (proj1 (proj2 (subscript_then_find sample_int_map 5 H5i))).
Defined.

Section runs.
Context `{EqDecision K} {V : Type}.
Implicit Types (m : list (entry K V)) (kvs : list (K * V)).

Lemma emplace_size_le k v m : size (emplace k v m).1 <= size m + 1.
Proof.
  rewrite emplace_fst. destruct (_ =? _); [|lia].
  unfold size. rewrite length_app. cbn. lia.
Qed.

Lemma emplace_all_spec kvs m :
  size m + Z.of_nat (length kvs) <= SIZE_MAX ->
  keys (emplace_all kvs m) = keys m ++ first_occurrences (keys m) kvs.*1 /\
  (forall k, find k (emplace_all kvs m) =
               match find k m with
               | Some v => Some v
               | None => first_value k kvs
               end).
Proof.
  revert m. induction kvs as [|[k v] kvs IH]; intros m Hsz.
  - cbn. rewrite app_nil_r. split; [done|]. intros k. by destruct (find k m).
  - cbn [length] in Hsz. pose proof (emplace_size_le k v m) as Hle.
    assert (Hm : size m >= 0) by (unfold size; lia).
    assert (Hsz1 : size (emplace k v m).1 + Z.of_nat (length kvs) <= SIZE_MAX)
      by lia.
    assert (Hsz2 : size (emplace k v m).1 <= SIZE_MAX) by lia.
    destruct (IH (emplace k v m).1 Hsz1) as [IHk IHf].
    destruct (find_emplace_fst m k v Hsz2) as [Hfk Hfo].
    cbn [emplace_all foldl fst snd fmap list_fmap first_occurrences first_value]
      in *.
    fold (emplace_all kvs (emplace k v m).1).
    split.
    + rewrite IHk. rewrite emplace_fst_cases by lia.
      destruct (decide (k ∈ keys m)); [done|].
      rewrite keys_snoc, <- app_assoc. done.
    + intros k'. rewrite IHf. destruct (decide (k = k')) as [<-|Hne].
      * rewrite Hfk. by destruct (find k m).
      * rewrite (Hfo k') by done. done.
Qed.

End runs.

(** X3. Iteration order is insertion order: after [emplace] has been called
    for each pair of a list, starting from the empty map, the keys of the map
    are the distinct keys of the list in the order of their first
    occurrence, and [find] gives for each key the value of its first
    occurrence. *)
Theorem emplace_all_first_wins `{EqDecision K} {V} (kvs : list (K * V)) :
  Z.of_nat (length kvs) <= SIZE_MAX ->
  keys (emplace_all kvs empty_map) = first_occurrences [] kvs.*1 /\
  NoDup (keys (emplace_all kvs empty_map)) /\
  (forall k, find k (emplace_all kvs empty_map) = first_value k kvs).
Proof.
  intros Hsz.
  destruct (emplace_all_spec kvs empty_map) as [Hk Hf];
    [unfold size, empty_map; cbn [length]; lia|].
  change (keys (@empty_map K V)) with (@nil K) in Hk. cbn [app] in Hk.
  split; [exact Hk|]. split; [|intros k; by rewrite Hf].
  rewrite Hk.
  assert (Hgen : forall (ks seen : list K), NoDup seen ->
             NoDup (seen ++ first_occurrences seen ks)).
  { induction ks as [|k ks IHks]; intros seen Hnd.
    - cbn. by rewrite app_nil_r.
    - cbn. destruct (decide (k ∈ seen)) as [Hin|Hnin]; [by apply IHks|].
      rewrite cons_middle, app_assoc. apply IHks.
      apply NoDup_app. split; [done|]. split; [|apply NoDup_singleton].
      intros x Hx ->%list_elem_of_singleton. done. }
  apply (Hgen kvs.*1 []). constructor.
Qed.

Lemma emplace_all_first_wins_witness :
  keys (emplace_all [(5, [50]); (3, [30]); (5, [51]); (7, [70])] empty_map)
    = [5; 3; 7] /\
  find 5 (emplace_all [(5, [50]); (3, [30]); (5, [51]); (7, [70])] empty_map)
    = Some [50].
Proof.
  assert (Hsz : Z.of_nat (length [(5, [50]); (3, [30]); (5, [51]); (7, [70])])
                <= SIZE_MAX) by (vm_compute; discriminate).
  destruct (emplace_all_first_wins
              [(5, [50]); (3, [30]); (5, [51]); (7, [70])] Hsz)
    as (Hk & _ & Hf).
  split; [exact Hk|exact (Hf 5)].
Defined.

End insert_order_map_lookup.

(** ** More on accel_table.h: building, destroying, moving *)

Module accel_table_lifecycle.
Import Win32 Cpp accel_table.

Lemma t_eta (a : t) : mk (_accels a) (_hAccel a) = a.
Proof. by destruct a. Qed.

(** X4. The table is built only once: after [haccel()] has returned a handle,
    every later call returns the same handle and leaves the object as it
    is, whatever the operating system would answer to a new creation. *)
Theorem haccel_builds_once (os1 os2 : OS) (a a' : t) (h : HACCEL) :
  @haccel os1 a = Ret a' h -> h <> 0 ->
  @haccel os2 a' = Ret a' h.
Proof.
  intros Hrun Hh.
  pose proof (accel_table_facts.haccel_built a a' h Hrun Hh) as Hh'.
  unfold haccel, _build, bind.
  assert (Hnz : (_hAccel a' =? 0) = false) by (apply Z.eqb_neq; congruence).
  rewrite Hnz. cbn [andb]. by rewrite Hh'.
Qed.

Lemma haccel_builds_once_witness :
  @haccel failing_os (mk [] 0x5000) = Ret (mk [] 0x5000) 0x5000.
Proof.
  apply (haccel_builds_once sample_os failing_os (mk [mk_ACCEL 9 83 1001] 0)).
  - reflexivity.
  - discriminate.
Defined.

(** X5. An empty table is not built: [haccel()] returns [nullptr] without
    asking the operating system and changes nothing, so accelerators can
    still be added afterwards. *)
Theorem haccel_of_empty_table `{OS} (a : t) (ch cmdId : Z) (m : modif) :
  _accels a = [] -> _hAccel a = 0 ->
  haccel a = Ret a 0 /\
  add_char ch m cmdId a =
    Ret (mk [mk_ACCEL (to_BYTE m) (CharUpperBuffW ch) (to_WORD cmdId)] 0)
        tt.
Proof.
  intros Hacc Hh. unfold haccel, _build, add_char, bind.
  rewrite Hacc, Hh.
  change (Z.of_nat (length (@nil ACCEL)) =? 0) with true.
  cbn [Z.eqb andb negb app]. by rewrite Hh.
Qed.

Lemma haccel_of_empty_table_witness :
  @haccel failing_os create = Ret create 0 /\
  @add_char failing_os 97 NONE 7 create = Ret (mk [mk_ACCEL 1 65 7] 0) tt.
Proof.
  exact (@haccel_of_empty_table failing_os create 97 7 NONE eq_refl eq_refl).
Defined.

(** X6. A failed build can be tried again: when the operating system refuses
    to create the table, [haccel()] throws [std::system_error] carrying
    [GetLastError()], the pending accelerators are kept and the handle stays
    null; a later call that succeeds builds the table from the same
    accelerators. *)
Theorem haccel_failure_keeps_entries (os1 os2 : OS) (a : t) :
  _hAccel a = 0 -> _accels a <> [] ->
  @CreateAcceleratorTableW os1 (_accels a) = 0 ->
  @CreateAcceleratorTableW os2 (_accels a) <> 0 ->
  @haccel os1 a =
    Exc a (system_error (@GetLastError os1) "CreateAcceleratorTable failed.")
  /\
  @haccel os2 a =
    Ret (mk [] (@CreateAcceleratorTableW os2 (_accels a)))
        (@CreateAcceleratorTableW os2 (_accels a)).
Proof.
  intros Hh Hacc Hfail Hok. unfold haccel, _build, bind.
  rewrite Hh, Hfail. cbn [Z.eqb andb].
  assert (Hlen : (Z.of_nat (length (_accels a)) =? 0) = false).
  { apply Z.eqb_neq. destruct (_accels a); [done|cbn; lia]. }
  rewrite Hlen. cbn [negb].
  split.
  - f_equal. rewrite <- Hh. apply t_eta.
  - by destruct (Z.eqb_spec (@CreateAcceleratorTableW os2 (_accels a)) 0).
Qed.

Lemma haccel_failure_keeps_entries_witness :
  @haccel failing_os (mk [mk_ACCEL 9 83 1001] 0) =
    Exc (mk [mk_ACCEL 9 83 1001] 0)
        (system_error 8 "CreateAcceleratorTable failed.") /\
  @haccel sample_os (mk [mk_ACCEL 9 83 1001] 0) = Ret (mk [] 0x5000) 0x5000.
Proof.
  apply (haccel_failure_keeps_entries failing_os sample_os
           (mk [mk_ACCEL 9 83 1001] 0)); [reflexivity|discriminate| |].
  - reflexivity.
  - discriminate.
Defined.

(** X7. [destroy()] makes a built table usable again: the handle is null and
    the list empty afterwards, so [add_char] succeeds; on a table that was
    never built it does nothing (pending accelerators are kept); destroying
    twice is the same as destroying once. *)
Theorem destroy_resets_table `{OS} (a : t) (ch cmdId : Z) (m : modif) :
  _hAccel (destroy a) = 0 /\
  destroy (destroy a) = destroy a /\
  (_hAccel a <> 0 -> destroy a = create) /\
  (_hAccel a = 0 -> destroy a = a) /\
  returned (add_char ch m cmdId (destroy a)).
Proof.
  destruct a as [acc h]. unfold destroy, add_char, returned.
  cbn [_hAccel _accels].
  destruct (Z.eqb_spec h 0) as [->|Hnz]; cbn [negb _hAccel _accels Z.eqb].
  - by repeat split.
  - by repeat split.
Qed.

Lemma destroy_resets_table_witness :
  destroy (mk [] 0x5000) = create /\
  destroy (mk [mk_ACCEL 9 83 1001] 0) = mk [mk_ACCEL 9 83 1001] 0.
Proof.
  pose proof (@destroy_resets_table sample_os (mk [] 0x5000) 0 0 NONE)
    as (_ & _ & Hbuilt & _).
  pose proof (@destroy_resets_table sample_os (mk [mk_ACCEL 9 83 1001] 0)
                0 0 NONE) as (_ & _ & _ & Hpending & _).
  split; [apply Hbuilt; discriminate|exact (Hpending eq_refl)].
Defined.

(** X8. Move assignment hands the source's accelerators and handle over to
    the target. The source is left with what remains of the target after
    [destroy()]: nothing when the target was built, the target's pending
    accelerators when it was not. *)
Theorem move_assign_transfers (this other : t) :
  (move_assign this other).1 = other /\
  (_hAccel this <> 0 -> (move_assign this other).2 = create) /\
  (_hAccel this = 0 -> (move_assign this other).2 = this).
Proof.
  unfold move_assign, destroy. cbn [fst snd]. split; [apply t_eta|].
  destruct (Z.eqb_spec (_hAccel this) 0) as [Hz|Hnz]; cbn [negb].
  - split; [done|]. intros _. apply t_eta.
  - split; [done|]. done.
Qed.

Lemma move_assign_transfers_witness :
  move_assign (mk [] 0x5000) (mk [mk_ACCEL 9 83 1001] 0)
    = (mk [mk_ACCEL 9 83 1001] 0, create).
Proof.
  pose proof (move_assign_transfers (mk [] 0x5000) (mk [mk_ACCEL 9 83 1001] 0))
    as (H1 & H2 & _).
  rewrite (surjective_pairing (move_assign _ _)), H1, H2; [done|discriminate].
Defined.

End accel_table_lifecycle.

(** ** More on internals/base_dialog.h: the life of a dialog *)

Module base_dialog_lifecycle.
Import Win32 WinUser Cpp ui msg_proxy base_dialog.
Import base_msg_handler_facts base_dialog_facts.

Section with_gdi.
Context `{Gdi} {A : Type}.
Implicit Types (sys : system A) (d self : t A).

(** X9. [WM_INITDIALOG] ties the object to its window: when the procedure
    returns, the window holds the pointer that came in [lparam], the object
    it points to has the window as its [_hWnd] and its handlers as before,
    and from then on [on_msg()] on that object throws. *)
Theorem init_dialog_records_window hWnd wp lp sys sys' r :
  hWnd <> 0 ->
  _dialog_proc hWnd WM_INITDIALOG wp lp sys = Ret sys' r ->
  exists d d',
    deref sys lp = Some d /\ deref sys' lp = Some d' /\
    _hWnd d' = hWnd /\ _msgHandler d' = _msgHandler d /\
    GetWindowLongPtrW hWnd sys' = lp /\
    on_msg d' =
      Exc d' (logic_error
                "Cannot add a message handler after the dialog was created.").
Proof.
  intros HhWnd Hrun.
  destruct (init_dialog_effect _ _ _ _ _ _ Hrun) as (d & Hd & Hd' & Hslot).
  exists d, (mk hWnd (_msgHandler d)). repeat split; try done.
  unfold on_msg. cbn [_hWnd]. by destruct (Z.eqb_spec hWnd 0).
Qed.

(** X10. [WM_NCDESTROY] releases the object: when the procedure returns, the
    object the window pointed to has a null [_hWnd] and its handlers as
    before, so [on_msg()] returns the proxy again; the window holds no
    pointer, and every later message to it (other than [WM_INITDIALOG]) is
    answered [FALSE] without any handler being run. *)
Theorem nc_destroy_releases_object hWnd wp lp sys sys' r :
  GetWindowLongPtrW hWnd sys <> 0 ->
  _dialog_proc hWnd WM_NCDESTROY wp lp sys = Ret sys' r ->
  exists d d',
    deref sys (GetWindowLongPtrW hWnd sys) = Some d /\
    deref sys' (GetWindowLongPtrW hWnd sys) = Some d' /\
    _hWnd d' = 0 /\ _msgHandler d' = _msgHandler d /\
    on_msg d' = Ret d' (base_msg_handler.on_msg (_msgHandler d)) /\
    (forall msg' wp' lp', msg' <> WM_INITDIALOG ->
       _dialog_proc hWnd msg' wp' lp' sys' = Ret sys' FALSE).
Proof.
  intros Hp Hrun.
  destruct (nc_destroy_effect _ _ _ _ _ _ Hp Hrun) as (d & Hd & Hd' & Hslot).
  exists d, (mk 0 (_msgHandler d)). repeat split; try done.
  intros msg' wp' lp' Hmsg. unfold _dialog_proc.
  rewrite (_dialog_proc_self_none hWnd msg' lp' sys' Hmsg);
    [done|by right].
Qed.

(** X11. A dialog is created at most once. [create_dialog_param] on an object
    that has a window throws [std::logic_error] without asking the operating
    system, and so does a call without resource identifier; after a creation
    in which the operating system has delivered [WM_INITDIALOG], any further
    [create_dialog_param] on the same object throws. *)
Theorem create_dialog_param_only_once
    (os1 os2 : Z -> Z -> Z -> system A -> res (system A) Z)
    (gle pThis parent dialogId hWnd : Z) sys :
  (forall this, deref sys pThis = Some this -> _hWnd this <> 0 ->
     create_dialog_param os1 gle pThis parent dialogId sys
       = Exc sys (logic_error "Cannot create a dialog twice.")) /\
  (forall this, deref sys pThis = Some this -> _hWnd this = 0 ->
     create_dialog_param os1 gle pThis parent 0 sys
       = Exc sys (logic_error "No dialog resource ID given on dialog setup."))
  /\
  (forall sys' h, hWnd <> 0 ->
     create_dialog_param (creates_window hWnd) gle pThis parent dialogId sys
       = Ret sys' h ->
     h = hWnd /\
     create_dialog_param os2 gle pThis parent dialogId sys'
       = Exc sys' (logic_error "Cannot create a dialog twice.")).
Proof.
  unfold create_dialog_param, _creation_checks. split; [|split].
  - intros this -> Hw. by destruct (Z.eqb_spec (_hWnd this) 0).
  - intros this -> ->. done.
  - intros sys' h HhWnd. destruct (deref sys pThis) as [this|]; [|done].
    destruct (negb (_hWnd this =? 0)); [done|].
    destruct (dialogId =? 0); [done|].
    unfold creates_window.
    destruct (_dialog_proc hWnd WM_INITDIALOG 0 pThis sys) as [sys1 r1| |]
      eqn:Hinit; [|done..].
    cbn [bind]. destruct (Z.eqb_spec hWnd 0); [done|].
    intros [= <- <-]. split; [done|].
    destruct (init_dialog_effect _ _ _ _ _ _ Hinit) as (d & _ & -> & _).
    cbn [_hWnd]. by destruct (Z.eqb_spec hWnd 0).
Qed.

End with_gdi.

Lemma init_dialog_records_window_witness :
  exists d d',
    deref samples.sys0 0x2000 = Some d /\
    deref samples.sys_created 0x2000 = Some d' /\
    _hWnd d' = 0x300 /\ _msgHandler d' = _msgHandler d /\
    GetWindowLongPtrW 0x300 samples.sys_created = 0x2000 /\
    on_msg d' =
      Exc d' (logic_error
                "Cannot add a message handler after the dialog was created.").
Proof.
  apply (@init_dialog_records_window samples.sample_gdi _ 0x300 0 0x2000
           samples.sys0 samples.sys_created FALSE).
  - discriminate.
  - reflexivity.
Defined.

(** The sample system after [WM_NCDESTROY] was processed by the created
    dialog (which has no handler for it). *)
Lemma nc_destroy_releases_object_witness :
  exists sys',
    @_dialog_proc samples.sample_gdi _ 0x300 WM_NCDESTROY 0 0
      samples.sys_created = Ret sys' FALSE /\
    deref sys' 0x2000 = Some samples.sample_dialog /\
    @_dialog_proc samples.sample_gdi _ 0x300 WM_CLOSE 0 0 sys' = Ret sys' FALSE.
Proof.
  eexists. split; [reflexivity|].
  destruct (@nc_destroy_releases_object samples.sample_gdi _ 0x300 0 0
              samples.sys_created _ FALSE ltac:(discriminate) eq_refl)
    as (d & d' & Hd & Hd' & Hw & Hh & _ & Hlater).
  split; [reflexivity|]. apply Hlater. discriminate.
Defined.

Lemma create_dialog_param_only_once_witness :
  create_dialog_param (@creates_window samples.sample_gdi _ 0x300) 0 0x2000 0
    101 samples.sys0 = Ret samples.sys_created 0x300 /\
  create_dialog_param (@creates_window samples.sample_gdi _ 0x301) 0 0x2000 0
    101 samples.sys_created
    = Exc samples.sys_created (logic_error "Cannot create a dialog twice.").
Proof.
  split; [reflexivity|].
  destruct (@create_dialog_param_only_once samples.sample_gdi _
              (@creates_window samples.sample_gdi _ 0x300)
              (@creates_window samples.sample_gdi _ 0x301)
              0 0x2000 0 101 0x300 samples.sys0) as (_ & _ & Honce).
  exact (proj2 (Honce samples.sys_created 0x300 ltac:(discriminate) eq_refl)).
Defined.

End base_dialog_lifecycle.

(** ** Registration followed by dispatch *)

Module registration_round_trip.
Import Win32 WinUser Cpp ui msg_proxy base_msg_handler samples.
Import store_facts base_msg_handler_facts.

Lemma exec_found {A} (h : t A) msg wp lp (st : state A) userFunc :
  search_user_handler h msg wp lp st = Some (Some userFunc) ->
  exec h msg wp lp st = ran userFunc wp lp st.
Proof. intros Hs. by rewrite (exec_after_search _ _ _ _ _ _ Hs). Qed.

Lemma exec_same_search {A} (h1 h2 : t A) msg wp lp (st : state A) :
  search_user_handler h1 msg wp lp st = search_user_handler h2 msg wp lp st ->
  exec h1 msg wp lp st = exec h2 msg wp lp st.
Proof. unfold exec. by intros ->. Qed.

Lemma to_int_of_uint (c : Z) :
  - 2 ^ 31 <= c < 2 ^ 31 -> to_int (wrap 32 c) = c.
Proof.
  intros Hc. unfold to_int, wrap.
  rewrite Zplus_mod_idemp_l. rewrite Z.mod_small by lia. lia.
Qed.

(** X12. A callback registered with [wm_command(id, func)] runs when a
    [WM_COMMAND] arrives whose [wparam] has [id] in its low word, whatever
    the high word; [exec] then returns [TRUE] in a dialog and [0] in a
    window. Commands with another identifier and all other messages are
    dispatched as before the registration. *)
Theorem wm_command_round_trip {A} (h : t A) (id wp lp : Z)
    (func : handler A) (st : state A) :
  let h' := mk (wm_command (on_msg h) id func (_stores h)) (_msgProxy h) in
  (LOWORD wp = to_WORD id ->
     exec h' WM_COMMAND wp lp st =
       ran (wrapper RET_ZERO (_isDialog (on_msg h)) func) wp lp st) /\
  (LOWORD wp <> to_WORD id ->
     exec h' WM_COMMAND wp lp st = exec h WM_COMMAND wp lp st) /\
  (forall msg, msg <> WM_COMMAND ->
     exec h' msg wp lp st = exec h msg wp lp st).
Proof.
  intros h'. split; [|split].
  - intros Hid. apply exec_found. unfold search_user_handler, h'.
    cbn. rewrite Hid. by rewrite find_add_eq.
  - intros Hid. apply exec_same_search. unfold search_user_handler, h'.
    cbn. by rewrite find_add_ne.
  - intros msg Hmsg. apply exec_same_search. unfold search_user_handler, h'.
    by destruct (Z.eqb_spec msg WM_COMMAND).
Qed.

Lemma wm_command_round_trip_witness :
  exec (mk (wm_command (mk_proxy false) 1001 (log_then_return 2)
              (_stores (create false))) (mk_proxy false))
       WM_COMMAND (Z.lor (Z.shiftl 0x300 16) 1001) 0 st0
    = Ret (set_app [2] st0) (Some 0).
Proof.
  exact (proj1 (wm_command_round_trip (create false)
                  1001 (Z.lor (Z.shiftl 0x300 16) 1001) 0
                  (log_then_return 2) st0) eq_refl).
Defined.

(** X13. A callback registered with [wm_notify(ctrlId, code, func)] runs when
    a [WM_NOTIFY] arrives whose [NMHDR] names that control and carries that
    code as a [UINT]; this includes the negative codes. [exec] returns what
    the callback returns. Other messages are dispatched as before. *)
Theorem wm_notify_round_trip {A} (h : t A) (ctrlId code wp lp : Z)
    (func : handler A) (st : state A) (nmhdr : NMHDR) :
  let h' := mk (wm_notify ctrlId code func (_stores h)) (_msgProxy h) in
  nmhdr_mem st !! lp = Some nmhdr ->
  - 2 ^ 31 <= code < 2 ^ 31 ->
  (idFrom nmhdr = to_WORD ctrlId -> ui.code nmhdr = wrap 32 code ->
     exec h' WM_NOTIFY wp lp st = ran func wp lp st) /\
  (forall msg, msg <> WM_NOTIFY ->
     exec h' msg wp lp st = exec h msg wp lp st).
Proof.
  intros h' Hmem Hcode. split.
  - intros Hid Hc. apply exec_found. unfold search_user_handler, h'.
    cbn. rewrite Hmem, Hid, Hc, to_int_of_uint by done.
    by rewrite find_add_eq.
  - intros msg Hmsg. apply exec_same_search. unfold search_user_handler, h'.
    destruct (Z.eqb_spec msg WM_COMMAND); [done|].
    by destruct (Z.eqb_spec msg WM_NOTIFY).
Qed.

Lemma wm_notify_round_trip_witness :
  exec (mk (wm_notify 7 (-2) (log_then_return 3) (_stores (create false)))
           (mk_proxy false))
       WM_NOTIFY 0 0x1000 st0
    = Ret (set_app [3] st0) (Some 3).
Proof.
  exact (proj1 (wm_notify_round_trip (create false) 7 (-2) 0 0x1000
                  (log_then_return 3) st0 (mk_NMHDR 0x200 7 NM_CLICK)
                  eq_refl ltac:(lia))
               eq_refl eq_refl).
Defined.

(** X14. Apart from the four methods of [misfiled], a callback registered
    through a named method on a fresh handler object runs when the message
    the method is named after arrives, and [exec] returns what the macro of
    the declaration says: [TRUE] in a dialog and [0] in a window for
    [WINLAMB_MSG_RET_ZERO], the fixed number for [WINLAMB_MSG_RET_VAL], the
    callback's own value for [WINLAMB_MSG_RET_TYPE]. *)
Theorem named_method_round_trip {A} (isDialog : bool) (m : method)
    (func : handler A) (wp lp : Z) (st : state A) :
  m ∉ misfiled ->
  exec (registered isDialog m func) (named_after m) wp lp st =
    match func (msg.mk_wm wp lp) st with
    | Ret st' v =>
        Ret st' (Some (match (declared m).2 with
                       | RET_ZERO => if isDialog then TRUE else 0
                       | RET_VAL n => n
                       | RET_TYPE _ => v
                       end))
    | Exc st' _ => Ret (post_quit st') (Some 0)
    | UB => UB
    end.
Proof.
  intros Hm.
  assert (Hs : search_user_handler (registered isDialog m func)
                 (named_after m) wp lp st
               = Some (Some (wrapper (declared m).2 isDialog func))).
  { destruct m; try reflexivity; exfalso; apply Hm; unfold misfiled;
      set_solver. }
  rewrite (exec_found _ _ _ _ _ _ Hs). unfold ran, wrapper, bind.
  by destruct (func _ st).
Qed.

Lemma named_method_round_trip_witness :
  exec (registered true wm_close (log_then_return 8)) WM_CLOSE 0 0 st0
    = Ret (set_app [8] st0) (Some TRUE) /\
  exec (registered true wm_erase_bkgnd (log_then_return 8)) WM_ERASEBKGND 0 0
       st0 = Ret (set_app [8] st0) (Some 8).
Proof.
  split.
  - apply (named_method_round_trip true wm_close (log_then_return 8) 0 0 st0).
    unfold misfiled. rewrite !not_elem_of_cons.
    repeat split; [discriminate..|apply not_elem_of_nil].
  - apply (named_method_round_trip true wm_erase_bkgnd (log_then_return 8)
             0 0 st0).
    unfold misfiled. rewrite !not_elem_of_cons.
    repeat split; [discriminate..|apply not_elem_of_nil].
Defined.

(** X15. [WM_COMMAND] and [WM_NOTIFY] are never looked up in the message
    store: a handler registered for them with the generic [wm(message,
    func)] is never run, and every message is dispatched as if the
    registration had not been made. *)
Theorem wm_for_command_or_notify_is_inert {A} (h : t A) (message : Z)
    (func : handler A) (msg wp lp : Z) (st : state A) :
  message = WM_COMMAND \/ message = WM_NOTIFY ->
  exec (mk (wm message func (_stores h)) (_msgProxy h)) msg wp lp st
    = exec h msg wp lp st.
Proof.
  intros Hmessage. apply exec_same_search. unfold search_user_handler. cbn.
  destruct (Z.eqb_spec msg WM_COMMAND) as [|Hc]; [done|].
  destruct (Z.eqb_spec msg WM_NOTIFY) as [|Hn]; [done|].
  rewrite find_add_ne; [done|]. destruct Hmessage; congruence.
Qed.

Lemma wm_for_command_or_notify_is_inert_witness :
  exec (mk (wm WM_COMMAND (log_then_return 9) (_stores (create false)))
           (mk_proxy false))
       WM_COMMAND 1001 0 st0
    = Ret st0 None.
Proof.
  exact (wm_for_command_or_notify_is_inert (create false) WM_COMMAND
           (log_then_return 9) WM_COMMAND 1001 0 st0 (or_introl eq_refl)).
Defined.

End registration_round_trip.

(** ** More on str.h *)

Module str_predicates.
Import Win32 str.

Section with_ctype.
Context `{CType}.

Lemma forallb_rejects (P : wchar_t -> bool) (s : wstring) (c : wchar_t) :
  c ∈ s -> P c = false -> forallb P s = false.
Proof.
  induction s as [|x s IH]; [by intros ?%elem_of_nil|].
  intros [->|Hin]%elem_of_cons Hc; cbn.
  - by rewrite Hc.
  - rewrite IH by done. apply andb_false_r.
Qed.

Lemma is_float_loop_rejects (s : wstring) (c : wchar_t) hasDot :
  c ∈ s -> c <> DOT -> iswdigit c = false -> iswblank c = false ->
  is_float_loop hasDot s = false.
Proof.
  revert hasDot. induction s as [|x s IH]; intros hasDot;
    [by intros ?%elem_of_nil|].
  intros [->|Hin]%elem_of_cons Hdot Hd Hb; cbn.
  - destruct (Z.eqb_spec x DOT); [done|]. by rewrite Hd, Hb.
  - destruct (x =? DOT).
    + destruct hasDot; [done|]. by apply IH.
    + destruct (negb (iswdigit x) && negb (iswblank x)); [done|]. by apply IH.
Qed.

(** X16. A minus sign is never accepted. When ['-'] is neither a digit nor a
    blank for the C library, [is_int] and [is_float] reject every string
    that contains a minus sign, the leading one included, and [is_int]
    accepts exactly the strings [is_uint] accepts. *)
Theorem is_int_rejects_minus (s : wstring) :
  iswdigit MINUS = false -> iswblank MINUS = false ->
  is_int s = is_uint s /\
  (MINUS ∈ s -> is_int s = false /\ is_float s = false).
Proof.
  intros Hd Hb. split.
  - unfold is_int, is_uint. destruct s as [|c0 s]; [done|].
    rewrite bool_decide_eq_false_2 by done.
    destruct (negb (c0 =? MINUS) && negb (iswdigit c0) && negb (iswblank c0))
      eqn:Hc; [|done].
    cbn. apply andb_true_iff in Hc as [[_ Hd0]%andb_true_iff Hb0].
    apply negb_true_iff in Hd0, Hb0. by rewrite Hd0, Hb0.
  - intros Hin.
    assert (Hall : forallb (fun ch => iswdigit ch || iswblank ch) s = false).
    { apply (forallb_rejects _ s MINUS Hin). by rewrite Hd, Hb. }
    unfold is_int, is_float. destruct s as [|c0 s]; [done|].
    rewrite Hall. split; [by destruct (_ && _)|].
    destruct (_ && _); [done|].
    by apply (is_float_loop_rejects _ MINUS).
Qed.

End with_ctype.

Lemma is_int_rejects_minus_witness :
  @is_int c_locale [45; 49; 50] = false /\
  @is_float c_locale [45; 49; 46; 53] = false /\
  @is_int c_locale [49; 50] = true.
Proof.
  destruct (@is_int_rejects_minus c_locale [45; 49; 50] eq_refl eq_refl)
    as [_ Hint].
  destruct (@is_int_rejects_minus c_locale [45; 49; 46; 53] eq_refl eq_refl)
    as [_ Hfloat].
  split; [apply Hint; decide_closed|].
  split; [apply Hfloat; decide_closed|reflexivity].
Defined.

Lemma wcsncmp_is_zero_prefix (a b : wstring) :
  0 ∉ b -> wcsncmp_is_zero a b (List.length b) = is_prefix b a.
Proof.
  revert a. induction b as [|y b IH]; intros a Hnul; [by destruct a|].
  apply not_elem_of_cons in Hnul as [Hy Hnul].
  destruct a as [|x a]; [done|]. cbn.
  rewrite (Z.eqb_sym y x). destruct (Z.eqb_spec x y) as [->|]; [|done].
  destruct (Z.eqb_spec y 0); [done|]. by apply IH.
Qed.

(** X17. [begins_with] on a text without NUL: it is true exactly when the text
    is not empty and the string starts with it. In particular no string
    begins with the empty text, and the empty string begins with nothing. *)
Theorem begins_with_is_prefix (s what : wstring) :
  0 ∉ what ->
  begins_with s what = negb (bool_decide (what = [])) && is_prefix what s.
Proof.
  intros Hnul. unfold begins_with.
  destruct what as [|y what]; [by rewrite orb_true_r|].
  destruct s as [|x s]; [done|].
  rewrite !bool_decide_eq_false_2 by done. cbn [orb negb andb].
  destruct (Z.ltb_spec (length (x :: s)) (length (y :: what))) as [Hlt|_].
  - symmetry. apply not_true_is_false. intros Hp%str_facts.is_prefix_true.
    apply (f_equal List.length) in Hp.
    rewrite length_app, length_drop in Hp. unfold length in Hlt. lia.
  - unfold length. rewrite Nat2Z.id. by apply wcsncmp_is_zero_prefix.
Qed.

Lemma begins_with_is_prefix_witness :
  begins_with [97; 98; 99] [97; 98] = true /\
  begins_with [97; 98; 99] [] = false /\
  begins_with [97; 98; 99] [98] = false.
Proof.
  split; [|split].
  - rewrite (begins_with_is_prefix [97; 98; 99] [97; 98]); [reflexivity|].
    decide_closed.
  - rewrite (begins_with_is_prefix [97; 98; 99] []); [reflexivity|].
    decide_closed.
  - rewrite (begins_with_is_prefix [97; 98; 99] [98]); [reflexivity|].
    decide_closed.
Defined.

(** *** [remove_diacritics] *)

Lemma replace_diacritic_other (pDiac pRepl : wstring) (ch : wchar_t) :
  ch ∉ pDiac -> replace_diacritic pDiac pRepl ch = ch.
Proof.
  revert pRepl ch. induction pDiac as [|d pDiac IH]; intros [|r pRepl] ch Hch;
    try done.
  apply not_elem_of_cons in Hch as [Hne Hch]. cbn.
  destruct (Z.eqb_spec ch d); [done|]. by apply IH.
Qed.

Lemma replace_diacritic_cases (D pDiac pRepl : wstring) (ch : wchar_t) :
  Forall (fun r => r ∉ D) pRepl -> pDiac ⊆ D ->
  replace_diacritic pDiac pRepl ch ∈ pRepl \/
  (replace_diacritic pDiac pRepl ch = ch /\
   (List.length pDiac <= List.length pRepl -> ch ∉ pDiac)%nat).
Proof.
  revert pRepl ch. induction pDiac as [|d pDiac IH]; intros pRepl ch Hrepl Hsub.
  - right. split; [by destruct pRepl|]. intros _. apply not_elem_of_nil.
  - destruct pRepl as [|r pRepl]; [right; split; [done|cbn; lia]|].
    apply Forall_cons in Hrepl as [Hr Hrepl].
    assert (Hsub' : pDiac ⊆ D) by set_solver.
    cbn [replace_diacritic]. destruct (Z.eqb_spec ch d) as [->|Hne].
    + left. rewrite replace_diacritic_other by set_solver.
      apply list_elem_of_here.
    + destruct (IH pRepl ch Hrepl Hsub') as [Hin|[Heq Hnin]].
      * left. by apply list_elem_of_further.
      * right. split; [done|]. cbn [List.length]. intros Hlen.
        apply not_elem_of_cons. split; [done|]. apply Hnin. lia.
Qed.

Lemma replacements_are_plain : Forall (fun r => r ∉ diacritics) replacements.
Proof. decide_closed. Qed.

Lemma replace_diacritic_clean (ch : wchar_t) :
  replace_diacritic diacritics replacements ch ∉ diacritics.
Proof.
  destruct (replace_diacritic_cases diacritics diacritics replacements ch
              replacements_are_plain ltac:(done)) as [Hin|[-> Hnin]].
  - exact (proj1 (Forall_forall _ _) replacements_are_plain _ Hin).
  - apply Hnin. cbn. lia.
Qed.

(** X18. [remove_diacritics] leaves no character of its table of diacritics
    in the string; it keeps the length, leaves every other character where
    it is, and applying it twice changes nothing more. *)
Theorem remove_diacritics_removes_all (s : wstring) :
  Forall (fun ch => ch ∉ diacritics) (remove_diacritics s) /\
  List.length (remove_diacritics s) = List.length s /\
  (forall i ch, s !! i = Some ch -> ch ∉ diacritics ->
     remove_diacritics s !! i = Some ch) /\
  remove_diacritics (remove_diacritics s) = remove_diacritics s.
Proof.
  unfold remove_diacritics. split; [|split; [|split]].
  - apply Forall_fmap, Forall_forall. intros ch _.
    apply replace_diacritic_clean.
  - apply length_fmap.
  - intros i ch Hi Hch. unfold wstring, wchar_t in *.
    rewrite list_lookup_fmap, Hi.
    cbn [fmap option_fmap option_map]. by rewrite replace_diacritic_other.
  - rewrite <- list_fmap_compose. apply list_fmap_ext. intros i ch _.
    unfold compose. apply replace_diacritic_other, replace_diacritic_clean.
Qed.

(** "Sao" written with a tilde. *)
Lemma remove_diacritics_removes_all_witness :
  remove_diacritics [83; 0xe3; 111] = [83; 97; 111] /\
  remove_diacritics [83; 0xe3; 111] !! 0%nat = Some 83.
Proof.
  split; [reflexivity|].
  apply (proj1 (proj2 (proj2 (remove_diacritics_removes_all [83; 0xe3; 111])))
           0%nat 83 eq_refl).
  decide_closed.
Defined.

End str_predicates.

Module str_reverse.
Import Win32 str.

Lemma at_index_lookup (s : wstring) (j : nat) :
  at_index s (Z.of_nat j) = (s : list Z) !! j.
Proof.
  unfold at_index, length.
  destruct (Z.leb_spec 0 (Z.of_nat j)); [|lia]. cbn [andb].
  destruct (Z.ltb_spec (Z.of_nat j) (Z.of_nat (List.length s))) as [?|Hge].
  - by rewrite Nat2Z.id.
  - symmetry. apply lookup_ge_None. lia.
Qed.

(** After [k] swaps the first and the last [k] characters have changed
    places, mirrored; this is kept by the next [todo] swaps. *)
Lemma reverse_loop_mirror (s0 : list Z) (todo k : nat) (s : list Z) :
  let n := List.length s0 in
  Z.of_nat n < 2 ^ 64 -> List.length s = n -> (2 * (k + todo) <= n)%nat ->
  (forall j, (j < n)%nat ->
     s !! j = if decide (j < k \/ n - k <= j)%nat
              then s0 !! (n - 1 - j)%nat else s0 !! j) ->
  List.length (reverse_loop todo (Z.of_nat k) s) = n /\
  (forall j, (j < n)%nat ->
     reverse_loop todo (Z.of_nat k) s !! j
       = if decide (j < k + todo \/ n - (k + todo) <= j)%nat
         then s0 !! (n - 1 - j)%nat else s0 !! j).
Proof.
  intros n Hn. revert k s.
  induction todo as [|todo IH]; intros k s Hlen Hk Hinv.
  - cbn [reverse_loop]. rewrite Nat.add_0_r. by split.
  - cbn [reverse_loop].
    rewrite (str_facts.size_t_small (Z.of_nat k + 1)) by lia.
    assert (Hj : size_t (length s - Z.of_nat k - 1)
                 = Z.of_nat (n - 1 - k)).
    { unfold length, wstring, wchar_t in *. rewrite Hlen.
      rewrite str_facts.size_t_small by lia. lia. }
    rewrite Hj. unfold swap_chars. rewrite !at_index_lookup.
    unfold wstring, wchar_t in *.
    destruct (lookup_lt_is_Some_2 s k ltac:(lia)) as [x Hx].
    destruct (lookup_lt_is_Some_2 s (n - 1 - k) ltac:(lia)) as [y Hy].
    rewrite Hx, Hy, !Nat2Z.id.
    replace (Z.of_nat k + 1) with (Z.of_nat (S k)) by lia.
    replace (k + S todo)%nat with (S k + todo)%nat by lia.
    apply IH.
    + by rewrite !length_insert.
    + lia.
    + intros j Hjn.
      pose proof (Hinv k ltac:(lia)) as Hk0.
      pose proof (Hinv (n - 1 - k)%nat ltac:(lia)) as Hk1.
      pose proof (Hinv j Hjn) as Hjinv.
      rewrite Hx in Hk0. rewrite Hy in Hk1.
      rewrite decide_False in Hk0 by lia. rewrite decide_False in Hk1 by lia.
      destruct (decide (j = n - 1 - k)%nat) as [->|Hne1].
      { rewrite list_lookup_insert_eq by (rewrite length_insert; lia).
        rewrite decide_True by lia.
        replace (n - 1 - (n - 1 - k))%nat with k by lia. done. }
      rewrite list_lookup_insert_ne by done.
      destruct (decide (j = k)) as [->|Hne2].
      { rewrite list_lookup_insert_eq by lia. rewrite decide_True by lia. done. }
      rewrite list_lookup_insert_ne by done. rewrite Hjinv.
      destruct (decide (j < k \/ n - k <= j)%nat);
        destruct (decide (j < S k \/ n - S k <= j)%nat); try done; lia.
Qed.

Lemma rev_lookup_mirror (s : list Z) (j : nat) :
  (j < List.length s)%nat -> rev s !! j = s !! (List.length s - 1 - j)%nat.
Proof.
  intros Hj. rewrite rev_alt. change (rev_append s []) with (list.reverse s).
  rewrite reverse_lookup by done. f_equal. lia.
Qed.

(** X19. [reverse] reverses: the result is the string read backwards, so
    reversing twice gives the string back. *)
Theorem reverse_is_rev (s : wstring) :
  length s < 2 ^ 64 ->
  reverse s = rev s /\ reverse (reverse s) = s.
Proof.
  intros Hlen. unfold length in Hlen.
  assert (Hrev : forall l : list Z,
             Z.of_nat (List.length l) < 2 ^ 64 -> reverse l = rev l).
  { clear s Hlen. intros s Hlen. unfold reverse, length.
    unfold wstring, wchar_t in *.
    set (n := List.length s) in *.
    assert (Hlim : Z.to_nat (size_t (Z.of_nat n - Z.of_nat n mod 2) / 2)
                   = (n / 2)%nat).
    { pose proof (Z.mod_pos_bound (Z.of_nat n) 2 ltac:(lia)).
      pose proof (Z.mod_le (Z.of_nat n) 2 ltac:(lia) ltac:(lia)).
      rewrite str_facts.size_t_small by lia.
      rewrite <- (Nat2Z.id (n / 2)). f_equal.
      rewrite Nat2Z.inj_div. change (Z.of_nat 2) with 2.
      rewrite (Z.div_mod (Z.of_nat n) 2) at 1 by lia.
      replace (2 * (Z.of_nat n / 2) + Z.of_nat n mod 2 - Z.of_nat n mod 2)
        with (Z.of_nat n / 2 * 2) by lia.
      by rewrite Z.div_mul. }
    rewrite Hlim.
    pose proof (Nat.div_mod_eq n 2) as Hdm.
    pose proof (Nat.mod_upper_bound n 2 ltac:(lia)) as Hmod.
    assert (Hhalf : (2 * (0 + n / 2) <= n)%nat) by lia.
    destruct (reverse_loop_mirror s (n / 2) 0 s Hlen eq_refl Hhalf)
      as [Hl Hmirror].
    { intros j Hj. rewrite decide_False by (fold n; lia). done. }
    apply list_eq. intros j. change (Z.of_nat 0) with 0 in *.
    unfold wstring, wchar_t in *.
    destruct (decide (j < n)%nat) as [Hj|Hj].
    - rewrite (Hmirror j Hj), rev_lookup_mirror by done. fold n.
      destruct (decide _) as [_|Hmid]; [done|].
      f_equal. cbn [Nat.add] in Hmid. lia.
    - rewrite !lookup_ge_None_2; [done| |]; [rewrite length_rev|]; fold n; lia. }
  split; [by apply Hrev|]. rewrite (Hrev s) by done.
  rewrite Hrev by (by rewrite length_rev). apply rev_involutive.
Qed.

Lemma reverse_is_rev_witness :
  reverse [97; 98; 99; 100; 101] = [101; 100; 99; 98; 97] /\
  reverse (reverse [97; 98; 99; 100; 101]) = [97; 98; 99; 100; 101].
Proof.
  apply (reverse_is_rev [97; 98; 99; 100; 101]). vm_compute. reflexivity.
Defined.

End str_reverse.

Module str_replace.
Import Win32 str str_facts.

(** [replace] and [split] cut the string at the same places. *)
Lemma replace_loop_spec (s d r : wstring) fuel base ret out :
  d <> [] -> length s <= SIZE_MAX -> 0 <= base <= length s ->
  (List.length (drop (Z.to_nat base) s) < fuel)%nat ->
  exists pieces,
    pieces <> [] /\
    split_loop fuel s d base base ret = Some (ret ++ pieces) /\
    replace_loop fuel s d r base base out = Some (out ++ join r pieces).
Proof.
  intros Hd Hmax. change SIZE_MAX with (2 ^ 64 - 1) in Hmax.
  revert base ret out.
  induction fuel as [|fuel IH]; intros base ret out Hbase Hfuel; [lia|].
  cbn [split_loop replace_loop]. unfold find.
  destruct (Z.ltb_spec (length s) base) as [?|_]; [lia|].
  set (rest := drop (Z.to_nat base) s) in *.
  assert (Hrest : Z.of_nat (List.length rest) = length s - base).
  { unfold rest, length. rewrite length_drop. unfold length in Hbase. lia. }
  destruct (first_occurrence d rest) as [off|] eqn:Hoff.
  - pose proof (first_occurrence_Some d rest off Hoff) as Hsplit.
    assert (Hdpos : (0 < List.length d)%nat) by (destruct d; [done|cbn; lia]).
    assert (Hlen : (off + List.length d <= List.length rest)%nat).
    { apply (f_equal List.length) in Hsplit.
      rewrite !length_app, length_take in Hsplit. lia. }
    destruct (Z.eqb_spec (base + Z.of_nat off) npos) as [Hn|_].
    { change npos with (2 ^ 64 - 1) in Hn. lia. }
    cbn [negb]. change (length d) with (Z.of_nat (List.length d)).
    rewrite (size_t_small (base + Z.of_nat off + Z.of_nat (List.length d)))
      by lia.
    rewrite (size_t_small (base + Z.of_nat off - base)) by lia.
    set (base' := base + Z.of_nat off + Z.of_nat (List.length d)).
    assert (Hpiece : substr s base (base + Z.of_nat off - base) = take off rest).
    { unfold substr. fold rest. f_equal. lia. }
    rewrite Hpiece.
    destruct (IH base' (ret ++ [take off rest]) ((out ++ take off rest) ++ r))
      as (pieces & Hne & Hsp & Hrp).
    { unfold base'. lia. }
    { replace (drop (Z.to_nat base') s) with (drop (off + List.length d) rest).
      - rewrite length_drop. lia.
      - unfold rest, base'. rewrite drop_drop. f_equal. lia. }
    exists (take off rest :: pieces). unfold wstring, wchar_t in *.
    rewrite Hsp, Hrp.
    split; [done|]. rewrite <- !app_assoc. split; [done|].
    by rewrite join_cons.
  - rewrite Z.eqb_refl. cbn [negb]. exists [rest].
    rewrite (size_t_small (length s - base)) by lia.
    rewrite (size_t_small (npos - base))
      by (change npos with (2 ^ 64 - 1); lia).
    assert (Hp1 : substr s base (length s - base) = rest).
    { unfold substr. fold rest. apply take_ge. lia. }
    assert (Hp2 : substr s base (npos - base) = rest).
    { unfold substr. fold rest. apply take_ge.
      change npos with (2 ^ 64 - 1). lia. }
    by rewrite Hp1, Hp2.
Qed.

(** X20. [replace] is [split] followed by a join: for a non-empty string and
    a non-empty needle the new string is made of the pieces [split] cuts,
    with the replacement between them, so replacing the needle by itself
    gives the string back; with an empty string or an empty needle the
    string is left as it is. *)
Theorem replace_joins_split_pieces (s d r : wstring) :
  length s <= SIZE_MAX ->
  (s = [] \/ d = [] -> replace s d r = Some s) /\
  (s <> [] -> d <> [] ->
     (exists pieces, split s d = Some pieces /\
                     replace s d r = Some (join r pieces)) /\
     replace s d d = Some s).
Proof.
  intros Hmax. split.
  - unfold replace. intros [-> | ->]; [done|].
    by destruct (bool_decide (s = [])).
  - intros Hs Hd. unfold replace, split.
    rewrite !bool_decide_eq_false_2 by done. cbn [orb].
    assert (Hbase : 0 <= 0 <= length s) by (unfold length; lia).
    assert (Hfuel : (List.length (drop (Z.to_nat 0) s) < S (List.length s))%nat)
      by (rewrite length_drop; lia).
    split.
    + destruct (replace_loop_spec s d r _ 0 [] [] Hd Hmax Hbase Hfuel)
        as (pieces & _ & Hsp & Hrp).
      by exists pieces.
    + destruct (replace_loop_spec s d d _ 0 [] [] Hd Hmax Hbase Hfuel)
        as (pieces & _ & Hsp & ->).
      destruct (split_loop_spec s d _ 0 [] Hd Hmax Hbase Hfuel)
        as (pieces' & Hsp' & Hjoin & _).
      rewrite Hsp in Hsp'. injection Hsp' as ->. by rewrite Hjoin.
Qed.

(** "a,b,,c" with the commas replaced by " - ". *)
Lemma replace_joins_split_pieces_witness :
  replace [97; 44; 98; 44; 44; 99] [44] [32; 45; 32]
    = Some [97; 32; 45; 32; 98; 32; 45; 32; 32; 45; 32; 99] /\
  replace [97; 44; 98; 44; 44; 99] [44] [44] = Some [97; 44; 98; 44; 44; 99] /\
  replace [97; 44; 98] [] [45] = Some [97; 44; 98].
Proof.
  assert (Hmax : length [97; 44; 98; 44; 44; 99] <= SIZE_MAX)
    by (vm_compute; discriminate).
  assert (Hmax' : length [97; 44; 98] <= SIZE_MAX)
    by (vm_compute; discriminate).
  split; [reflexivity|]. split.
  - apply (proj2 (replace_joins_split_pieces _ [44] [32] Hmax));
      discriminate.
  - apply (proj1 (replace_joins_split_pieces [97; 44; 98] [] [45] Hmax')).
    by right.
Defined.

End str_replace.

Module str_lines.
Import Win32 str str_facts.

Lemma at_index_drop (s : wstring) (k : Z) c c' :
  0 <= k -> at_index s k = Some c -> at_index s (k + 1) = Some c' ->
  exists t, drop (Z.to_nat k) s = c :: c' :: t.
Proof.
  intros Hk Hc Hc'. unfold at_index in *.
  destruct ((0 <=? k) && (k <? length s)); [|done].
  destruct ((0 <=? k + 1) && (k + 1 <? length s)); [|done].
  replace (Z.to_nat (k + 1)) with (S (Z.to_nat k)) in Hc' by lia.
  exists (drop (S (S (Z.to_nat k))) s).
  rewrite (drop_S s c (Z.to_nat k) Hc). f_equal.
  by rewrite (drop_S s c' (S (Z.to_nat k)) Hc').
Qed.

(** What the loop finds on a string that is not empty. *)
Lemma guess_linebreak_loop_finds (s : wstring) fuel i seen :
  0 < length s < 2 ^ 64 -> 0 <= i <= length s - 1 ->
  length s - 1 - i < Z.of_nat fuel ->
  (forall j, 0 <= j < i -> plain_at s j) ->
  exists r, guess_linebreak_loop fuel s i seen = Some r /\
    ((exists k lb t,
        result r = Returned (Some lb) /\ 0 <= k < length s - 1 /\
        (forall j, 0 <= j < k -> plain_at s j) /\
        drop (Z.to_nat k) s = linebreak_chars lb ++ t) \/
     (result r = Returned None /\
      forall j, 0 <= j < length s - 1 -> plain_at s j)).
Proof.
  intros Hlen. revert i seen.
  induction fuel as [|fuel IH]; intros i seen Hi Hfuel Hplain; [lia|].
  cbn [guess_linebreak_loop]. rewrite (size_t_small (length s - 1)) by lia.
  destruct (Z.ltb_spec i (length s - 1)) as [Hlt|Hge].
  { destruct (at_index_inside s i) as [c Hc]; [lia|]. rewrite Hc.
    rewrite (size_t_small (i + 1)) by lia.
    destruct (at_index_inside s (i + 1)) as [c' Hc']; [lia|]. rewrite Hc'.
    destruct (at_index_drop s i c c' ltac:(lia) Hc Hc') as [t Ht].
    destruct (Z.eqb_spec c CR) as [->|Hcr].
    { eexists. split; [reflexivity|]. left. cbn [result].
      destruct (Z.eqb_spec c' LF) as [->|_].
      - exists i, RN, t. by repeat split; try lia.
      - exists i, R, (c' :: t). by repeat split; try lia. }
    destruct (Z.eqb_spec c LF) as [->|Hlf].
    { eexists. split; [reflexivity|]. left. cbn [result].
      destruct (Z.eqb_spec c' CR) as [->|_].
      - exists i, NR, t. by repeat split; try lia.
      - exists i, N, (c' :: t). by repeat split; try lia. }
    apply IH; [lia|lia|]. intros j Hj.
    destruct (decide (j = i)) as [->|]; [by exists c|]. apply Hplain. lia. }
  eexists. split; [reflexivity|]. right. split; [done|].
  intros j Hj. apply Hplain. lia.
Qed.

Lemma plain_prefix (s : wstring) (k : Z) :
  0 <= k -> (forall j, 0 <= j < k -> plain_at s j) ->
  Forall plain (take (Z.to_nat k) s).
Proof.
  intros Hk Hplain. apply Forall_lookup. intros j c Hj.
  apply lookup_take_Some in Hj as [Hj Hlt].
  destruct (Hplain (Z.of_nat j) ltac:(lia)) as (c0 & Hc0 & Hp).
  unfold at_index in Hc0. destruct (_ && _); [|done].
  rewrite Nat2Z.id in Hc0. unfold wstring, wchar_t in *. congruence.
Qed.

(** X21. On a string that is not empty [guess_linebreak] reads only inside
    the string. When it returns a line break, the string is some text free
    of CR and LF, then that line break, then the rest; when it returns
    [nullptr], no character other than the last is a CR or an LF. *)
Theorem guess_linebreak_finds_first (s : wstring) :
  0 < length s < 2 ^ 64 ->
  exists r, guess_linebreak s = Some r /\
    Forall (in_range s) (reads r) /\
    match result r with
    | Returned (Some lb) =>
        exists pre post,
          s = pre ++ linebreak_chars lb ++ post /\ Forall plain pre
    | Returned None =>
        Forall plain (take (List.length s - 1) s)
    | BadRead _ => False
    end.
Proof.
  intros Hlen.
  destruct (guess_linebreak_loop_finds s (S (List.length s)) 0 [] Hlen)
    as (r & Hr & Hres); [lia|unfold length; lia|intros j ?; lia|].
  destruct (guess_linebreak_nonempty_safe s Hlen) as (r' & lb' & Hr' & _ & Hrd).
  unfold guess_linebreak in *. rewrite Hr in Hr'. injection Hr' as <-.
  exists r. split; [done|]. split; [done|].
  destruct Hres as [(k & lb & t & -> & Hk & Hplain & Hdrop)|[-> Hplain]].
  - exists (take (Z.to_nat k) s), t. split.
    + by rewrite <- Hdrop, take_drop.
    + apply plain_prefix; [lia|done].
  - replace (List.length s - 1)%nat with (Z.to_nat (length s - 1))
      by (unfold length; lia).
    apply plain_prefix; [lia|done].
Qed.

Lemma guess_linebreak_finds_first_witness :
  exists r, guess_linebreak [97; 13; 10; 98] = Some r /\
    Forall (in_range [97; 13; 10; 98]) (reads r) /\
    match result r with
    | Returned (Some lb) =>
        exists pre post,
          [97; 13; 10; 98] = pre ++ linebreak_chars lb ++ post /\
          Forall plain pre
    | Returned None => Forall plain (take (4 - 1) [97; 13; 10; 98])
    | BadRead _ => False
    end.
Proof.
  apply (guess_linebreak_finds_first [97; 13; 10; 98]). vm_compute. done.
Defined.

Lemma occurs_counts (d s : wstring) :
  d <> [] -> occurs_in d s -> (1 <= occurrences d s)%nat.
Proof.
  intros Hd (l1 & l2 & ->). rewrite (occurrences_first d _ Hd).
  destruct (first_occurrence_least d l1 l2) as (off & -> & _). lia.
Qed.

Lemma linebreak_chars_nonempty (lb : linebreak) : linebreak_chars lb <> [].
Proof. by destruct lb. Qed.

(** X22. [split_lines] on a string that is not empty. [guess_linebreak]
    returns. When it returns a line break, the result is what [split] cuts
    at that line break: at least two lines which, joined with that very
    line break, make up the string again, no line containing it. When it
    returns [nullptr] there is no defined result, and then no character
    before the last is a CR or an LF. *)
Theorem split_lines_rejoin (s : wstring) :
  0 < length s < 2 ^ 64 ->
  exists r, guess_linebreak s = Some r /\
    match split_lines s with
    | Some lines =>
        exists lb, result r = Returned (Some lb) /\
                   split s (linebreak_chars lb) = Some lines /\
                   join (linebreak_chars lb) lines = s /\
                   (2 <= List.length lines)%nat /\
                   Forall (fun l => ~ occurs_in (linebreak_chars lb) l) lines
    | None => result r = Returned None /\
              Forall plain (take (List.length s - 1) s)
    end.
Proof.
  intros Hlen.
  assert (Hfind : exists r, guess_linebreak s = Some r /\
            match result r with
            | Returned (Some lb) =>
                exists pre post, s = pre ++ linebreak_chars lb ++ post
            | Returned None => Forall plain (take (List.length s - 1) s)
            | BadRead _ => False
            end).
  { destruct (guess_linebreak_loop_finds s (S (List.length s)) 0 [] Hlen)
      as (r & Hr & Hres); [lia|unfold length; lia|intros j ?; lia|].
    exists r. split; [done|].
    destruct Hres as [(k & lb & t & -> & Hk & Hplain & Hdrop)|[-> Hplain]].
    - exists (take (Z.to_nat k) s), t. by rewrite <- Hdrop, take_drop.
    - replace (List.length s - 1)%nat with (Z.to_nat (length s - 1))
        by (unfold length; lia).
      apply plain_prefix; [lia|done]. }
  destruct Hfind as (r & Hr & Hres). exists r. split; [done|].
  unfold split_lines. rewrite Hr.
  destruct r as [rd [[lb|]|i]]; cbn [result] in *; [|done..].
  assert (Hs : s <> []) by (intros ->; unfold length in Hlen; cbn in Hlen; lia).
  destruct (split_loop_spec s (linebreak_chars lb) (S (List.length s)) 0 [])
    as (lines & Hsplit & Hjoin & Hcount & Hnone);
    [apply linebreak_chars_nonempty|change SIZE_MAX with (2 ^ 64 - 1); lia
    |unfold length; lia|rewrite length_drop; lia|].
  assert (Hsp : split s (linebreak_chars lb) = Some lines).
  { unfold split. by rewrite !bool_decide_eq_false_2
      by (done || apply linebreak_chars_nonempty). }
  rewrite Hsp.
  change (drop (Z.to_nat 0) s) with s in *.
  exists lb. split; [done|]. split; [done|]. split; [done|]. split; [|done].
  cbn [app]. rewrite Hcount.
  pose proof (occurs_counts (linebreak_chars lb) s
                (linebreak_chars_nonempty lb) Hres). lia.
Qed.

Lemma split_lines_rejoin_witness :
  split_lines [97; 13; 10; 98; 13; 10; 99] = Some [[97]; [98]; [99]] /\
  exists r, guess_linebreak [97; 13; 10; 98; 13; 10; 99] = Some r /\
    match split_lines [97; 13; 10; 98; 13; 10; 99] with
    | Some lines =>
        exists lb, result r = Returned (Some lb) /\
                   split [97; 13; 10; 98; 13; 10; 99] (linebreak_chars lb)
                     = Some lines /\
                   join (linebreak_chars lb) lines
                     = [97; 13; 10; 98; 13; 10; 99] /\
                   (2 <= List.length lines)%nat /\
                   Forall (fun l => ~ occurs_in (linebreak_chars lb) l) lines
    | None => result r = Returned None /\
              Forall plain (take (7 - 1) [97; 13; 10; 98; 13; 10; 99])
    end.
Proof.
  split; [reflexivity|].
  apply (split_lines_rejoin [97; 13; 10; 98; 13; 10; 99]). vm_compute. done.
Defined.

End str_lines.

Module str_trim.
Import Win32 str str_facts.

Lemma before_nul_prefix (s : list Z) :
  before_nul s = take (List.length (before_nul s)) s /\ 0 ∉ before_nul s.
Proof.
  induction s as [|c s [IH1 IH2]]; cbn.
  - split; [done|apply not_elem_of_nil].
  - destruct (Z.eqb_spec c 0) as [->|Hc]; cbn.
    + split; [done|apply not_elem_of_nil].
    + split; [by rewrite <- IH1|]. by apply not_elem_of_cons.
Qed.

Lemma before_nul_id (s : list Z) : 0 ∉ s -> before_nul s = s.
Proof.
  induction s as [|c s IH]; [done|]. intros [Hc Hs]%not_elem_of_cons. cbn.
  destruct (Z.eqb_spec c 0); [done|]. by rewrite IH.
Qed.

Lemma before_nul_length (s : list Z) :
  (List.length (before_nul s) <= List.length s)%nat.
Proof.
  induction s as [|c s IH]; cbn; [lia|]. destruct (c =? 0); cbn; lia.
Qed.

(** Below [2^31] characters [lstrlenW] does not overflow, and [trim_nulls]
    cuts the string at its first NUL. *)
Lemma trim_nulls_before_nul (s : list Z) :
  length s < 2 ^ 31 -> trim_nulls s = before_nul s.
Proof.
  intros Hlen. unfold trim_nulls. case_bool_decide as Hs; [by subst|].
  pose proof (before_nul_length s) as Hle. unfold length in Hlen.
  unfold lstrlenW, to_int, length. unfold wstring, wchar_t in *.
  change (2 ^ 31) with 2147483648 in *. change (2 ^ 32) with 4294967296.
  rewrite (Z.mod_small (_ + 2147483648)) by lia.
  rewrite Z.add_simpl_r.
  rewrite size_t_small by (change (2 ^ 64) with 18446744073709551616; lia).
  unfold resize. unfold wstring, wchar_t in *. rewrite Nat2Z.id.
  rewrite (proj2 (Nat.sub_0_le _ _) Hle).
  cbn [replicate]. rewrite app_nil_r. symmetry. apply before_nul_prefix.
Qed.

Section with_ctype.
Context `{CType}.

Lemma first_non_space_spec (s : list Z) (i : Z) :
  0 <= i -> i + Z.of_nat (List.length s) < 2 ^ 64 ->
  match first_non_space s i with
  | Some k => exists l c t, s = l ++ c :: t /\ Forall is_space l /\
                            ~ is_space c /\ k = i + Z.of_nat (List.length l)
  | None => Forall is_space s
  end.
Proof.
  revert i. induction s as [|c s IH]; intros i Hi Hlen; [by cbn|].
  cbn [first_non_space]. destruct (iswspace c) eqn:Hc; cbn [negb].
  - cbn [List.length] in Hlen. rewrite (size_t_small (i + 1)) by lia.
    specialize (IH (i + 1) ltac:(lia) ltac:(lia)).
    destruct (first_non_space s (i + 1)) as [k|].
    + destruct IH as (l & c' & t & -> & Hl & Hc' & ->).
      exists (c :: l), c', t. repeat split; [by constructor|done|cbn; lia].
    + by constructor.
  - exists [], c, s. repeat split; [done| |cbn; lia].
    unfold is_space. by rewrite Hc.
Qed.

Lemma last_non_space_spec (s : list Z) (n : nat) :
  (n <= List.length s)%nat ->
  match last_non_space s n with
  | Some k => exists c, 0 <= k < Z.of_nat n /\ s !! Z.to_nat k = Some c /\
                        ~ is_space c /\
                        Forall is_space (drop (S (Z.to_nat k)) (take n s))
  | None => Forall is_space (take n s)
  end.
Proof.
  induction n as [|n IH]; intros Hn; [by cbn; rewrite take_0|].
  cbn [last_non_space]. unfold wstring, wchar_t in *.
  destruct (lookup_lt_is_Some_2 s n ltac:(lia)) as [c Hc]. rewrite Hc.
  assert (Htake : take (S n) s = take n s ++ [c]) by (by apply take_S_r).
  destruct (iswspace c) eqn:Hsp; cbn [negb].
  - specialize (IH ltac:(lia)). destruct (last_non_space s n) as [k|].
    + destruct IH as (c' & Hk & Hc' & Hns & Hall). exists c'.
      repeat split; [lia|lia|done|done|].
      rewrite Htake, drop_app_le by (rewrite length_take; lia).
      apply Forall_app. split; [done|]. by repeat constructor.
    + rewrite Htake. apply Forall_app. split; [done|]. by repeat constructor.
  - exists c. rewrite Nat2Z.id. repeat split; [lia|lia|done| |].
    + unfold is_space. by rewrite Hsp.
    + rewrite drop_ge; [done|]. rewrite length_take. lia.
Qed.

(** The shape of what [trim] returns, for a string without NUL. *)
Lemma trim_shape (s0 : list Z) :
  Z.of_nat (List.length s0) < 2 ^ 31 ->
  match first_non_space s0 0 with
  | None => Forall is_space s0
  | Some iFirst =>
      exists l c m c' r,
        s0 = l ++ m ++ r /\ Forall is_space l /\ Forall is_space r /\
        head m = Some c /\ ~ is_space c /\ last m = Some c' /\ ~ is_space c' /\
        substr s0 iFirst
               (size_t (default (size_t (length s0 - 1))
                                (last_non_space s0 (Z.to_nat (length s0)))
                        - iFirst + 1)) = m
  end.
Proof.
  intros Hlen.
  pose proof (first_non_space_spec s0 0 ltac:(lia) ltac:(lia)) as Hfirst.
  destruct (first_non_space s0 0) as [iFirst|]; [|done].
  destruct Hfirst as (l & c & t & Hs0 & Hl & Hc & ->).
  unfold length. rewrite Nat2Z.id. unfold wstring, wchar_t in *.
  pose proof (last_non_space_spec s0 (List.length s0) ltac:(lia)) as Hlast.
  rewrite firstn_all in Hlast.
  destruct (last_non_space s0 (List.length s0)) as [k|].
  2:{ exfalso. rewrite Hs0 in Hlast.
      apply Forall_app in Hlast as [_ Hlast]. by apply Forall_cons in Hlast as [? _]. }
  destruct Hlast as (c' & Hk & Hc' & Hns & Hr). cbn [default from_option id].
  unfold wstring, wchar_t in *.
  assert (Hkb : k = Z.of_nat (Z.to_nat k)) by lia.
  revert Hkb Hc' Hr. generalize (Z.to_nat k) as b. intros b -> Hc' Hr.
  remember (List.length l) as a eqn:Ha.
  assert (Hab : (a <= b)%nat).
  { destruct (decide (a <= b)%nat) as [|Hlt]; [done|]. exfalso.
    assert (Hin : drop (S b) s0 !! (a - S b)%nat = Some c).
    { rewrite lookup_drop. replace (S b + (a - S b))%nat with a by lia.
      rewrite Hs0, Ha. by rewrite list_lookup_middle. }
    by apply (Forall_lookup_1 _ _ _ _ Hr) in Hin. }
  assert (Hb : (b < List.length s0)%nat) by (by apply lookup_lt_Some in Hc').
  rewrite (size_t_small (Z.of_nat b - (0 + Z.of_nat a) + 1)) by lia.
  unfold substr.
  replace (Z.to_nat (0 + Z.of_nat a)) with a by lia.
  replace (Z.to_nat (Z.of_nat b - (0 + Z.of_nat a) + 1)) with (S (b - a)) by lia.
  set (m := take (S (b - a)) (drop a s0)).
  exists l, c, m, c', (drop (S b) s0).
  assert (Hdrop : drop a s0 = c :: t).
  { rewrite Hs0, Ha. by rewrite drop_app_length. }
  split; [|split; [done|split; [done|split; [|split; [done|split; [|done]]]]]].
  - rewrite <- (take_drop a s0) at 1. f_equal.
    { rewrite Hs0, Ha. by rewrite take_app_length. }
    rewrite <- (take_drop (S (b - a)) (drop a s0)) at 1. f_equal.
    rewrite drop_drop. f_equal. lia.
  - unfold m. by rewrite Hdrop.
  - unfold m. rewrite last_lookup. rewrite length_take, length_drop.
    replace (Init.Nat.pred (S (b - a) `min` (List.length s0 - a)))%nat
      with (b - a)%nat by lia.
    rewrite lookup_take_lt by lia. rewrite lookup_drop.
    by replace (a + (b - a))%nat with b by lia.
Qed.

Lemma trim_unfold (s : list Z) :
  s <> [] ->
  trim s =
    match first_non_space (trim_nulls s) 0 with
    | None => []
    | Some iFirst =>
        substr (trim_nulls s) iFirst
          (size_t (default (size_t (length (trim_nulls s) - 1))
                           (last_non_space (trim_nulls s)
                              (Z.to_nat (length (trim_nulls s))))
                   - iFirst + 1))
    end.
Proof. intros Hs. unfold trim. by rewrite bool_decide_eq_false_2. Qed.

(** X23. [trim], on a string of fewer than [2^31] characters: the string is
    first cut at its first NUL; what is returned is that text without the
    spaces at its two ends: the text is [l ++ trim s ++ r] with [l] and [r]
    made of spaces only, and the result is empty or begins and ends with a
    character that is not a space. Trimming again changes nothing. *)
Theorem trim_strips_both_ends (s : wstring) :
  length s < 2 ^ 31 ->
  (exists l r, before_nul s = l ++ trim s ++ r /\
               Forall is_space l /\ Forall is_space r) /\
  (trim s = [] \/
   exists c c', head (trim s) = Some c /\ ~ is_space c /\
                last (trim s) = Some c' /\ ~ is_space c') /\
  trim (trim s) = trim s.
Proof.
  intros Hlen. unfold wstring, wchar_t in *.
  assert (Hshape : forall t : list Z,
            Z.of_nat (List.length t) < 2 ^ 31 -> 0 ∉ t -> t <> [] ->
            (exists l r, t = l ++ trim t ++ r /\
                         Forall is_space l /\ Forall is_space r) /\
            (trim t = [] \/
             exists c c', head (trim t) = Some c /\ ~ is_space c /\
                          last (trim t) = Some c' /\ ~ is_space c')).
  { intros t Ht Hnul Hne. rewrite (trim_unfold t Hne).
    rewrite trim_nulls_before_nul, before_nul_id by done.
    pose proof (trim_shape t Ht) as Hsh.
    destruct (first_non_space t 0) as [iFirst|].
    - destruct Hsh as (l & c & m & c' & r & Ht' & Hl & Hr & Hh & Hc & Hla & Hc'
                       & ->).
      split; [by exists l, r|]. right. by exists c, c'.
    - split; [|by left]. exists t, []. by rewrite app_nil_r. }
  assert (Hfix : forall t : list Z,
            Z.of_nat (List.length t) < 2 ^ 31 -> 0 ∉ t ->
            (t = [] \/ exists c c', head t = Some c /\ ~ is_space c /\
                                    last t = Some c' /\ ~ is_space c') ->
            trim t = t).
  { intros t Ht Hnul [->|(c & c' & Hh & Hc & Hla & Hc')]; [done|].
    assert (Hne : t <> []) by (by intros ->).
    destruct (Hshape t Ht Hnul Hne) as [(l & r & Heq & Hl & Hr) _].
    destruct l as [|x l].
    2:{ rewrite Heq in Hh. cbn in Hh. injection Hh as ->.
        by apply Forall_cons in Hl as [? _]. }
    destruct r as [|y r] using rev_ind; [by rewrite app_nil_r in Heq|].
    exfalso. rewrite Heq, !app_assoc, last_snoc in Hla. injection Hla as ->.
    apply Forall_app in Hr as [_ Hr]. by apply Forall_cons in Hr as [? _]. }
  assert (Hempty : before_nul s = [] -> trim s = [] ->
            (exists l r : list Z, before_nul s = l ++ trim s ++ r /\
                         Forall is_space l /\ Forall is_space r) /\
            (trim s = [] \/
             exists c c', head (trim s) = Some c /\ ~ is_space c /\
                          last (trim s) = Some c' /\ ~ is_space c') /\
            trim (trim s) = trim s).
  { intros Hb Ht. rewrite Ht, Hb. split; [by exists [], []|].
    split; [by left|done]. }
  destruct (decide (s = [])) as [->|Hs]; [by apply Hempty|].
  pose proof (before_nul_prefix s) as [Hpre Hnul].
  pose proof (before_nul_length s) as Hble. unfold length in Hlen.
  unfold wstring, wchar_t in *.
  assert (Htrim : trim s = trim (before_nul s) \/
                  (before_nul s = [] /\ trim s = [])).
  { rewrite (trim_unfold s Hs), trim_nulls_before_nul by done.
    destruct (decide (before_nul s = [])) as [Hb|Hb].
    - right. split; [done|]. by rewrite Hb.
    - left. rewrite (trim_unfold _ Hb).
      rewrite (trim_nulls_before_nul (before_nul s))
        by (unfold length, wstring, wchar_t in *; lia).
      by rewrite (before_nul_id (before_nul s)). }
  destruct Htrim as [Htrim|[Hb Htrim]].
  2:{ by apply Hempty. }
  destruct (decide (before_nul s = [])) as [Hb|Hb].
  { apply Hempty; [done|]. by rewrite Htrim, Hb. }
  clear Hempty. rewrite Htrim.
  destruct (Hshape (before_nul s) ltac:(lia) Hnul Hb) as [Hlr Hends].
  split; [done|]. split; [done|].
  destruct Hlr as (l & r & Heq & _).
  apply Hfix; [|  |done].
  - apply (f_equal List.length) in Heq. rewrite !length_app in Heq. lia.
  - intros Hin. apply Hnul. rewrite Heq.
    apply elem_of_app. right. apply elem_of_app. by left.
Qed.

End with_ctype.

Lemma trim_strips_both_ends_witness :
  @trim c_locale [32; 9; 97; 32; 98; 32; 10] = [97; 32; 98] /\
  @trim c_locale (@trim c_locale [32; 9; 97; 32; 98; 32; 10])
    = @trim c_locale [32; 9; 97; 32; 98; 32; 10].
Proof.
  split; [reflexivity|].
  apply (@trim_strips_both_ends c_locale [32; 9; 97; 32; 98; 32; 10]).
  vm_compute. reflexivity.
Defined.

End str_trim.

Module str_multi_zero.
Import Win32 str str_facts.

(** One string of a multi-string, read at the pointer. *)
Lemma before_nul_app (x q : list Z) :
  0 ∉ x -> before_nul (x ++ 0 :: q) = x.
Proof.
  induction x as [|c x IH]; [done|]. intros [Hc Hx]%not_elem_of_cons. cbn.
  destruct (Z.eqb_spec c 0); [done|]. by rewrite IH.
Qed.

Lemma next_string_app (x q : list Z) :
  0 ∉ x -> Z.of_nat (List.length x) < 2 ^ 31 ->
  next_string (x ++ 0 :: q) = q.
Proof.
  intros Hx Hlen. unfold next_string, lstrlenW, to_int, length.
  rewrite before_nul_app by done. unfold wstring, wchar_t in *.
  change (2 ^ 31) with 2147483648 in *. change (2 ^ 32) with 4294967296.
  rewrite (Z.mod_small (_ + 2147483648)) by lia. rewrite Z.add_simpl_r.
  rewrite !size_t_small
    by (rewrite ?size_t_small;
        change (2 ^ 64) with 18446744073709551616; lia).
  replace (Z.to_nat (Z.of_nat (List.length x) + 1))
    with (List.length x + 1)%nat by lia.
  rewrite <- drop_drop, drop_app_length. done.
Qed.

Lemma terminated_app (x q : list Z) : terminated (x ++ 0 :: q) = true.
Proof.
  unfold terminated. apply bool_decide_eq_true_2.
  apply elem_of_app. right. apply list_elem_of_here.
Qed.

Lemma multi_zero_cons (x : list Z) (ss : list wstring) :
  multi_zero (x :: ss) = x ++ 0 :: multi_zero ss.
Proof.
  unfold multi_zero. cbn. unfold wstring, wchar_t in *.
  by rewrite <- !app_assoc.
Qed.

Lemma multi_zero_length (ss : list wstring) :
  (List.length ss < List.length (multi_zero ss))%nat.
Proof.
  induction ss as [|x ss IH]; [cbn; lia|]. rewrite multi_zero_cons.
  unfold wstring, wchar_t in *. rewrite length_app. cbn. lia.
Qed.

Local Ltac pow_lia :=
  change (2 ^ 31) with 2147483648 in *;
  change (2 ^ 64) with 18446744073709551616 in *; lia.

Lemma count_strings_multi_zero (ss : list wstring) (rest : list Z)
      (fuel : nat) (n : Z) :
  Forall (fun x : list Z => x <> [] /\ 0 ∉ x) ss ->
  Z.of_nat (List.length (multi_zero ss)) < 2 ^ 31 ->
  (List.length ss < fuel)%nat ->
  0 <= n -> n + Z.of_nat (List.length ss) < 2 ^ 64 ->
  count_strings fuel (multi_zero ss ++ rest) n
    = Some (n + Z.of_nat (List.length ss)).
Proof.
  revert fuel n. induction ss as [|x ss IH]; intros fuel n Hss Hlen Hfuel Hn Hmax.
  - destruct fuel as [|fuel]; [cbn in Hfuel; lia|]. cbn. f_equal. lia.
  - destruct fuel as [|fuel]; [cbn in Hfuel; lia|].
    apply Forall_cons in Hss as [[Hne Hx] Hss].
    rewrite multi_zero_cons in *. unfold wstring, wchar_t in *.
    rewrite length_app in Hlen. cbn [List.length] in Hlen, Hfuel, Hmax.
    pose proof (multi_zero_length ss) as Hlt. unfold wstring, wchar_t in *.
    rewrite <- app_assoc. cbn [app count_strings].
    destruct x as [|c x]; [done|]. cbn [app at_pointer head].
    apply not_elem_of_cons in Hx as Hx'. destruct Hx' as [Hc Hx'].
    destruct (Z.eqb_spec c 0) as [|_]; [done|].
    change (c :: x ++ 0 :: multi_zero ss ++ rest)
      with ((c :: x) ++ 0 :: multi_zero ss ++ rest).
    rewrite terminated_app, next_string_app by (done || pow_lia).
    rewrite size_t_small by pow_lia.
    rewrite IH by (done || pow_lia). f_equal. cbn [List.length]. lia.
Qed.

Lemma copy_strings_multi_zero (ss : list wstring) (rest : list Z) :
  Forall (fun x : list Z => x <> [] /\ 0 ∉ x) ss ->
  Z.of_nat (List.length (multi_zero ss)) < 2 ^ 31 ->
  copy_strings (List.length ss) (multi_zero ss ++ rest) = Some ss.
Proof.
  induction ss as [|x ss IH]; intros Hss Hlen; [done|].
  apply Forall_cons in Hss as [[Hne Hx] Hss].
  rewrite multi_zero_cons in *. unfold wstring, wchar_t in *.
  rewrite length_app in Hlen. cbn [List.length] in Hlen.
  rewrite <- app_assoc. cbn [app List.length copy_strings].
  rewrite terminated_app, next_string_app, before_nul_app by (done || pow_lia).
  rewrite IH by (done || pow_lia). done.
Qed.

(** X24. [split_multi_zero] decodes a multi-string: given a buffer that
    begins with the strings of [ss], each followed by a NUL, and one more
    NUL, it returns [ss], whatever follows in the buffer. The strings are
    not empty, hold no NUL, and the whole is shorter than [2^31]
    characters. *)
Theorem split_multi_zero_decodes (ss : list wstring) (rest : wstring) :
  Forall (fun x : wstring => x <> [] /\ 0 ∉ (x : list Z)) ss ->
  length (multi_zero ss) < 2 ^ 31 ->
  split_multi_zero (multi_zero ss ++ rest) = Some ss.
Proof.
  intros Hss Hlen. unfold length in Hlen. unfold split_multi_zero.
  pose proof (multi_zero_length ss) as Hlt. unfold wstring, wchar_t in *.
  rewrite count_strings_multi_zero; unfold wstring, wchar_t in *.
  - rewrite Z.add_0_l, Nat2Z.id. by apply copy_strings_multi_zero.
  - done.
  - done.
  - rewrite length_app. lia.
  - lia.
  - pow_lia.
Qed.

Lemma split_multi_zero_decodes_witness :
  split_multi_zero ([97; 98; 0; 99; 0; 0] ++ [100; 101])
    = Some [[97; 98]; [99]].
Proof.
  apply (split_multi_zero_decodes [[97; 98]; [99]] [100; 101]).
  - repeat constructor; try discriminate; decide_closed.
  - vm_compute. reflexivity.
Defined.

End str_multi_zero.
